(** * Adaptive multi-signal fusion: orchestrator, sentiment fusion,
      historical patterns and performance tracker

    A shallow embedding of the JavaScript sources

    - the agent orchestrator service ([aggregateSignals]),
    - [agents/marketSentiment.js] ([enhancedCombineAnalysis] and helpers),
    - [services/historicalAnalysis.js] (pattern statistics),
    - [services/performanceTracker.js] (tracking, validation, weights,
      calibration, statistics),
    - [agents/riskManagement.js] (the risk assessments and the risk signal)
      and the technical agent's indicators and signal,

    followed by the properties of the written specification that concern
    them.

    Numbers.  A JavaScript number is modelled by an exact rational [Q]; the
    comparisons, [Math.min], [Math.max], [Math.abs] and [Math.round] used by
    the sources are the exact ones.  Rounding error of binary64 arithmetic,
    [NaN] and the infinities are outside the model: the bounds stated
    below are chosen to hold for the rounded values as well, and no
    property below depends on the value of a division by zero.  A property
    that may be [undefined] in the source is an [option].

    Effects.  The tracker object is a record passed from call to call; the
    generated identifier, the captured market conditions, the fetched price
    and the current instant are arguments of the calls, and a validation
    timer is the later call of [validatePrediction].  Console output is
    left out. *)

From Stdlib Require Import QArith Qminmax Qabs Qround Lqa.
From stdpp Require Import base list strings.

Set Default Proof Using "Type".
Local Open Scope Q_scope.

(** ** JavaScript primitives used by the sources *)

Module Js.

(** [Math.round x]: the nearest integer, a tie going up. *)
Definition round (x : Q) : Q := inject_Z (Qfloor (x + (1 # 2))).

Definition max3 (a b c : Q) : Q := Qmax (Qmax a b) c.

(** [a > b], [a < b], [a >= b], [a <= b] and [a === b] on numbers. *)
Definition gt (a b : Q) : bool := negb (Qle_bool a b).
Definition lt (a b : Q) : bool := negb (Qle_bool b a).
Definition ge (a b : Q) : bool := Qle_bool b a.
Definition le (a b : Q) : bool := Qle_bool a b.
Definition eq (a b : Q) : bool := Qeq_bool a b.

(** [x || d] for a possibly undefined number: [undefined] and [0] are
    falsy. *)
Definition num_or (x : option Q) (d : Q) : Q :=
  match x with
  | Some v => if Qeq_bool v 0 then d else v
  | None => d
  end.

(** Truthiness of a possibly undefined string: [undefined] and the empty
    string are falsy. *)
Definition truthy (s : option string) : bool :=
  match s with
  | Some EmptyString => false
  | Some _ => true
  | None => false
  end.

(** [s === lit] for a possibly undefined string. *)
Definition str_is (s : option string) (lit : string) : bool :=
  match s with
  | Some v => bool_decide (v = lit)
  | None => false
  end.

(** A comparison with an [undefined] operand is [false]. *)
Definition gt_opt (a b : option Q) : bool :=
  match a, b with
  | Some x, Some y => gt x y
  | _, _ => false
  end.

(** [l.slice(-n)]: the last [n] elements; [-0] is [0], so [l.slice(-0)]
    is the whole array. *)
Definition slice_last {A} (n : nat) (l : list A) : list A :=
  match n with
  | O => l
  | S _ => drop (length l - n) l
  end.

End Js.

(** ** The agent orchestrator: [aggregateSignals] *)

Module Orchestrator.

Inductive AgentType := technical | sentiment | research | risk.

(** What the orchestrator reads of an agent's result. *)
Record AgentResult := {
  signal : option string;
  confidence : option Q
}.

(** The object literal [{technical, sentiment, research, risk}] built by
    [runAnalysis]; [Object.keys] lists its keys in this order. *)
Record Results := {
  r_technical : AgentResult;
  r_sentiment : AgentResult;
  r_research : AgentResult;
  r_risk : AgentResult
}.

Definition keys : list AgentType := [technical; sentiment; research; risk].

Definition get (results : Results) (agentType : AgentType) : AgentResult :=
  match agentType with
  | technical => r_technical results
  | sentiment => r_sentiment results
  | research => r_research results
  | risk => r_risk results
  end.

(** [this.agentWeights] *)
Definition agentWeights (agentType : AgentType) : Q :=
  match agentType with
  | technical => 35 # 100
  | sentiment => 25 # 100
  | research => 25 # 100
  | risk => 15 # 100
  end.

Definition is_risk (agentType : AgentType) : bool :=
  match agentType with risk => true | _ => false end.

Record Signals := { BUY : Q; SELL : Q; HOLD : Q }.

Inductive ReasoningPart :=
| AgentLine (agentType : AgentType) (sig : option string) (conf : option Q)
| RiskLine (text : string).

(** The variables the [forEach] loop updates. *)
Record Tally := {
  signals : Signals;
  totalConfidence : Q;
  validAgents : nat;
  reasoningParts : list ReasoningPart
}.

Definition tally0 : Tally :=
  {| signals := {| BUY := 0; SELL := 0; HOLD := 0 |};
     totalConfidence := 0;
     validAgents := 0%nat;
     reasoningParts := [] |}.

(** One iteration of [Object.keys(results).forEach]. *)
Definition processAgent (results : Results) (t : Tally) (agentType : AgentType)
  : Tally :=
  let result := get results agentType in
  if Js.truthy (signal result) && negb (is_risk agentType) then
    let weight := agentWeights agentType in
    let conf := Js.num_or (confidence result) 50 / 100 in
    let weightedScore := weight * conf in
    let s := signals t in
    let s' :=
      if Js.str_is (signal result) "BUY"
         || Js.str_is (signal result) "APPROVE_TRADE"
      then {| BUY := BUY s + weightedScore; SELL := SELL s; HOLD := HOLD s |}
      else if Js.str_is (signal result) "SELL"
      then {| BUY := BUY s; SELL := SELL s + weightedScore; HOLD := HOLD s |}
      else {| BUY := BUY s; SELL := SELL s; HOLD := HOLD s + weightedScore |} in
    {| signals := s';
       totalConfidence := totalConfidence t + Js.num_or (confidence result) 50;
       validAgents := S (validAgents t);
       reasoningParts :=
         reasoningParts t
           ++ [AgentLine agentType (signal result) (confidence result)] |}
  else t.

Definition processAgents (results : Results) : Tally :=
  fold_left (processAgent results) keys tally0.

(** The risk management modifier and the line it adds to the reasoning. *)
Definition riskModifier (riskResult : AgentResult) : Q :=
  if Js.str_is (signal riskResult) "AVOID_TRADE" then 3 # 10
  else if Js.str_is (signal riskResult) "CAUTIOUS_TRADE" then 7 # 10
  else 1.

Definition riskLine (riskResult : AgentResult) : ReasoningPart :=
  if Js.str_is (signal riskResult) "AVOID_TRADE"
  then RiskLine "Risk: HIGH RISK - Trade discouraged"
  else if Js.str_is (signal riskResult) "CAUTIOUS_TRADE"
  then RiskLine "Risk: MODERATE - Trade with caution"
  else RiskLine "Risk: LOW - Trade approved".

Definition finalAction (s : Signals) : string :=
  let maxSignal := Js.max3 (BUY s) (SELL s) (HOLD s) in
  if Js.eq maxSignal (BUY s) && Js.gt (BUY s) (4 # 10) then "BUY"
  else if Js.eq maxSignal (SELL s) && Js.gt (SELL s) (4 # 10) then "SELL"
  else "HOLD".

Definition baseConfidence (t : Tally) : Q :=
  if (0 <? validAgents t)%nat
  then totalConfidence t / inject_Z (Z.of_nat (validAgents t))
  else 50.

(** The object returned by [aggregateSignals]; these are all its
    properties. *)
Record Decision := {
  action : string;
  d_confidence : Q;
  reasoning : list ReasoningPart;
  signalStrength : Signals;
  riskAdjustment : Q
}.

Definition aggregateSignals (results : Results) : Decision :=
  let t := processAgents results in
  let riskResult := r_risk results in
  let riskModifier := riskModifier riskResult in
  let adjustedConfidence := Js.round (baseConfidence t * riskModifier) in
  let finalConfidence := Qmax 20 (Qmin 95 adjustedConfidence) in
  {| action := finalAction (signals t);
     d_confidence := finalConfidence;
     reasoning := reasoningParts t ++ [riskLine riskResult];
     signalStrength :=
       {| BUY := Js.round (BUY (signals t) * 100);
          SELL := Js.round (SELL (signals t) * 100);
          HOLD := Js.round (HOLD (signals t) * 100) |};
     riskAdjustment := Js.round ((1 - riskModifier) * 100) |}.

End Orchestrator.

(** ** The historical pattern matcher *)

Module HistoricalAnalysis.

(** A historical sample, as [generateDataPoint] builds it (its [timestamp]
    is not read by the analysis). *)
Record DataPoint := {
  price : Q;
  volatility : Q;
  volume : Q;
  momentum : Q;
  hour : Q;
  minute : Q;
  actualOutcome : Q;
  signal : string
}.

(** The current market conditions passed by the sentiment agent. *)
Record Conditions := {
  c_volatility : Q;
  c_momentum : Q;
  c_volumeRatio : Q;
  c_hour : Q
}.

Definition isSimilar (current : Conditions) (point : DataPoint) : bool :=
  let volSimilar :=
    Js.lt (Qabs (volatility point - c_volatility current)) (5 # 10) in
  let momentumSimilar :=
    Js.lt (Qabs (momentum point - c_momentum current)) (3 # 10) in
  let volumeSimilar :=
    Js.lt (Qabs (volume point / 50000000 - c_volumeRatio current)) (3 # 10) in
  let timeSimilar := Js.le (Qabs (hour point - c_hour current)) 1 in
  volSimilar && momentumSimilar && volumeSimilar && timeSimilar.

Definition findSimilarConditions (historicalData : list DataPoint)
    (current : Conditions) : list DataPoint :=
  filter (fun point => isSimilar current point = true) historicalData.

Definition isCorrect (condition : DataPoint) : bool :=
  let predicted := signal condition in
  let actual := actualOutcome condition in
  if bool_decide (predicted = "BUY") && Js.gt actual 0 then true
  else if bool_decide (predicted = "SELL") && Js.lt actual 0 then true
  else if bool_decide (predicted = "HOLD") && Js.lt (Qabs actual) (1 # 10)
  then true
  else false.

Definition count (l : list DataPoint) : Q := inject_Z (Z.of_nat (length l)).

Definition calculatePatternAccuracy (similarConditions : list DataPoint) : Q :=
  match similarConditions with
  | [] => 50
  | _ =>
    let correctPredictions :=
      filter (fun c => isCorrect c = true) similarConditions in
    Js.round (count correctPredictions / count similarConditions * 100)
  end.

Definition calculateAvgOutcome (similarConditions : list DataPoint) : Q :=
  match similarConditions with
  | [] => 0
  | _ =>
    fold_left (fun sum condition => sum + actualOutcome condition)
      similarConditions 0 / count similarConditions
  end.

Definition calculateHistoricalConfidence (accuracy : Q) : string :=
  if Js.ge accuracy 80 then "HIGH"
  else if Js.ge accuracy 60 then "MEDIUM"
  else "LOW".

Definition calculateConfidenceAdjustment (accuracy : Q) : Q :=
  if Js.ge accuracy 80 then 12 # 10
  else if Js.ge accuracy 60 then 1
  else if Js.ge accuracy 40 then 8 # 10
  else 6 # 10.

Definition countSignal (s : string) (l : list DataPoint) : Q :=
  count (filter (fun c => signal c = s) l).

Definition identifyDominantPattern (similarConditions : list DataPoint)
  : string :=
  match similarConditions with
  | [] => "INSUFFICIENT_DATA"
  | _ =>
    let buyCount := countSignal "BUY" similarConditions in
    let sellCount := countSignal "SELL" similarConditions in
    let holdCount := countSignal "HOLD" similarConditions in
    let max := Js.max3 buyCount sellCount holdCount in
    if Js.eq max buyCount then "BULLISH_PATTERN"
    else if Js.eq max sellCount then "BEARISH_PATTERN"
    else "NEUTRAL_PATTERN"
  end.

Definition calculateRiskAdjustment (similarConditions : list DataPoint) : Q :=
  match similarConditions with
  | [] => 1
  | _ =>
    let outcomes := map (fun c => Qabs (actualOutcome c)) similarConditions in
    let avgVolatility :=
      fold_left Qplus outcomes 0 / inject_Z (Z.of_nat (length outcomes)) in
    if Js.gt avgVolatility (5 # 10) then 13 # 10
    else if Js.gt avgVolatility (3 # 10) then 11 # 10
    else 1
  end.

(** The object returned by [analyzeHistoricalPatterns]. *)
Record Analysis := {
  similarCount : nat;
  avgOutcome : Q;
  accuracy : Q;
  confidence : string;
  confidenceAdjustment : Q;
  dominantPattern : string;
  riskAdjustment : Q
}.

(** [analyzeHistoricalPatterns] on the cached samples [historicalData];
    when the cache is empty [loadHistoricalData] fills it with the
    generated samples, here [simulated]. *)
Definition analyzeHistoricalPatterns (historicalData simulated : list DataPoint)
    (currentData : Conditions) : Analysis :=
  let data :=
    match historicalData with [] => simulated | _ => historicalData end in
  let similarConditions := findSimilarConditions data currentData in
  let patternAccuracy := calculatePatternAccuracy similarConditions in
  let confidenceAdjustment := calculateConfidenceAdjustment patternAccuracy in
  {| similarCount := length similarConditions;
     avgOutcome := calculateAvgOutcome similarConditions;
     accuracy := patternAccuracy;
     confidence := calculateHistoricalConfidence patternAccuracy;
     confidenceAdjustment := confidenceAdjustment;
     dominantPattern := identifyDominantPattern similarConditions;
     riskAdjustment := calculateRiskAdjustment similarConditions |}.

(** What [analyzeHistoricalPatterns] returns when the analysis throws. *)
Definition getFallbackHistoricalAnalysis : Analysis :=
  {| similarCount := 0;
     avgOutcome := 0;
     accuracy := 50;
     confidence := "MEDIUM";
     confidenceAdjustment := 1;
     dominantPattern := "INSUFFICIENT_DATA";
     riskAdjustment := 1 |}.

End HistoricalAnalysis.

(** ** The performance tracker *)

Module PerformanceTracker.

(** [this.modelWeights] *)
Record ModelWeights := {
  ai : Q;
  technical : Q;
  historical : Q
}.

(** The [agentData] recorded with a prediction; a caller may leave the
    weights out (its [marketConditions] are never read back). *)
Record AgentData := {
  aiWeight : option Q;
  traditionalWeight : option Q;
  historicalWeight : option Q
}.

(** The result of [captureMarketConditions]. *)
Record MarketConditions := {
  mc_price : Q;
  mc_volatility : Q;
  mc_volume : Q;
  mc_time : Q;
  mc_changePercent : Q
}.

(** A tracked prediction; [None] is JavaScript's [null] (or, for
    [actualPrice], a property not yet set). Instants are milliseconds. *)
Record Prediction := {
  id : string;
  signal : string;
  confidence : Q;
  targetPrice : Q;
  timestamp : Z;
  actualOutcome : option Q;
  accuracy : option Q;
  validationTime : option Z;
  agentData : AgentData;
  marketConditions : MarketConditions;
  actualPrice : option Q
}.

(** An entry of [this.results]. *)
Record Result := {
  r_id : string;
  r_signal : string;
  r_predicted : Q;
  r_actual : Q;
  r_accuracy : Q;
  r_confidence : Q;
  r_timestamp : Z;
  r_validationTime : Z
}.

(** The tracker object. *)
Record Tracker := {
  predictions : list Prediction;
  results : list Result;
  modelWeights : ModelWeights
}.

Definition excellent : Q := 80.
Definition good : Q := 65.
Definition poor : Q := 45.
Definition maxPredictions : nat := 500.

(** The state built by the constructor. *)
Definition init : Tracker :=
  {| predictions := [];
     results := [];
     modelWeights := {| ai := 6 # 10; technical := 4 # 10; historical := 0 |} |}.

(** [null] read as a number. *)
Definition num (x : option Q) : Q := default 0 x.

(** [trackPrediction]: [newId] is the generated identifier and
    [conditions] the captured market conditions; the validation timer it
    arms is the later call of [validatePrediction newId]. *)
Definition trackPrediction (t : Tracker) (newId : string) (sig : string)
    (conf targetP : Q) (time : Z) (data : AgentData)
    (conditions : MarketConditions) : Tracker :=
  let prediction :=
    {| id := newId; signal := sig; confidence := conf; targetPrice := targetP;
       timestamp := time; actualOutcome := None; accuracy := None;
       validationTime := None; agentData := data;
       marketConditions := conditions; actualPrice := None |} in
  let ps := predictions t ++ [prediction] in
  let ps :=
    if (maxPredictions <? length ps)%nat
    then Js.slice_last maxPredictions ps else ps in
  {| predictions := ps; results := results t; modelWeights := modelWeights t |}.

Definition calculateConfidenceAccuracy (conf baseAccuracy : Q) : Q :=
  let confidenceError := Qabs (conf - baseAccuracy) in
  if Js.lt confidenceError 10 then 100
  else if Js.lt confidenceError 20 then 80
  else if Js.lt confidenceError 30 then 60
  else 40.

(** The [baseAccuracy] that [calculateAccuracy] computes first. *)
Definition baseAccuracy (sig : string) (actualMove : Q) : Q :=
  if bool_decide (sig = "BUY") && Js.gt actualMove 0
  then Qmin 100 (70 + actualMove * 10)
  else if bool_decide (sig = "SELL") && Js.lt actualMove 0
  then Qmin 100 (70 + Qabs actualMove * 10)
  else if bool_decide (sig = "HOLD") && Js.lt (Qabs actualMove) (2 # 10)
  then 80
  else if bool_decide (sig = "HOLD") && Js.lt (Qabs actualMove) (5 # 10)
  then 60
  else Qmax 0 (30 - Qabs actualMove * 5).

Definition calculateAccuracy (sig : string) (actualMove conf : Q) : Q :=
  let baseAccuracy := baseAccuracy sig actualMove in
  let confidenceAccuracy := calculateConfidenceAccuracy conf baseAccuracy in
  Qmax 0 (Qmin 100 ((baseAccuracy + confidenceAccuracy) / 2)).

Record RecentAccuracy := {
  overall : Q;
  ra_count : nat;
  trend : string
}.

Definition validated (p : Prediction) : bool :=
  match actualOutcome p with Some _ => true | None => false end.

Definition sumAccuracy (ps : list Prediction) : Q :=
  fold_left (fun sum p => sum + num (accuracy p)) ps 0.

Definition average (ps : list Prediction) : Q :=
  sumAccuracy ps / inject_Z (Z.of_nat (length ps)).

Definition getRecentAccuracy (t : Tracker) (count : nat) : RecentAccuracy :=
  let recentPredictions :=
    Js.slice_last count
      (filter (fun p => validated p = true) (predictions t)) in
  match recentPredictions with
  | [] => {| overall := 50; ra_count := 0; trend := "INSUFFICIENT_DATA" |}
  | _ =>
    let overallAccuracy := average recentPredictions in
    let half := (length recentPredictions / 2)%nat in
    let firstHalf := take half recentPredictions in
    let secondHalf := drop half recentPredictions in
    let trend :=
      if (0 <? length firstHalf)%nat && (0 <? length secondHalf)%nat then
        let firstAccuracy := average firstHalf in
        let secondAccuracy := average secondHalf in
        let trend :=
          if Js.gt secondAccuracy (firstAccuracy + 5)
          then "IMPROVING" else "STABLE" in
        if Js.lt secondAccuracy (firstAccuracy - 5)
        then "DECLINING" else trend
      else "STABLE" in
    {| overall := overallAccuracy;
       ra_count := length recentPredictions;
       trend := trend |}
  end.

(** [adjustModelWeights]: the new value of [this.modelWeights]. *)
Definition adjustModelWeights (t : Tracker) (prediction : Prediction)
  : ModelWeights :=
  let acc := num (accuracy prediction) in
  let data := agentData prediction in
  let recentAccuracy := getRecentAccuracy t 20 in
  let w := modelWeights t in
  if Js.gt acc excellent then
    if Js.gt_opt (aiWeight data) (traditionalWeight data)
       && Js.gt acc (overall recentAccuracy)
    then {| ai := Qmin (8 # 10) (ai w + (2 # 100));
            technical := Qmax (2 # 10) (technical w - (2 # 100));
            historical := historical w |}
    else w
  else if Js.lt acc poor then
    if Js.gt_opt (aiWeight data) (traditionalWeight data)
    then {| ai := Qmax (3 # 10) (ai w - (3 # 100));
            technical := Qmin (7 # 10) (technical w + (3 # 100));
            historical := historical w |}
    else w
  else w.

(** [validatePrediction]: [currentPrice] is the price read from the market
    data service, [None] when the read throws (the error is caught and
    logged); [now] is [new Date()].  The movement is an exact quotient: for
    a [targetPrice] of 0 the code computes NaN or an infinity, values that
    the rationals do not have, so statements about the scores of a run are
    made for target prices other than 0. *)
Definition validatePrediction (t : Tracker) (predictionId : string)
    (currentPrice : option Q) (now : Z) : Tracker :=
  match list_find (fun p => id p = predictionId) (predictions t) with
  | None => t
  | Some (i, prediction) =>
    match actualOutcome prediction with
    | Some _ => t
    | None =>
      match currentPrice with
      | None => t
      | Some actualP =>
        let actualMove :=
          (actualP - targetPrice prediction) / targetPrice prediction * 100 in
        let acc :=
          calculateAccuracy (signal prediction) actualMove
            (confidence prediction) in
        let prediction' :=
          {| id := id prediction; signal := signal prediction;
             confidence := confidence prediction;
             targetPrice := targetPrice prediction;
             timestamp := timestamp prediction;
             actualOutcome := Some actualMove; accuracy := Some acc;
             validationTime := Some now; agentData := agentData prediction;
             marketConditions := marketConditions prediction;
             actualPrice := Some actualP |} in
        let ps := <[i := prediction']> (predictions t) in
        let rs :=
          results t
            ++ [{| r_id := id prediction; r_signal := signal prediction;
                   r_predicted := targetPrice prediction; r_actual := actualP;
                   r_accuracy := acc; r_confidence := confidence prediction;
                   r_timestamp := timestamp prediction;
                   r_validationTime := now |}] in
        let t1 :=
          {| predictions := ps; results := rs;
             modelWeights := modelWeights t |} in
        let w := adjustModelWeights t1 prediction' in
        let rs :=
          if (maxPredictions <? length rs)%nat
          then Js.slice_last maxPredictions rs else rs in
        {| predictions := ps; results := rs; modelWeights := w |}
      end
    end
  end.

(** A bucket of [calculateConfidenceCalibration]. *)
Record Range := {
  min : Q;
  max : Q;
  r_predictions : list Prediction
}.

Definition ranges0 : list Range :=
  [ {| min := 80; max := 100; r_predictions := [] |};
    {| min := 60; max := 79; r_predictions := [] |};
    {| min := 40; max := 59; r_predictions := [] |};
    {| min := 20; max := 39; r_predictions := [] |} ].

Definition inRange (p : Prediction) (r : Range) : bool :=
  Js.ge (confidence p) (min r) && Js.le (confidence p) (max r).

(** One iteration of [predictions.forEach]: push [p] on the first range
    that holds its confidence, if there is one. *)
Definition assign (ranges : list Range) (p : Prediction) : list Range :=
  match list_find (fun r => inRange p r = true) ranges with
  | Some (i, range) =>
    <[i := {| min := min range; max := max range;
              r_predictions := r_predictions range ++ [p] |}]> ranges
  | None => ranges
  end.

Definition groupByRange (ps : list Prediction) : list Range :=
  fold_left assign ps ranges0.

(** An entry of the calibration report; the two averages are absent for an
    empty range, and [c_range] stands for the label [min-max]. *)
Record Calibration := {
  c_range : Q * Q;
  calibration : Q;
  c_count : nat;
  avgConfidence : option Q;
  avgAccuracy : option Q
}.

Definition calibrate (range : Range) : Calibration :=
  match r_predictions range with
  | [] => {| c_range := (min range, max range); calibration := 0;
             c_count := 0; avgConfidence := None; avgAccuracy := None |}
  | ps =>
    let n := inject_Z (Z.of_nat (length ps)) in
    let avgC := fold_left (fun sum p => sum + confidence p) ps 0 / n in
    let avgA := fold_left (fun sum p => sum + num (accuracy p)) ps 0 / n in
    {| c_range := (min range, max range);
       calibration := Qabs (avgC - avgA);
       c_count := length ps;
       avgConfidence := Some avgC;
       avgAccuracy := Some avgA |}
  end.

Definition calculateConfidenceCalibration (ps : list Prediction)
  : list Calibration :=
  map calibrate (groupByRange ps).

Definition getOptimalWeights (t : Tracker) : ModelWeights := modelWeights t.

End PerformanceTracker.

(** ** The sentiment agent's fusion: [enhancedCombineAnalysis] *)

Module MarketSentiment.

(** [traditional.overallSentiment], possibly absent. *)
Record Sentiment := {
  s_signal : option string;
  s_confidence : option Q
}.

(** What the fusion reads of the traditional analysis. *)
Record Traditional := {
  overallSentiment : option Sentiment;
  intraDayRange : Q;
  volumeRatio : Q
}.

(** What the fusion reads of the AI analysis. *)
Record AI := {
  tradingSignal : option string;
  ai_confidence : Q
}.

Record Microstructure := {
  liquidityRisk : string;
  orderFlowBias : string;
  institutionalSentiment : string;
  depthQuality : string;
  flowImbalance : Q;
  smartMoneyFlow : string
}.

Import PerformanceTracker (ModelWeights, ai, technical, historical).

(** [signalScores[s] || 0] *)
Definition signalScore (s : option string) : Q :=
  if Js.str_is s "BUY" then 1
  else if Js.str_is s "SELL" then -1
  else 0.

Definition getHistoricalSignalScore (h : HistoricalAnalysis.Analysis) : Q :=
  if bool_decide (HistoricalAnalysis.dominantPattern h = "BULLISH_PATTERN")
  then 8 # 10
  else if bool_decide
            (HistoricalAnalysis.dominantPattern h = "BEARISH_PATTERN")
  then - (8 # 10)
  else 0.

Definition getMicrostructureSignalScore (m : Microstructure) : Q :=
  let score := 0 in
  let score :=
    if bool_decide (orderFlowBias m = "BULLISH") then score + (6 # 10)
    else if bool_decide (orderFlowBias m = "BEARISH") then score - (6 # 10)
    else score in
  let score :=
    if bool_decide (institutionalSentiment m = "BULLISH")
    then score + (4 # 10)
    else if bool_decide (institutionalSentiment m = "BEARISH")
    then score - (4 # 10)
    else score in
  Qmax (-1) (Qmin 1 score).

Definition getMicrostructureConfidence (m : Microstructure) : Q :=
  let confidence := 50 in
  let confidence :=
    if bool_decide (liquidityRisk m = "LOW") then confidence + 15
    else if bool_decide (liquidityRisk m = "HIGH") then confidence - 15
    else confidence in
  let confidence :=
    if bool_decide (depthQuality m = "EXCELLENT") then confidence + 10
    else if bool_decide (depthQuality m = "POOR") then confidence - 10
    else confidence in
  Qmax 20 (Qmin 80 confidence).

Definition calculateExpectedMove (h : HistoricalAnalysis.Analysis)
    (m : Microstructure) (signal : string) : Q :=
  let baseMove :=
    if bool_decide (signal = "BUY") then 3 # 10
    else if bool_decide (signal = "SELL") then - (3 # 10)
    else 0 in
  let baseMove :=
    if negb (Js.eq (HistoricalAnalysis.avgOutcome h) 0)
       && Js.gt (Qabs (HistoricalAnalysis.avgOutcome h)) (1 # 10)
    then HistoricalAnalysis.avgOutcome h * (7 # 10)
    else baseMove in
  if Js.gt (flowImbalance m) (7 # 10) then baseMove * (12 # 10) else baseMove.

(** The normalised and condition-adjusted weights
    [(aiWeight, traditionalWeight, historicalWeight, microWeight)]. *)
Definition totalWeight (optimalWeights : ModelWeights) : Q :=
  ai optimalWeights + technical optimalWeights
  + Js.num_or (Some (historical optimalWeights)) (2 # 10) + (15 # 100).

Definition adjustedWeights (traditional : Traditional)
    (optimalWeights : ModelWeights) (currentHour : Q) : Q * Q * Q * Q :=
  let total := totalWeight optimalWeights in
  let aiWeight := ai optimalWeights / total in
  let traditionalWeight := technical optimalWeights / total in
  let historicalWeight :=
    Js.num_or (Some (historical optimalWeights)) (2 # 10) / total in
  let microWeight := (15 # 100) / total in
  let isOpeningHour := Js.eq currentHour 9 in
  let isClosingHour := Js.ge currentHour 15 in
  let '(historicalWeight, aiWeight) :=
    if Js.gt (intraDayRange traditional) 2
    then (historicalWeight * (13 # 10), aiWeight * (9 # 10))
    else (historicalWeight, aiWeight) in
  let '(aiWeight, microWeight) :=
    if isOpeningHour || isClosingHour
    then (aiWeight * (12 # 10), microWeight * (14 # 10))
    else (aiWeight, microWeight) in
  (aiWeight, traditionalWeight, historicalWeight, microWeight).

Definition confidenceMultiplier (h : HistoricalAnalysis.Analysis)
    (m : Microstructure) : Q :=
  let c := Js.num_or (Some (HistoricalAnalysis.confidenceAdjustment h)) 1 in
  let c := if Js.gt (HistoricalAnalysis.accuracy h) 80
           then c * (11 # 10) else c in
  let c := if Js.lt (HistoricalAnalysis.accuracy h) 50
           then c * (9 # 10) else c in
  let c := if bool_decide (liquidityRisk m = "HIGH")
           then c * (8 # 10) else c in
  if bool_decide (orderFlowBias m = "NEUTRAL") then c else c * (11 # 10).

Definition sentimentSignal (traditional : Traditional) : option string :=
  match overallSentiment traditional with
  | Some s => if Js.truthy (s_signal s) then s_signal s else Some "HOLD"
  | None => Some "HOLD"
  end.

Definition sentimentConfidence (traditional : Traditional) : Q :=
  match overallSentiment traditional with
  | Some s => Js.num_or (s_confidence s) 50
  | None => 50
  end.

Definition historicalConfidenceValue (h : HistoricalAnalysis.Analysis) : Q :=
  if bool_decide (HistoricalAnalysis.confidence h = "HIGH") then 80
  else if bool_decide (HistoricalAnalysis.confidence h = "MEDIUM") then 60
  else 40.

(** The numeric part of the object returned by [enhancedCombineAnalysis]
    (the remaining properties are texts derived from it). *)
Record Enhanced := {
  signal : string;
  confidence : Q;
  expectedMove : Q
}.

(** [currentHour] is [new Date().getHours()]. *)
Definition enhancedCombineAnalysis (traditional : Traditional) (a : AI)
    (h : HistoricalAnalysis.Analysis) (m : Microstructure)
    (optimalWeights : ModelWeights) (currentHour : Q) : Enhanced :=
  let '(aiWeight, traditionalWeight, historicalWeight, microWeight) :=
    adjustedWeights traditional optimalWeights currentHour in
  let confidenceMultiplier := confidenceMultiplier h m in
  let traditionalScore := signalScore (sentimentSignal traditional) in
  let aiScore := signalScore (tradingSignal a) in
  let historicalScore := getHistoricalSignalScore h in
  let microScore := getMicrostructureSignalScore m in
  let combinedScore :=
    traditionalScore * traditionalWeight + aiScore * aiWeight
    + historicalScore * historicalWeight + microScore * microWeight in
  let finalSignal :=
    if Js.gt combinedScore (25 # 100) then "BUY"
    else if Js.lt combinedScore (- (25 # 100)) then "SELL"
    else "HOLD" in
  let traditionalConfidence := sentimentConfidence traditional in
  let rawConfidence :=
    Js.round
      (traditionalConfidence * traditionalWeight
       + ai_confidence a * aiWeight
       + historicalConfidenceValue h * historicalWeight
       + getMicrostructureConfidence m * microWeight) in
  let finalConfidence :=
    Qmin 95 (Qmax 20 (rawConfidence * confidenceMultiplier)) in
  {| signal := finalSignal;
     confidence := finalConfidence;
     expectedMove := calculateExpectedMove h m finalSignal |}.

End MarketSentiment.


(** * Vocabulary of the statements

    Views of the loop of [aggregateSignals] used to state and prove its
    properties. *)

Module OrchestratorView.

Import Orchestrator.

(** Whether the loop counts an agent, and what it adds for it. *)
Definition reports (results : Results) (a : AgentType) : bool :=
  Js.truthy (signal (get results a)) && negb (is_risk a).

Definition score (results : Results) (a : AgentType) : Q :=
  agentWeights a * (Js.num_or (confidence (get results a)) 50 / 100).

Definition votesBuy (res : AgentResult) : bool :=
  Js.str_is (signal res) "BUY" || Js.str_is (signal res) "APPROVE_TRADE".

Definition votesSell (res : AgentResult) : bool :=
  negb (votesBuy res) && Js.str_is (signal res) "SELL".

(** Every voting (non-risk) agent reports the action [X]. *)
Definition allReport (results : Results) (X : string) : Prop :=
  forall a, is_risk a = false -> signal (get results a) = Some X.

(** The sum the loop accumulates when all three voting agents report. *)
Definition unanimousScore (results : Results) : Q :=
  0 + score results technical + score results sentiment
  + score results research.

(** The same results with another risk opinion. *)
Definition withRisk (results : Results) (riskResult : AgentResult) : Results :=
  {| r_technical := r_technical results;
     r_sentiment := r_sentiment results;
     r_research := r_research results;
     r_risk := riskResult |}.

End OrchestratorView.

(** Views of the tracker: the movement [validatePrediction] computes, the
    direction test and the blend of [calculateAccuracy], a history of
    calls, the bounds of the weights and the buckets of the calibration. *)

Module TrackerView.

Import PerformanceTracker.

(** [actualMove] for a reference price and the price at validation. *)
Definition priceMove (targetP actualP : Q) : Q :=
  (actualP - targetP) / targetP * 100.

(** The movement goes the way of the action. *)
Definition matchesDirection (sig : string) (move : Q) : Prop :=
  (sig = "BUY" /\ 0 < move) \/ (sig = "SELL" /\ move < 0).

(** The mean of a base accuracy and of its calibration term. *)
Definition blend (conf b : Q) : Q :=
  (b + calculateConfidenceAccuracy conf b) / 2.

(** A call of the tracker: a prediction is tracked, or a validation timer
    fires. *)
Inductive Call :=
| Track (newId sig : string) (conf targetP : Q) (time : Z) (data : AgentData)
    (conditions : MarketConditions)
| Validate (predictionId : string) (currentPrice : option Q) (now : Z).

Definition call (t : Tracker) (c : Call) : Tracker :=
  match c with
  | Track newId sig conf targetP time data conditions =>
    trackPrediction t newId sig conf targetP time data conditions
  | Validate predictionId currentPrice now =>
    validatePrediction t predictionId currentPrice now
  end.

Definition run (calls : list Call) (t : Tracker) : Tracker :=
  fold_left call calls t.

(** The bounds that [adjustModelWeights] enforces on the two adapted
    weights. *)
Definition withinBounds (w : ModelWeights) : Prop :=
  (3 # 10 <= ai w <= 8 # 10) /\ (2 # 10 <= technical w <= 7 # 10).

(** The prediction that [validatePrediction] looks at for an identifier,
    with its index. *)
Definition lookupPrediction (t : Tracker) (predictionId : string)
  : option (nat * Prediction) :=
  list_find (fun p => id p = predictionId) (predictions t).

(** The index of the range that receives a prediction. *)
Definition bucketOf (p : Prediction) : option nat :=
  fst <$> list_find (fun r => inRange p r = true) ranges0.

(** The four ranges holding the given lists of predictions. *)
Definition buckets (content : nat -> list Prediction) : list Range :=
  [ {| min := 80; max := 100; r_predictions := content 0%nat |};
    {| min := 60; max := 79; r_predictions := content 1%nat |};
    {| min := 40; max := 59; r_predictions := content 2%nat |};
    {| min := 20; max := 39; r_predictions := content 3%nat |} ].

(** A confidence that no range holds: below 20 or in a gap between two
    ranges. *)
Definition betweenRanges (c : Q) : Prop :=
  c < 20 \/ (39 < c < 40) \/ (59 < c < 60) \/ (79 < c < 80).

End TrackerView.

(** * Sample inputs *)

Module Samples.

Import Orchestrator.

Definition agent (s : string) (c : Q) : AgentResult :=
  {| signal := Some s; confidence := Some c |}.

(** An agent result without a signal. *)
Definition silent : AgentResult := {| signal := None; confidence := None |}.

(** What [RiskManagementAgent.analyze] returns when its analysis throws. *)
Definition riskError : AgentResult := agent "HOLD" 0.

(** Three agents report BUY at 80, 70 and 60; risk approves. *)
Definition strongBuy : Results :=
  {| r_technical := agent "BUY" 80; r_sentiment := agent "BUY" 70;
     r_research := agent "BUY" 60; r_risk := agent "APPROVE_TRADE" 80 |}.

(** Three agents report BUY at 40; risk approves. *)
Definition weakBuy : Results :=
  {| r_technical := agent "BUY" 40; r_sentiment := agent "BUY" 40;
     r_research := agent "BUY" 40; r_risk := agent "APPROVE_TRADE" 80 |}.

(** Only the technical agent reports. *)
Definition loneBuy : Results :=
  {| r_technical := agent "BUY" 90; r_sentiment := silent;
     r_research := silent; r_risk := agent "APPROVE_TRADE" 80 |}.

(** The three agents of [strongBuy], the risk agent having failed. *)
Definition riskErrored : Results :=
  OrchestratorView.withRisk strongBuy riskError.

(** Two historical samples of the trading session and market conditions
    observed at three o'clock at night, which no sample resembles. *)
Definition sessionData : list HistoricalAnalysis.DataPoint :=
  [ {| HistoricalAnalysis.price := 19800; HistoricalAnalysis.volatility := 1;
       HistoricalAnalysis.volume := 50000000;
       HistoricalAnalysis.momentum := 0; HistoricalAnalysis.hour := 10;
       HistoricalAnalysis.minute := 15;
       HistoricalAnalysis.actualOutcome := 2 # 10;
       HistoricalAnalysis.signal := "BUY" |};
    {| HistoricalAnalysis.price := 19810; HistoricalAnalysis.volatility := 1;
       HistoricalAnalysis.volume := 50000000;
       HistoricalAnalysis.momentum := 0; HistoricalAnalysis.hour := 11;
       HistoricalAnalysis.minute := 0;
       HistoricalAnalysis.actualOutcome := - (1 # 10);
       HistoricalAnalysis.signal := "SELL" |} ].

Definition nightConditions : HistoricalAnalysis.Conditions :=
  {| HistoricalAnalysis.c_volatility := 1; HistoricalAnalysis.c_momentum := 0;
     HistoricalAnalysis.c_volumeRatio := 1; HistoricalAnalysis.c_hour := 3 |}.

(** Inputs of the sentiment agent's fusion. *)
Definition traditional : MarketSentiment.Traditional :=
  {| MarketSentiment.overallSentiment :=
       Some {| MarketSentiment.s_signal := Some "BUY";
               MarketSentiment.s_confidence := Some 85 |};
     MarketSentiment.intraDayRange := 1;
     MarketSentiment.volumeRatio := 1 |}.

Definition aiAnalysis : MarketSentiment.AI :=
  {| MarketSentiment.tradingSignal := Some "BUY";
     MarketSentiment.ai_confidence := 84 |}.

Definition microstructure : MarketSentiment.Microstructure :=
  {| MarketSentiment.liquidityRisk := "MEDIUM";
     MarketSentiment.orderFlowBias := "NEUTRAL";
     MarketSentiment.institutionalSentiment := "NEUTRAL";
     MarketSentiment.depthQuality := "GOOD";
     MarketSentiment.flowImbalance := 5 # 10;
     MarketSentiment.smartMoneyFlow := "NEUTRAL" |}.

Definition nightAnalysis : HistoricalAnalysis.Analysis :=
  HistoricalAnalysis.analyzeHistoricalPatterns sessionData [] nightConditions.

Definition enhanced : MarketSentiment.Enhanced :=
  MarketSentiment.enhancedCombineAnalysis traditional aiAnalysis nightAnalysis
    microstructure (PerformanceTracker.modelWeights PerformanceTracker.init) 11.

End Samples.

Module TrackerSamples.

Import PerformanceTracker TrackerView.

(** The agent data the sentiment agent records with the default weights,
    and some market conditions. *)
Definition defaultData : AgentData :=
  {| aiWeight := Some (6 # 10); traditionalWeight := Some (4 # 10);
     historicalWeight := Some 0 |}.

Definition calm : MarketConditions :=
  {| mc_price := 100; mc_volatility := 1; mc_volume := 50000000;
     mc_time := 10; mc_changePercent := 0 |}.

(** A BUY at confidence 85 and reference price 100, validated fifteen
    minutes later at the price 101.5. *)
Definition resolved : Tracker :=
  run [ Track "pred_1" "BUY" 85 100 0 defaultData calm;
        Validate "pred_1" (Some (1015 # 10)) 900000 ] init.

(** A BUY that turns out wrong, then a BUY that turns out right. *)
Definition poorThenExcellent : list Call :=
  [ Track "pred_1" "BUY" 85 100 0 defaultData calm;
    Validate "pred_1" (Some 98) 900000;
    Track "pred_2" "BUY" 85 100 900000 defaultData calm;
    Validate "pred_2" (Some (1015 # 10)) 1800000 ].

(** Distinct identifiers. *)
Fixpoint tag (n : nat) : string :=
  match n with
  | O => "p"
  | S k => String.append "p" (tag k)
  end.

(** [n] wrong BUY predictions in a row, each validated at the price 98. *)
Fixpoint poorStreak (n : nat) : list Call :=
  match n with
  | O => []
  | S k =>
    poorStreak k
      ++ [ Track (tag k) "BUY" 85 100 0 defaultData calm;
           Validate (tag k) (Some 98) 900000 ]
  end.

(** [n] right BUY predictions in a row, each validated at a higher price
    than the one before. *)
Fixpoint excellentStreak (n : nat) : list Call :=
  match n with
  | O => []
  | S k =>
    excellentStreak k
      ++ [ Track (tag k) "BUY" 85 100 0 defaultData calm;
           Validate (tag k)
             (Some ((1015 # 10) + inject_Z (Z.of_nat k) / 20)) 900000 ]
  end.

(** A validated prediction with the given confidence and accuracy. *)
Definition validatedAt (newId : string) (conf acc : Q) : Prediction :=
  {| id := newId; signal := "BUY"; confidence := conf; targetPrice := 100;
     timestamp := 0; actualOutcome := Some 1; accuracy := Some acc;
     validationTime := Some 900000%Z; agentData := defaultData;
     marketConditions := calm; actualPrice := Some 101 |}.

(** A prediction made at the confidence 59.2 of [Samples.enhanced]. *)
Definition inTheGap : Prediction := validatedAt "gap" (592 # 10) 80.

End TrackerSamples.

(** ** The performance tracker: reporting *)

Module PerformanceStats.

Import PerformanceTracker.

(** [getModelAccuracy] *)
Definition getModelAccuracy (t : Tracker) : Q :=
  let validPredictions :=
    filter (fun p => validated p = true) (predictions t) in
  match validPredictions with
  | [] => 50
  | _ => sumAccuracy validPredictions
         / inject_Z (Z.of_nat (length validPredictions))
  end.

(** [calculateSignalAccuracy] *)
Definition calculateSignalAccuracy (ps : list Prediction) (sig : string) : Q :=
  let signalPredictions := filter (fun p => signal p = sig) ps in
  match signalPredictions with
  | [] => 50
  | _ => sumAccuracy signalPredictions
         / inject_Z (Z.of_nat (length signalPredictions))
  end.

Record BySignal := { s_BUY : Q; s_SELL : Q; s_HOLD : Q }.

(** The object returned by [getPerformanceStats]; [recentAccuracy] and
    [confidenceCalibration] are absent when nothing is validated yet. *)
Record Stats := {
  totalPredictions : nat;
  overallAccuracy : Q;
  bySignal : BySignal;
  recentAccuracy : option Q;
  recentTrend : string;
  st_modelWeights : ModelWeights;
  confidenceCalibration : option (list Calibration)
}.

Definition getPerformanceStats (t : Tracker) : Stats :=
  let validPredictions :=
    filter (fun p => validated p = true) (predictions t) in
  match validPredictions with
  | [] =>
    {| totalPredictions := 0;
       overallAccuracy := 50;
       bySignal := {| s_BUY := 50; s_SELL := 50; s_HOLD := 50 |};
       recentAccuracy := None;
       recentTrend := "INSUFFICIENT_DATA";
       st_modelWeights := modelWeights t;
       confidenceCalibration := None |}
  | _ =>
    let bySignal :=
      {| s_BUY := calculateSignalAccuracy validPredictions "BUY";
         s_SELL := calculateSignalAccuracy validPredictions "SELL";
         s_HOLD := calculateSignalAccuracy validPredictions "HOLD" |} in
    let recent := getRecentAccuracy t 20 in
    {| totalPredictions := length validPredictions;
       overallAccuracy := getModelAccuracy t;
       bySignal := bySignal;
       recentAccuracy := Some (overall recent);
       recentTrend := trend recent;
       st_modelWeights := modelWeights t;
       confidenceCalibration :=
         Some (calculateConfidenceCalibration validPredictions) |}
  end.

(** The object returned by [exportPerformanceData], without its
    [timestamp]. *)
Record Export := {
  e_predictions : list Prediction;
  e_stats : Stats;
  e_weights : ModelWeights
}.

Definition exportPerformanceData (t : Tracker) : Export :=
  {| e_predictions := filter (fun p => validated p = true) (predictions t);
     e_stats := getPerformanceStats t;
     e_weights := modelWeights t |}.

End PerformanceStats.

(** ** The risk management agent *)

Module RiskManagement.

(** The index data read by the agents; [None] is a property that is
    missing. *)
Record NiftyData := {
  currentPrice : Q;
  volume : option Q;
  changePercent : option Q;
  high : option Q;
  low : option Q
}.

(** An entry of the historical data. *)
Record Candle := {
  close : Q;
  c_high : Q;
  c_low : Q;
  c_volume : Q
}.

(** Truthiness of a number. *)
Definition nonzero (x : Q) : bool := negb (Js.eq x 0).

(** The pairs [(historicalData[i-1], historicalData[i])] visited by a loop
    from [i = 1]. *)
Definition steps (historicalData : list Candle) : list (Candle * Candle) :=
  zip historicalData (drop 1 historicalData).

Definition sum (l : list Q) : Q := fold_left Qplus l 0.

Definition size {A} (l : list A) : Q := inject_Z (Z.of_nat (length l)).

(** The level and score chosen by three descending thresholds. *)
Record Risk := { level : string; score : Q }.

Record LiquidityRisk := {
  lr_risk : Risk;
  lr_volumeRatio : Q;
  lr_currentVolume : Q;
  lr_impact : string
}.

Definition assessLiquidityRisk (niftyData : NiftyData) : LiquidityRisk :=
  let volume := Js.num_or (volume niftyData) 0 in
  let avgVolume := 50000000 in
  let volumeRatio := volume / avgVolume in
  let r :=
    if Js.lt volumeRatio (3 # 10) then {| level := "HIGH"; score := 8 # 10 |}
    else if Js.lt volumeRatio (6 # 10)
    then {| level := "MEDIUM"; score := 5 # 10 |}
    else if Js.lt volumeRatio (8 # 10)
    then {| level := "LOW_MEDIUM"; score := 3 # 10 |}
    else {| level := "LOW"; score := 2 # 10 |} in
  {| lr_risk := r;
     lr_volumeRatio := volumeRatio;
     lr_currentVolume := volume;
     lr_impact :=
       if bool_decide (level r = "HIGH")
       then "Difficult to execute large orders"
       else "Normal execution expected" |}.

(** [calculateAverageChange]; [None] is a missing history. *)
Definition calculateAverageChange (historicalData : option (list Candle)) : Q :=
  match historicalData with
  | None => 1
  | Some data =>
    if (length data <? 2)%nat then 1
    else
      let changes :=
        omap (fun '(prev, cur) =>
                if nonzero (close cur) && nonzero (close prev)
                then Some (Qabs ((close cur - close prev) / close prev * 100))
                else None) (steps data) in
      if (0 <? length changes)%nat then sum changes / size changes else 1
  end.

(** [recent.every((data, i) => i === 0 || data.close >= recent[i-1].close)] *)
Definition rising (recent : list Candle) : bool :=
  forallb (fun '(prev, cur) => Js.ge (close cur) (close prev)) (steps recent).

Definition getMarketCondition (currentData : NiftyData)
    (historicalData : option (list Candle)) : string :=
  match historicalData with
  | None => "UNKNOWN"
  | Some data =>
    if (length data <? 5)%nat then "UNKNOWN"
    else
      let recent := Js.slice_last 5 data in
      let trend := rising recent in
      if trend && Js.gt_opt (changePercent currentData) (Some 0)
      then "BULL_TREND"
      else if negb trend && Js.gt_opt (Some 0) (changePercent currentData)
      then "BEAR_TREND"
      else "SIDEWAYS"
  end.

Record MarketRisk := {
  mr_risk : Risk;
  mr_currentChange : Q;
  mr_avgChange : Q;
  mr_marketCondition : string
}.

Definition assessMarketRisk (currentData : NiftyData)
    (historicalData : option (list Candle)) : MarketRisk :=
  let changePercent := Qabs (Js.num_or (changePercent currentData) 0) in
  let avgChange := calculateAverageChange historicalData in
  let r :=
    if Js.gt changePercent (avgChange * 2)
    then {| level := "HIGH"; score := 8 # 10 |}
    else if Js.gt changePercent (avgChange * (15 # 10))
    then {| level := "MEDIUM"; score := 5 # 10 |}
    else if Js.gt changePercent avgChange
    then {| level := "LOW_MEDIUM"; score := 3 # 10 |}
    else {| level := "LOW"; score := 2 # 10 |} in
  {| mr_risk := r;
     mr_currentChange := changePercent;
     mr_avgChange := avgChange;
     mr_marketCondition := getMarketCondition currentData historicalData |}.

(** [assessConcentrationRisk], [assessCorrelationRisk] and
    [assessTimeDecayRisk] return fixed assessments. *)
Definition assessConcentrationRisk : Risk :=
  {| level := "LOW"; score := 2 # 10 |}.

Definition assessCorrelationRisk : Risk :=
  {| level := "MEDIUM"; score := 4 # 10 |}.

Definition assessTimeDecayRisk : Risk :=
  {| level := "LOW"; score := 1 # 10 |}.

(** [getCurrentDrawdown]: the fall of the last close from the highest
    close of the last twenty entries, in percent. *)
Definition getCurrentDrawdown (historicalData : list Candle) : Q :=
  if (length historicalData <? 2)%nat then 0
  else
    let currentPrice := default 0 (close <$> last historicalData) in
    let lookback := Nat.min 20 (length historicalData) in
    let recentPeak :=
      fold_left (fun peak c => if Js.gt (close c) peak then close c else peak)
        (Js.slice_last lookback historicalData) currentPrice in
    (recentPeak - currentPrice) / recentPeak * 100.

(** The loop of [calculateDrawdownRisk]: the running peak and the largest
    relative fall from it. *)
Definition drawdownStep (st : Q * Q) (c : Candle) : Q * Q :=
  let '(peak, maxDrawdown) := st in
  let peak := if Js.gt (close c) peak then close c else peak in
  let drawdown := (peak - close c) / peak in
  (peak, if Js.gt drawdown maxDrawdown then drawdown else maxDrawdown).

Record DrawdownRisk := {
  dr_risk : Risk;
  dr_maxDrawdown : Q;
  dr_currentDrawdown : option Q
}.

Definition unknownDrawdown : DrawdownRisk :=
  {| dr_risk := {| level := "UNKNOWN"; score := 5 # 10 |};
     dr_maxDrawdown := 0;
     dr_currentDrawdown := None |}.

Definition calculateDrawdownRisk (historicalData : option (list Candle))
  : DrawdownRisk :=
  match historicalData with
  | None => unknownDrawdown
  | Some data =>
    if (length data <? 10)%nat then unknownDrawdown
    else
      match data with
      | [] => unknownDrawdown
      | first :: rest =>
        let '(_, maxDrawdown) := fold_left drawdownStep rest (close first, 0) in
        let maxDrawdown := maxDrawdown * 100 in
        let r :=
          if Js.gt maxDrawdown 10 then {| level := "HIGH"; score := 8 # 10 |}
          else if Js.gt maxDrawdown 5
          then {| level := "MEDIUM"; score := 5 # 10 |}
          else if Js.gt maxDrawdown 2
          then {| level := "LOW_MEDIUM"; score := 3 # 10 |}
          else {| level := "LOW"; score := 2 # 10 |} in
        {| dr_risk := r;
           dr_maxDrawdown := maxDrawdown;
           dr_currentDrawdown := Some (getCurrentDrawdown data) |}
      end
  end.

Definition calculateIntraDayVolatility (currentData : NiftyData) : Q :=
  let high := Js.num_or (high currentData) (currentPrice currentData) in
  let low := Js.num_or (low currentData) (currentPrice currentData) in
  let close := currentPrice currentData in
  (high - low) / close * 100.

Record StopLoss := {
  buyStopLoss : Q;
  sellStopLoss : Q;
  sl_percentage : Q
}.

Record Target := {
  buyTarget : Q;
  sellTarget : Q;
  tg_percentage : Q
}.

(** [calculateStopLoss] and [calculateTarget] read the level of the
    volatility risk. *)
Definition calculateStopLoss (currentData : NiftyData) (volatilityLevel : string)
  : StopLoss :=
  let currentPrice := currentPrice currentData in
  let stopLossPercent :=
    if bool_decide (volatilityLevel = "HIGH") then 3
    else if bool_decide (volatilityLevel = "LOW") then 15 # 10
    else 2 in
  {| buyStopLoss := currentPrice * (1 - stopLossPercent / 100);
     sellStopLoss := currentPrice * (1 + stopLossPercent / 100);
     sl_percentage := stopLossPercent |}.

Definition calculateTarget (currentData : NiftyData) (volatilityLevel : string)
  : Target :=
  let currentPrice := currentPrice currentData in
  let targetPercent :=
    if bool_decide (volatilityLevel = "HIGH") then 25 # 10
    else if bool_decide (volatilityLevel = "LOW") then 1
    else 15 # 10 in
  {| buyTarget := currentPrice * (1 + targetPercent / 100);
     sellTarget := currentPrice * (1 - targetPercent / 100);
     tg_percentage := targetPercent |}.

(** What [generateRiskSignal] reads of the analysis. *)
Record Analysis := {
  volatilityRisk : Risk;
  liquidityRisk : LiquidityRisk;
  marketRisk : MarketRisk;
  drawdownRisk : DrawdownRisk;
  correlationRisk : Risk
}.

(** What the AI risk analysis returns. *)
Record AiInsights := {
  ai_signal : option string;
  ai_riskLevel : string;
  ai_confidence : option Q
}.

Definition identifyKeyRisks (analysis : Analysis) : list string :=
  let risks :=
    (if Js.gt (score (volatilityRisk analysis)) (6 # 10)
     then ["High volatility"] else [])
    ++ (if Js.gt (score (lr_risk (liquidityRisk analysis))) (6 # 10)
        then ["Liquidity concerns"] else [])
    ++ (if Js.gt (score (mr_risk (marketRisk analysis))) (6 # 10)
        then ["Market stress"] else [])
    ++ (if Js.gt (score (dr_risk (drawdownRisk analysis))) (6 # 10)
        then ["Drawdown risk"] else []) in
  match risks with
  | [] => ["Normal market conditions"]
  | _ => risks
  end.

(** A recommendation: a fixed text, or the note on the current drawdown
    with the value it prints. *)
Inductive Recommendation :=
| Text (s : string)
| DrawdownNote (currentDrawdown : Q).

Definition overallRiskScore (analysis : Analysis) : Q :=
  score (volatilityRisk analysis) * (3 # 10)
  + score (lr_risk (liquidityRisk analysis)) * (2 # 10)
  + score (mr_risk (marketRisk analysis)) * (25 # 100)
  + score (dr_risk (drawdownRisk analysis)) * (15 # 100)
  + score (correlationRisk analysis) * (1 # 10).

(** The object returned by [generateRiskSignal]; its [reasoning] text is
    made of [riskScore] and [keyRisks]. *)
Record RiskSignal := {
  action : string;
  confidence : Q;
  riskScore : Q;
  keyRisks : list string;
  recommendations : list Recommendation
}.

Definition generateRiskSignal (analysis : Analysis) (aiInsights : AiInsights)
  : RiskSignal :=
  let overallRiskScore := overallRiskScore analysis in
  let '(action, confidence, recommendations) :=
    if Js.lt overallRiskScore (3 # 10)
    then ("APPROVE_TRADE", 80,
          [Text "Low risk environment suitable for trading"])
    else if Js.lt overallRiskScore (6 # 10)
    then ("CAUTIOUS_TRADE", 60,
          [Text "Moderate risk - reduce position size";
           Text "Use tighter stop-losses"])
    else ("AVOID_TRADE", 75,
          [Text "High risk environment - consider avoiding new positions";
           Text "Focus on capital preservation"]) in
  let recommendations :=
    recommendations
    ++ (if bool_decide (level (volatilityRisk analysis) = "HIGH")
        then [Text "High volatility detected - use smaller position sizes"]
        else [])
    ++ (if bool_decide (level (lr_risk (liquidityRisk analysis)) = "HIGH")
        then [Text "Low liquidity - expect wider spreads and slippage"]
        else [])
    ++ (match dr_currentDrawdown (drawdownRisk analysis) with
        | Some d => if Js.gt d 3 then [DrawdownNote d] else []
        | None => []
        end) in
  {| action := action;
     confidence := confidence;
     riskScore := overallRiskScore;
     keyRisks := identifyKeyRisks analysis;
     recommendations := recommendations |}.

(** What the orchestrator reads of the object returned by [analyze]. *)
Record Result := {
  signal : string;
  r_confidence : Q;
  r_riskScore : option Q;
  r_volatilityLevel : option string;
  r_liquidityLevel : option string;
  r_recommendations : list Recommendation
}.

(** The [analysis] object built by [analyze]: [volatility] is the result
    of [calculateVolatilityRisk], which takes square roots. *)
Definition assess (volatility : Risk) (niftyData : NiftyData)
    (historicalData : option (list Candle)) : Analysis :=
  {| volatilityRisk := volatility;
     liquidityRisk := assessLiquidityRisk niftyData;
     marketRisk := assessMarketRisk niftyData historicalData;
     drawdownRisk := calculateDrawdownRisk historicalData;
     correlationRisk := assessCorrelationRisk |}.

(** [analyze] once the volatility risk is computed. *)
Definition analyzeWith (volatility : Risk) (niftyData : NiftyData)
    (historicalData : option (list Candle)) (aiInsights : AiInsights)
  : Result :=
  let analysis := assess volatility niftyData historicalData in
  let signal := generateRiskSignal analysis aiInsights in
  {| signal := action signal;
     r_confidence := confidence signal;
     r_riskScore := Some (riskScore signal);
     r_volatilityLevel := Some (level volatility);
     r_liquidityLevel := Some (level (lr_risk (liquidityRisk analysis)));
     r_recommendations := recommendations signal |}.

(** What [analyze] returns when the analysis throws. *)
Definition errorResult : Result :=
  {| signal := "HOLD";
     r_confidence := 0;
     r_riskScore := None;
     r_volatilityLevel := None;
     r_liquidityLevel := None;
     r_recommendations := [] |}.

(** The early exit of [calculateVolatilityRisk]: without twenty entries
    of history the volatility risk is unknown. *)
Definition unknownVolatility : Risk := {| level := "UNKNOWN"; score := 5 # 10 |}.

End RiskManagement.

(** ** The technical analysis agent *)

Module TechnicalAnalysis.

Import RiskManagement (Candle, close, steps).

Record Indicator := { value : Q; i_signal : string }.

(** The loop of [calculateRSI]: the sums of the rises and of the falls. *)
Definition rsiStep (st : Q * Q) (step : Candle * Candle) : Q * Q :=
  let '(gains, losses) := st in
  let '(prev, cur) := step in
  let change := close cur - close prev in
  if Js.gt change 0 then (gains + change, losses)
  else (gains, losses + Qabs change).

(** [calculateRSI data period]; the loop reads the first [period + 1]
    entries, which the guard makes present. *)
Definition calculateRSI (data : list Candle) (period : nat) : Indicator :=
  if (length data <? period + 1)%nat
  then {| value := 50; i_signal := "NEUTRAL" |}
  else
    let '(gains, losses) :=
      fold_left rsiStep (steps (take (period + 1) data)) (0, 0) in
    let avgGain := gains / inject_Z (Z.of_nat period) in
    let avgLoss := losses / inject_Z (Z.of_nat period) in
    if Js.eq avgLoss 0 then {| value := 100; i_signal := "STRONG_BUY" |}
    else
      let rs := avgGain / avgLoss in
      let rsi := 100 - 100 / (1 + rs) in
      let signal :=
        if Js.gt rsi 70 then "SELL"
        else if Js.lt rsi 30 then "BUY"
        else if Js.gt rsi 60 then "WEAK_SELL"
        else if Js.lt rsi 40 then "WEAK_BUY"
        else "NEUTRAL" in
      {| value := rsi; i_signal := signal |}.

(** [calculateEMAValues]: [None] when [data] is empty (the source then
    throws on [data[0].close]). *)
Definition emaStep (multiplier : Q) (acc : list Q * Q) (c : Candle)
  : list Q * Q :=
  let '(emaValues, previous) := acc in
  let ema := close c * multiplier + previous * (1 - multiplier) in
  (emaValues ++ [ema], ema).

Definition calculateEMAValues (data : list Candle) (period : nat)
  : option (list Q) :=
  match data with
  | [] => None
  | first :: rest =>
    let multiplier := 2 / (inject_Z (Z.of_nat period) + 1) in
    Some (fst (fold_left (emaStep multiplier) rest
                 ([close first], close first)))
  end.

(** The price of the last entry, [data[data.length - 1]?.close || 0]. *)
Definition lastClose (data : list Candle) : Q :=
  Js.num_or (close <$> last data) 0.

Definition priceSignal (currentPrice average : Q) : string :=
  if Js.gt currentPrice (average * (101 # 100)) then "BUY"
  else if Js.lt currentPrice (average * (99 # 100)) then "SELL"
  else "NEUTRAL".

(** [calculateSMA] and [calculateEMA]: [None] where the source throws on
    the price of an empty history. *)
Definition calculateSMA (data : list Candle) (period : nat)
  : option Indicator :=
  if (length data <? period)%nat
  then Some {| value := lastClose data; i_signal := "NEUTRAL" |}
  else
    let sum :=
      fold_left (fun acc item => acc + close item)
        (Js.slice_last period data) 0 in
    let sma := sum / inject_Z (Z.of_nat period) in
    current ← last data;
    Some {| value := sma; i_signal := priceSignal (close current) sma |}.

Definition calculateEMA (data : list Candle) (period : nat)
  : option Indicator :=
  if (length data <? period)%nat
  then Some {| value := lastClose data; i_signal := "NEUTRAL" |}
  else
    emaValues ← calculateEMAValues data period;
    ema ← last emaValues;
    current ← last data;
    Some {| value := ema; i_signal := priceSignal (close current) ema |}.

(** The signals that [generateSignal] reads of the analysis. *)
Record Analysis := {
  rsi : string;
  macd : string;
  sma : string;
  ema : string;
  bollinger : string;
  priceAction : string
}.

(** What the AI analysis returns: its signal may be missing. *)
Record AiInsights := {
  ai_signal : option string;
  ai_confidence : Q
}.

(** The entries pushed on [signals], in order. *)
Definition collect (analysis : Analysis) : list (string * Q) :=
  (if bool_decide (rsi analysis = "BUY") || bool_decide (rsi analysis = "WEAK_BUY")
   then [("BUY", 2 # 10)]
   else if bool_decide (rsi analysis = "SELL")
           || bool_decide (rsi analysis = "WEAK_SELL")
   then [("SELL", 2 # 10)] else [])
  ++ (if bool_decide (macd analysis = "BUY") then [("BUY", 25 # 100)]
      else if bool_decide (macd analysis = "SELL") then [("SELL", 25 # 100)]
      else [])
  ++ (if bool_decide (sma analysis = "BUY") then [("BUY", 15 # 100)]
      else if bool_decide (sma analysis = "SELL") then [("SELL", 15 # 100)]
      else [])
  ++ (if bool_decide (ema analysis = "BUY") then [("BUY", 15 # 100)]
      else if bool_decide (ema analysis = "SELL") then [("SELL", 15 # 100)]
      else [])
  ++ (if bool_decide (bollinger analysis = "BUY") then [("BUY", 15 # 100)]
      else if bool_decide (bollinger analysis = "SELL")
      then [("SELL", 15 # 100)] else [])
  ++ (if bool_decide (priceAction analysis = "BULLISH") then [("BUY", 1 # 10)]
      else if bool_decide (priceAction analysis = "BEARISH")
      then [("SELL", 1 # 10)] else []).

Definition tally (signals : list (string * Q)) : Q * Q :=
  fold_left
    (fun '(buyScore, sellScore) '(signal, weight) =>
       if bool_decide (signal = "BUY") then (buyScore + weight, sellScore)
       else if bool_decide (signal = "SELL") then (buyScore, sellScore + weight)
       else (buyScore, sellScore))
    signals (0, 0).

(** The object returned by [generateSignal], without its texts. *)
Record Signal := { action : string; confidence : Q }.

Definition generateSignal (analysis : Analysis)
    (aiInsights : option AiInsights) : Signal :=
  let '(buyScore, sellScore) := tally (collect analysis) in
  let s :=
    if Js.gt buyScore sellScore && Js.gt buyScore (4 # 10)
    then {| action := "BUY"; confidence := Qmin (buyScore * 100) 90 |}
    else if Js.gt sellScore buyScore && Js.gt sellScore (4 # 10)
    then {| action := "SELL"; confidence := Qmin (sellScore * 100) 90 |}
    else {| action := "HOLD"; confidence := 30 |} in
  match aiInsights with
  | Some ai =>
    if Js.truthy (ai_signal ai) && Js.gt (ai_confidence ai) 0 then
      if Js.str_is (ai_signal ai) (action s)
      then {| action := action s; confidence := Qmin (confidence s + 15) 95 |}
      else if Js.gt (ai_confidence ai) 70
      then {| action := default (action s) (ai_signal ai);
              confidence := Qmin (ai_confidence ai) 85 |}
      else s
    else s
  | None => s
  end.

(** What [analyze] returns when the analysis throws. *)
Definition errorResult : Orchestrator.AgentResult :=
  {| Orchestrator.signal := Some "HOLD"; Orchestrator.confidence := Some 0 |}.

(** The entry of the orchestrator's results for a generated signal. *)
Definition resultOf (s : Signal) : Orchestrator.AgentResult :=
  {| Orchestrator.signal := Some (action s);
     Orchestrator.confidence := Some (confidence s) |}.

(** The same analysis with another RSI signal. *)
Definition withRsi (analysis : Analysis) (s : string) : Analysis :=
  {| rsi := s; macd := macd analysis; sma := sma analysis;
     ema := ema analysis; bollinger := bollinger analysis;
     priceAction := priceAction analysis |}.

End TechnicalAnalysis.

(** ** The agent orchestrator: price prediction and risk level *)

Module OrchestratorReport.

Import Orchestrator.

(** Rounding to two decimals, [Math.round(x * 100) / 100]. *)
Definition round2 (x : Q) : Q := Js.round (x * 100) / 100.

(** The move expected for one agent's signal. *)
Definition movement (result : AgentResult) (size : Q) : Q :=
  if Js.str_is (signal result) "BUY" then size
  else if Js.str_is (signal result) "SELL" then - size
  else 0.

Record PriceRange := { pr_min : Q; pr_max : Q }.

(** The object returned by [calculatePricePrediction] (its [timeframe] is
    a fixed text). *)
Record PricePrediction := {
  pp_currentPrice : Q;
  targetPrice : Q;
  expectedMove : Q;
  supportLevel : Q;
  resistanceLevel : Q;
  pp_confidence : Q;
  priceRange : PriceRange
}.

Definition adjustedMovement (technicalR sentimentR researchR : AgentResult)
  : Q :=
  let priceMovement :=
    0 + movement technicalR (8 # 10) + movement sentimentR (5 # 10)
    + movement researchR (6 # 10) in
  let confidenceSum :=
    0 + Js.num_or (confidence technicalR) 50
    + Js.num_or (confidence sentimentR) 50
    + Js.num_or (confidence researchR) 50 in
  let avgConfidence := confidenceSum / 3 in
  let confidenceFactor := avgConfidence / 100 in
  priceMovement * confidenceFactor.

(** [calculatePricePrediction] for the current price and the results of
    the technical, sentiment and research agents. *)
Definition calculatePricePrediction (currentPrice : Q)
    (technicalR sentimentR researchR : AgentResult) : PricePrediction :=
  let confidenceSum :=
    0 + Js.num_or (confidence technicalR) 50
    + Js.num_or (confidence sentimentR) 50
    + Js.num_or (confidence researchR) 50 in
  let avgConfidence := confidenceSum / 3 in
  let adjustedMovement := adjustedMovement technicalR sentimentR researchR in
  let targetPrice := currentPrice * (1 + adjustedMovement / 100) in
  let volatilityFactor := 5 # 10 in
  let supportLevel := targetPrice * (1 - volatilityFactor / 100) in
  let resistanceLevel := targetPrice * (1 + volatilityFactor / 100) in
  {| pp_currentPrice := round2 currentPrice;
     targetPrice := round2 targetPrice;
     expectedMove := round2 adjustedMovement;
     supportLevel := round2 supportLevel;
     resistanceLevel := round2 resistanceLevel;
     pp_confidence := Js.round avgConfidence;
     priceRange :=
       {| pr_min := round2 supportLevel; pr_max := round2 resistanceLevel |} |}.

Definition getRiskCategory (score : Q) : string :=
  if Js.lt score (3 # 10) then "LOW"
  else if Js.lt score (6 # 10) then "MEDIUM"
  else "HIGH".

(** The object returned by [extractRiskLevel]. *)
Record RiskLevel := {
  overall : string;
  rl_score : Q;
  rl_volatility : string;
  rl_liquidity : string
}.

(** [x || d] for a possibly missing text. *)
Definition str_or (x : option string) (d : string) : string :=
  if Js.truthy x then default d x else d.

Definition extractRiskLevel (riskResult : RiskManagement.Result) : RiskLevel :=
  let riskScore := RiskManagement.r_riskScore riskResult in
  {| overall :=
       match riskScore with
       | Some s => if Js.eq s 0 then "MEDIUM" else getRiskCategory s
       | None => "MEDIUM"
       end;
     rl_score := Js.round (Js.num_or riskScore (5 # 10) * 100);
     rl_volatility :=
       str_or (RiskManagement.r_volatilityLevel riskResult) "MEDIUM";
     rl_liquidity :=
       str_or (RiskManagement.r_liquidityLevel riskResult) "LOW" |}.

(** The risk entry that [runAnalysis] passes to [aggregateSignals]. *)
Definition riskEntry (riskResult : RiskManagement.Result) : AgentResult :=
  {| signal := Some (RiskManagement.signal riskResult);
     confidence := Some (RiskManagement.r_confidence riskResult) |}.

End OrchestratorReport.

(** ** The sentiment agent: traditional analysis and two-source fusion *)

Module SentimentAnalysis.

Import MarketSentiment.

(** The weights chosen by [combineAnalysis]: [(aiWeight,
    traditionalWeight)]. *)
Definition chooseWeights (volatility currentHour : Q) : Q * Q :=
  let isOpeningHour := Js.eq currentHour 9 in
  let isClosingHour := Js.ge currentHour 15 in
  let '(aiWeight, traditionalWeight) :=
    if Js.gt volatility 2 then (4 # 10, 6 # 10) else (6 # 10, 4 # 10) in
  if isOpeningHour || isClosingHour then (7 # 10, 3 # 10)
  else (aiWeight, traditionalWeight).

Record WeightingDetails := {
  aiWeight : Q;
  traditionalWeight : Q;
  wd_confidenceMultiplier : Q;
  volatilityAdjustment : bool;
  timeAdjustment : bool;
  volumeAdjustment : bool
}.

(** The numeric part of the object returned by [combineAnalysis]. *)
Record Combined := {
  signal : string;
  confidence : Q;
  weightingDetails : WeightingDetails
}.

(** [currentHour] is [new Date().getHours()]. *)
Definition combineAnalysis (traditional : Traditional) (a : AI)
    (currentHour : Q) : Combined :=
  let volatility := intraDayRange traditional in
  let volumeRatio := volumeRatio traditional in
  let '(aiWeight, traditionalWeight) := chooseWeights volatility currentHour in
  let confidenceMultiplier :=
    if Js.lt volumeRatio (5 # 10) then 8 # 10
    else if Js.gt volumeRatio 2 then 12 # 10
    else 1 in
  let traditionalScore := signalScore (sentimentSignal traditional) in
  let aiScore := signalScore (tradingSignal a) in
  let combinedScore :=
    traditionalScore * traditionalWeight + aiScore * aiWeight in
  let finalSignal :=
    if Js.gt combinedScore (3 # 10) then "BUY"
    else if Js.lt combinedScore (- (3 # 10)) then "SELL"
    else "HOLD" in
  let traditionalConfidence := sentimentConfidence traditional in
  let rawConfidence :=
    Js.round (traditionalConfidence * traditionalWeight
              + ai_confidence a * aiWeight) in
  let finalConfidence :=
    Qmin 95 (Qmax 20 (rawConfidence * confidenceMultiplier)) in
  {| signal := finalSignal;
     confidence := finalConfidence;
     weightingDetails :=
       {| aiWeight := aiWeight;
          traditionalWeight := traditionalWeight;
          wd_confidenceMultiplier := confidenceMultiplier;
          volatilityAdjustment := Js.gt volatility 2;
          timeAdjustment := Js.eq currentHour 9 || Js.ge currentHour 15;
          volumeAdjustment :=
            Js.lt volumeRatio (5 # 10) || Js.gt volumeRatio 2 |} |}.

(** The object returned by [analyzeMarketBreadth]; [changes] are the
    [changePercent] of the stocks. *)
Record Breadth := {
  advancers : nat;
  decliners : nat;
  unchanged : Z;
  ratio : Q;
  b_signal : string;
  participation : Q
}.

Definition analyzeMarketBreadth (changes : list Q) : Breadth :=
  let totalStocks := length changes in
  let advancers := length (filter (fun c => Js.gt c 0 = true) changes) in
  let decliners := length (filter (fun c => Js.lt c 0 = true) changes) in
  let unchanged :=
    (Z.of_nat totalStocks - Z.of_nat advancers - Z.of_nat decliners)%Z in
  let advanceDeclineRatio :=
    inject_Z (Z.of_nat advancers) / (inject_Z (Z.of_nat decliners) + 1) in
  let breadthSignal :=
    if Js.gt advanceDeclineRatio 2 then "STRONG_BULLISH"
    else if Js.gt advanceDeclineRatio (15 # 10) then "BULLISH"
    else if Js.lt advanceDeclineRatio (5 # 10) then "BEARISH"
    else if Js.lt advanceDeclineRatio (33 # 100) then "STRONG_BEARISH"
    else "NEUTRAL" in
  {| advancers := advancers;
     decliners := decliners;
     unchanged := unchanged;
     ratio := advanceDeclineRatio;
     b_signal := breadthSignal;
     participation :=
       (inject_Z (Z.of_nat advancers) + inject_Z (Z.of_nat decliners))
       / inject_Z (Z.of_nat totalStocks) |}.

(** [s.includes(sub)] *)
Fixpoint includes (s sub : string) : bool :=
  String.prefix sub s
  || match s with
     | EmptyString => false
     | String _ rest => includes rest sub
     end.

(** The signals that [generateSentimentSignal] reads of the analysis. *)
Record Signals := {
  sentiment : string;
  volumeSignal : string;
  breadthSignal : string;
  momentumSignal : string;
  volatilitySignal : string
}.

(** The three scores after the five contributions. *)
Definition scores (analysis : Signals) : Q * Q * Q :=
  let '(bullish, bearish, neutral) := (0, 0, 0) in
  let '(bullish, bearish, neutral) :=
    if bool_decide (sentiment analysis = "BULLISH")
    then (bullish + (3 # 10), bearish, neutral)
    else if bool_decide (sentiment analysis = "BEARISH")
    then (bullish, bearish + (3 # 10), neutral)
    else (bullish, bearish, neutral + (3 # 10)) in
  let '(bullish, bearish, neutral) :=
    if bool_decide (volumeSignal analysis = "BULLISH_VOLUME")
    then (bullish + (2 # 10), bearish, neutral)
    else if bool_decide (volumeSignal analysis = "BEARISH_VOLUME")
    then (bullish, bearish + (2 # 10), neutral)
    else if bool_decide (volumeSignal analysis = "LOW_CONVICTION")
    then (bullish, bearish, neutral + (2 # 10))
    else (bullish, bearish, neutral) in
  let '(bullish, bearish, neutral) :=
    if includes (breadthSignal analysis) "BULLISH"
    then (bullish + (25 # 100), bearish, neutral)
    else if includes (breadthSignal analysis) "BEARISH"
    then (bullish, bearish + (25 # 100), neutral)
    else (bullish, bearish, neutral + (25 # 100)) in
  let '(bullish, bearish, neutral) :=
    if bool_decide (momentumSignal analysis = "STRONG_BULLISH")
    then (bullish + (15 # 100), bearish, neutral)
    else if bool_decide (momentumSignal analysis = "STRONG_BEARISH")
    then (bullish, bearish + (15 # 100), neutral)
    else (bullish, bearish, neutral + (15 # 100)) in
  if bool_decide (volatilitySignal analysis = "INCREASED_RISK")
  then (bullish, bearish + (1 # 10), neutral)
  else if bool_decide (volatilitySignal analysis = "CONSOLIDATION")
  then (bullish, bearish, neutral + (1 # 10))
  else (bullish, bearish, neutral).

(** The object returned by [generateSentimentSignal], without its
    text. *)
Record SentimentSignal := { action : string; s_confidence : Q }.

Definition generateSentimentSignal (analysis : Signals) : SentimentSignal :=
  let '(bullishScore, bearishScore, neutralScore) := scores analysis in
  let maxScore := Js.max3 bullishScore bearishScore neutralScore in
  if Js.eq maxScore bullishScore && Js.gt bullishScore (5 # 10)
  then {| action := "BUY"; s_confidence := Qmin (bullishScore * 90) 85 |}
  else if Js.eq maxScore bearishScore && Js.gt bearishScore (5 # 10)
  then {| action := "SELL"; s_confidence := Qmin (bearishScore * 90) 85 |}
  else {| action := "HOLD"; s_confidence := 40 |}.

End SentimentAnalysis.

(** Further views of the tracker. *)

Module TrackerInvariants.

Import PerformanceTracker TrackerView.

(** In exact arithmetic the two adapted weights share the whole weight,
    and the historical weight stays at its default. *)
Definition balanced (w : ModelWeights) : Prop :=
  ai w + technical w == 1 /\ historical w == 0.

(** Every validated prediction carries a score between 20 and 100. *)
Definition scored (ps : list Prediction) : Prop :=
  Forall (fun p => validated p = true -> 20 <= num (accuracy p) <= 100) ps.

(** A call that tracks a prediction gives it a target price other than
    0, so that the movement computed at its validation is a number. *)
Definition priced (c : Call) : Prop :=
  match c with
  | Track _ _ _ targetP _ _ _ => ~ targetP == 0
  | Validate _ _ _ => True
  end.

(** No prediction is validated yet. *)
Definition allPending (ps : list Prediction) : Prop :=
  Forall (fun p => actualOutcome p = None) ps.

(** The sum of the counts of a calibration report. *)
Definition totalCount (report : list Calibration) : nat :=
  foldr (fun c n => (c_count c + n)%nat) 0%nat report.

(** The confidence is an integer between 20 and 100. *)
Definition wholeConfidence (p : Prediction) : Prop :=
  exists z : Z, confidence p == inject_Z z /\ (20 <= z <= 100)%Z.

End TrackerInvariants.

(** Further views of [aggregateSignals]. *)

Module OrchestratorVotes.

Import Orchestrator OrchestratorView.

Definition vote (b : bool) : nat := if b then 1%nat else 0%nat.

(** The number of voting agents whose signal is added to the BUY sum, and
    to the SELL sum. *)
Definition buyVotes (results : Results) : nat :=
  (vote (reports results technical && votesBuy (get results technical))
   + vote (reports results sentiment && votesBuy (get results sentiment))
   + vote (reports results research && votesBuy (get results research)))%nat.

Definition sellVotes (results : Results) : nat :=
  (vote (reports results technical && votesSell (get results technical))
   + vote (reports results sentiment && votesSell (get results sentiment))
   + vote (reports results research && votesSell (get results research)))%nat.

(** The same results with another confidence for one agent. *)
Definition withConfidence (results : Results) (a : AgentType)
    (c : option Q) : Results :=
  let swap (r : AgentResult) : AgentResult :=
    {| signal := signal r; confidence := c |} in
  match a with
  | technical =>
    {| r_technical := swap (r_technical results);
       r_sentiment := r_sentiment results;
       r_research := r_research results; r_risk := r_risk results |}
  | sentiment =>
    {| r_technical := r_technical results;
       r_sentiment := swap (r_sentiment results);
       r_research := r_research results; r_risk := r_risk results |}
  | research =>
    {| r_technical := r_technical results;
       r_sentiment := r_sentiment results;
       r_research := swap (r_research results); r_risk := r_risk results |}
  | risk =>
    {| r_technical := r_technical results;
       r_sentiment := r_sentiment results;
       r_research := r_research results;
       r_risk := swap (r_risk results) |}
  end.

End OrchestratorVotes.

(** Further sample inputs. *)

Module MoreSamples.

Import PerformanceTracker TrackerView TrackerSamples.

(** One tracked prediction, not yet validated. *)
Definition pending : Tracker :=
  run [ Track "pred_1" "BUY" 85 100 0 defaultData calm ] init.

(** Two tracked predictions, not yet validated. *)
Definition twoPending : Tracker :=
  run [ Track "pred_1" "BUY" 85 100 0 defaultData calm;
        Track "pred_2" "SELL" 70 100 60000 defaultData calm ] init.

(** Every traditional signal bearish, with increased volatility. *)
Definition allBearish : SentimentAnalysis.Signals :=
  {| SentimentAnalysis.sentiment := "BEARISH";
     SentimentAnalysis.volumeSignal := "BEARISH_VOLUME";
     SentimentAnalysis.breadthSignal := "BEARISH";
     SentimentAnalysis.momentumSignal := "STRONG_BEARISH";
     SentimentAnalysis.volatilitySignal := "INCREASED_RISK" |}.

End MoreSamples.

(** Sample inputs of the risk agent. *)

Module RiskSamples.

Import RiskManagement.

(** Index data with the average volume and a small move. *)
Definition quietDay : NiftyData :=
  {| currentPrice := 19800; volume := Some 50000000;
     changePercent := Some (1 # 10); high := Some 19850;
     low := Some 19750 |}.

(** The same index data when the feed reports no volume. *)
Definition noVolume : NiftyData :=
  {| currentPrice := 19800; volume := None;
     changePercent := Some (1 # 10); high := Some 19850;
     low := Some 19750 |}.

Definition candle (c : Q) : Candle :=
  {| close := c; c_high := c + 5; c_low := c - 5; c_volume := 1000000 |}.

(** Three entries of history: too few for the volatility and drawdown
    assessments. *)
Definition shortHistory : list Candle := [candle 19790; candle 19795; candle 19800].

(** Twelve entries falling from 100 to 95 and recovering to 97. *)
Definition dip : list Candle :=
  map candle [100; 99; 98; 97; 96; 95; 95; 96; 96; 97; 97; 97].

Definition noInsights : AiInsights :=
  {| ai_signal := None; ai_riskLevel := "MEDIUM"; ai_confidence := None |}.

Definition calmVolatility : Risk := {| level := "LOW"; score := 2 # 10 |}.

End RiskSamples.

(** * Properties *)

(** Linear arithmetic over [Q] after turning a division by a numeral into
    a multiplication. *)
Ltac qlra := unfold Qdiv in *; cbn [Qinv Qnum Qden] in *; lra.

Section JsFacts.

Lemma gt_true_iff a b : Js.gt a b = true <-> b < a.
Proof.
  unfold Js.gt. rewrite negb_true_iff, <- not_true_iff_false, Qle_bool_iff.
  split; [apply Qnot_le_lt | apply Qlt_not_le].
Qed.

Lemma gt_false_iff a b : Js.gt a b = false <-> a <= b.
Proof. unfold Js.gt. rewrite negb_false_iff. apply Qle_bool_iff. Qed.

Lemma lt_true_iff a b : Js.lt a b = true <-> a < b.
Proof. apply gt_true_iff. Qed.

Lemma lt_false_iff a b : Js.lt a b = false <-> b <= a.
Proof. apply gt_false_iff. Qed.

Lemma ge_true_iff a b : Js.ge a b = true <-> b <= a.
Proof. apply Qle_bool_iff. Qed.

Lemma ge_false_iff a b : Js.ge a b = false <-> a < b.
Proof.
  unfold Js.ge. rewrite <- not_true_iff_false, Qle_bool_iff.
  split; [apply Qnot_le_lt | apply Qlt_not_le].
Qed.

Lemma le_true_iff a b : Js.le a b = true <-> a <= b.
Proof. apply Qle_bool_iff. Qed.

Lemma le_false_iff a b : Js.le a b = false <-> b < a.
Proof. apply ge_false_iff. Qed.

Lemma eq_true_iff a b : Js.eq a b = true <-> a == b.
Proof. apply Qeq_bool_iff. Qed.

(** The clamp [Math.max(lo, Math.min(hi, x))] and its mirror image
    [Math.min(hi, Math.max(lo, x))]. *)
Lemma max_min_bounds lo hi x : lo <= hi -> lo <= Qmax lo (Qmin hi x) <= hi.
Proof.
  intros Hlh. split.
  - apply Q.le_max_l.
  - apply Q.max_lub; [exact Hlh | apply Q.le_min_l].
Qed.

Lemma min_max_bounds lo hi x : lo <= hi -> lo <= Qmin hi (Qmax lo x) <= hi.
Proof.
  intros Hlh. split.
  - apply Q.min_glb; [exact Hlh | apply Q.le_max_l].
  - apply Q.le_min_l.
Qed.

Lemma slice_last_pos {A} n (l : list A) :
  (0 < n)%nat -> Js.slice_last n l = drop (length l - n) l.
Proof. intros Hn. destruct n; [lia | reflexivity]. Qed.

Lemma round_compat x y : x == y -> Js.round x = Js.round y.
Proof.
  intros Hxy. unfold Js.round. f_equal. apply Qfloor_comp.
  rewrite Hxy. reflexivity.
Qed.

Lemma max3_lub a b c m : a <= m -> b <= m -> c <= m -> Js.max3 a b c <= m.
Proof. intros Ha Hb Hc. unfold Js.max3. repeat apply Q.max_lub; assumption. Qed.

Lemma max3_eq_l a b c : b <= a -> c <= a -> Js.max3 a b c == a.
Proof.
  intros Hb Hc. unfold Js.max3.
  rewrite (Q.max_l a b) by exact Hb. apply Q.max_l, Hc.
Qed.

Lemma max3_eq_m a b c : a <= b -> c <= b -> Js.max3 a b c == b.
Proof.
  intros Ha Hc. unfold Js.max3.
  rewrite (Q.max_r a b) by exact Ha. apply Q.max_l, Hc.
Qed.

End JsFacts.

(** ** Orchestrator *)

Section OrchestratorFacts.

Import Orchestrator OrchestratorView.

Lemma processAgents_steps results :
  processAgents results =
  processAgent results
    (processAgent results (processAgent results tally0 technical) sentiment)
    research.
Proof.
  unfold processAgents, keys. cbn [fold_left].
  unfold processAgent at 1. cbn [is_risk negb].
  rewrite andb_false_r. reflexivity.
Qed.

Lemma validAgents_step results t a :
  validAgents (processAgent results t a) =
  if reports results a then S (validAgents t) else validAgents t.
Proof.
  unfold processAgent, reports. destruct (_ && _); reflexivity.
Qed.

Lemma totalConfidence_step results t a :
  totalConfidence (processAgent results t a) =
  if reports results a
  then totalConfidence t + Js.num_or (confidence (get results a)) 50
  else totalConfidence t.
Proof.
  unfold processAgent, reports. destruct (_ && _); reflexivity.
Qed.

Lemma BUY_step results t a :
  BUY (signals (processAgent results t a)) =
  if reports results a && votesBuy (get results a)
  then BUY (signals t) + score results a else BUY (signals t).
Proof.
  unfold processAgent, reports, votesBuy, score.
  destruct (Js.truthy _ && _); [|reflexivity]. cbn [andb signals].
  destruct (_ || _); [reflexivity|].
  destruct (Js.str_is _ "SELL"); reflexivity.
Qed.

Lemma SELL_step results t a :
  SELL (signals (processAgent results t a)) =
  if reports results a && votesSell (get results a)
  then SELL (signals t) + score results a else SELL (signals t).
Proof.
  unfold processAgent, reports, votesSell, votesBuy, score.
  destruct (Js.truthy _ && _); [|reflexivity]. cbn [andb signals].
  destruct (_ || _); [reflexivity|].
  destruct (Js.str_is _ "SELL"); reflexivity.
Qed.

Lemma finalAction_HOLD s :
  BUY s <= 4 # 10 -> SELL s <= 4 # 10 -> finalAction s = "HOLD".
Proof.
  intros Hb Hs. unfold finalAction.
  apply gt_false_iff in Hb. apply gt_false_iff in Hs.
  rewrite Hb, Hs, !andb_false_r. reflexivity.
Qed.

Lemma finalAction_BUY s :
  4 # 10 < BUY s -> SELL s <= BUY s -> HOLD s <= BUY s ->
  finalAction s = "BUY".
Proof.
  intros Hb Hs Hh. unfold finalAction.
  apply gt_true_iff in Hb. rewrite Hb.
  rewrite (proj2 (eq_true_iff _ _) (max3_eq_l _ _ _ Hs Hh)). reflexivity.
Qed.

Lemma finalAction_SELL s :
  4 # 10 < SELL s -> BUY s <= 4 # 10 -> HOLD s <= SELL s ->
  finalAction s = "SELL".
Proof.
  intros Hs Hb Hh. unfold finalAction.
  apply gt_false_iff in Hb. rewrite Hb, andb_false_r.
  assert (BUY s <= SELL s) as Hle.
  { apply gt_false_iff in Hb. lra. }
  apply gt_true_iff in Hs. rewrite Hs.
  rewrite (proj2 (eq_true_iff _ _) (max3_eq_m _ _ _ Hle Hh)). reflexivity.
Qed.

End OrchestratorFacts.

(** ** Fusion: confidence bounds, unanimity, degraded mode, risk derate *)

Section FusionClaims.

Import Orchestrator OrchestratorView Samples.

Lemma aggregateSignals_confidence_bounds results :
  20 <= d_confidence (aggregateSignals results) <= 95.
Proof.
  unfold aggregateSignals. cbn [d_confidence].
  apply max_min_bounds. lra.
Qed.

Lemma enhancedCombineAnalysis_confidence_bounds traditional a h m w hour :
  20 <= MarketSentiment.confidence
          (MarketSentiment.enhancedCombineAnalysis traditional a h m w hour)
     <= 95.
Proof.
  unfold MarketSentiment.enhancedCombineAnalysis.
  destruct (MarketSentiment.adjustedWeights traditional w hour)
    as [[[aiW tradW] histW] microW].
  cbn [MarketSentiment.confidence].
  apply min_max_bounds. lra.
Qed.

(** C1. For every set of agent opinions with at least two reporting
    sources and weights summing to a positive total, the confidence of the
    fused decision lies in [20,95]: both the orchestrator's
    [aggregateSignals], which clamps after applying the risk modifier, and
    the sentiment agent's [enhancedCombineAnalysis] return a confidence
    between 20 and 95. *)
Theorem fused_confidence_in_20_95 results traditional a h m w hour :
  (2 <= validAgents (processAgents results))%nat ->
  0 < MarketSentiment.totalWeight w ->
  20 <= d_confidence (aggregateSignals results) <= 95
  /\ d_confidence (aggregateSignals results)
     = Qmax 20 (Qmin 95 (Js.round (baseConfidence (processAgents results)
                                   * riskModifier (r_risk results))))
  /\ 20 <= MarketSentiment.confidence
             (MarketSentiment.enhancedCombineAnalysis traditional a h m w hour)
        <= 95.
Proof.
  intros _ _. split; [|split].
  - apply aggregateSignals_confidence_bounds.
  - reflexivity.
  - apply enhancedCombineAnalysis_confidence_bounds.
Qed.

Lemma fused_confidence_in_20_95_witness :
  ((2 <= validAgents (processAgents strongBuy))%nat
   /\ 0 < MarketSentiment.totalWeight
            (PerformanceTracker.modelWeights PerformanceTracker.init))
  /\ 20 <= d_confidence (aggregateSignals strongBuy) <= 95
  /\ 20 <= MarketSentiment.confidence enhanced <= 95.
Proof.
  assert (2 <= validAgents (processAgents strongBuy))%nat as Hn
    by (vm_compute; lia).
  assert (0 < MarketSentiment.totalWeight
                (PerformanceTracker.modelWeights PerformanceTracker.init))
    as Hw by reflexivity.
  split; [split; assumption|].
  destruct (fused_confidence_in_20_95 strongBuy traditional aiAnalysis
              nightAnalysis microstructure _ 11 Hn Hw) as (Ha & _ & He).
  split; [exact Ha | exact He].
Defined.

Lemma HOLD_step results t a :
  HOLD (signals (processAgent results t a)) =
  if reports results a && negb (votesBuy (get results a))
     && negb (votesSell (get results a))
  then HOLD (signals t) + score results a else HOLD (signals t).
Proof.
  unfold processAgent, reports, votesSell, votesBuy, score.
  destruct (Js.truthy _ && _); [|reflexivity]. cbn [andb signals].
  destruct (_ || _); [reflexivity|].
  destruct (Js.str_is _ "SELL"); reflexivity.
Qed.

Lemma processAgents_withRisk results riskResult :
  processAgents (withRisk results riskResult) = processAgents results.
Proof. rewrite !processAgents_steps. reflexivity. Qed.

(** The tally of three voting agents that all report [X]. *)
Lemma unanimous_tally results X :
  allReport results X -> X = "BUY" \/ X = "SELL" \/ X = "HOLD" ->
  let s := signals (processAgents results) in
  (X = "BUY" -> BUY s = unanimousScore results /\ SELL s = 0 /\ HOLD s = 0)
  /\ (X = "SELL" -> BUY s = 0 /\ SELL s = unanimousScore results /\ HOLD s = 0)
  /\ (X = "HOLD" -> BUY s = 0 /\ SELL s = 0).
Proof.
  intros Hall HX s. subst s.
  pose proof (Hall technical eq_refl) as Ht.
  pose proof (Hall sentiment eq_refl) as Hs.
  pose proof (Hall research eq_refl) as Hr.
  rewrite processAgents_steps, !BUY_step, !SELL_step, !HOLD_step.
  unfold reports, votesSell, votesBuy, unanimousScore.
  rewrite Ht, Hs, Hr.
  destruct HX as [-> | [-> | ->]]; (split; [|split]); intros HX;
    try discriminate HX; repeat split; reflexivity.
Qed.

Lemma allReport_strongBuy : allReport strongBuy "BUY".
Proof. intros [] Hr; try discriminate Hr; reflexivity. Qed.

Lemma allReport_weakBuy : allReport weakBuy "BUY".
Proof. intros [] Hr; try discriminate Hr; reflexivity. Qed.

(** C4, as stated, fails: the three voting agents of [weakBuy] all report
    BUY (at confidence 40) and risk approves, yet the fused action is HOLD,
    the weighted sum 0.34 not exceeding the threshold 0.4. *)
Lemma unanimous_weak_buy_is_held :
  allReport weakBuy "BUY" /\ action (aggregateSignals weakBuy) = "HOLD"
  /\ action (aggregateSignals weakBuy) <> "BUY".
Proof.
  split; [exact allReport_weakBuy|].
  split; [vm_compute; reflexivity | vm_compute; discriminate].
Qed.

(** C4, amended. When all voting (non-risk) agents report the same action
    [X]: for [X] = HOLD the fused action is HOLD; for [X] = BUY or SELL the
    fused action is [X] exactly when the weighted sum of the agents'
    confidences, 0.35 c_technical/100 + 0.25 c_sentiment/100
    + 0.25 c_research/100, exceeds 0.4, and HOLD otherwise.  The risk
    opinion never changes the action. *)
Theorem unanimous_action results X riskResult :
  allReport results X ->
  (X = "HOLD" -> action (aggregateSignals results) = "HOLD")
  /\ (X = "BUY" \/ X = "SELL" ->
      (4 # 10 < unanimousScore results ->
       action (aggregateSignals results) = X)
      /\ (unanimousScore results <= 4 # 10 ->
          action (aggregateSignals results) = "HOLD"))
  /\ action (aggregateSignals (withRisk results riskResult))
     = action (aggregateSignals results).
Proof.
  intros Hall. unfold aggregateSignals. cbn [action].
  rewrite processAgents_withRisk. split; [|split]; [| |reflexivity].
  - intros ->.
    destruct (unanimous_tally results "HOLD" Hall) as (_ & _ & Hh); [tauto|].
    destruct (Hh eq_refl) as [Hb Hs].
    apply finalAction_HOLD; [rewrite Hb | rewrite Hs]; lra.
  - intros HX.
    destruct (unanimous_tally results X Hall) as (Hb & Hs & _); [tauto|].
    destruct HX as [-> | ->].
    + destruct (Hb eq_refl) as (HB & HS & HH). split; intros Hsc.
      * apply finalAction_BUY; rewrite ?HB, ?HS, ?HH; lra.
      * apply finalAction_HOLD; rewrite ?HB, ?HS; lra.
    + destruct (Hs eq_refl) as (HB & HS & HH). split; intros Hsc.
      * apply finalAction_SELL; rewrite ?HB, ?HS, ?HH; lra.
      * apply finalAction_HOLD; rewrite ?HB, ?HS; lra.
Qed.

Lemma unanimous_action_witness :
  allReport strongBuy "BUY"
  /\ action (aggregateSignals strongBuy) = "BUY"
  /\ action (aggregateSignals (withRisk strongBuy riskError)) = "BUY".
Proof.
  pose proof (unanimous_action strongBuy "BUY" riskError allReport_strongBuy)
    as (_ & Hbs & Hrisk).
  assert (4 # 10 < unanimousScore strongBuy) as Hsc by reflexivity.
  pose proof (proj1 (Hbs (or_introl eq_refl)) Hsc) as Hact.
  split; [exact allReport_strongBuy|].
  split; [exact Hact | rewrite Hrisk; exact Hact].
Defined.

Lemma score_le results a :
  Js.num_or (confidence (get results a)) 50 <= 100 -> score results a <= 35 # 100.
Proof. intros Hc. unfold score. destruct a; cbn [agentWeights]; qlra. Qed.

(** The tally when a single voting agent [a] reports. *)
Lemma lone_tally results t a :
  BUY (signals t) = 0 -> SELL (signals t) = 0 ->
  Js.num_or (confidence (get results a)) 50 <= 100 ->
  BUY (signals (processAgent results t a)) <= 4 # 10
  /\ SELL (signals (processAgent results t a)) <= 4 # 10.
Proof.
  intros Hb Hs Hc. rewrite BUY_step, SELL_step, Hb, Hs.
  pose proof (score_le results a Hc).
  split; destruct (_ && _); lra.
Qed.

Lemma reports_risk results : reports results risk = false.
Proof. unfold reports. cbn [is_risk negb]. apply andb_false_r. Qed.

Lemma silent_step results t a :
  reports results a = false -> processAgent results t a = t.
Proof. unfold processAgent, reports. intros ->. reflexivity. Qed.

(** C7, as stated, fails: in [loneBuy] a single source reports (BUY at
    90); the decision is HOLD, but its confidence is 90, not 20, and the
    returned object has no property marking a degraded mode. *)
Lemma lone_source_keeps_confidence :
  (validAgents (processAgents loneBuy) < 2)%nat
  /\ action (aggregateSignals loneBuy) = "HOLD"
  /\ d_confidence (aggregateSignals loneBuy) == 90
  /\ ~ d_confidence (aggregateSignals loneBuy) == 20.
Proof.
  split; [vm_compute; lia|].
  split; [vm_compute; reflexivity|].
  split; [reflexivity | discriminate].
Qed.

(** C7, amended. Whenever fewer than two sources report (confidences being
    at most 100), [aggregateSignals] returns normally with action HOLD; its
    confidence is not reset to 20: it is the confidence of the single
    reporting source, or 50 when none reports, scaled by the risk
    modifier, rounded and clamped to [20,95].  No degraded-mode flag is
    returned. *)
Theorem fewer_than_two_sources results :
  (validAgents (processAgents results) < 2)%nat ->
  (forall a, Js.num_or (confidence (get results a)) 50 <= 100) ->
  action (aggregateSignals results) = "HOLD"
  /\ (validAgents (processAgents results) = 0%nat ->
      d_confidence (aggregateSignals results)
      = Qmax 20 (Qmin 95 (Js.round (50 * riskModifier (r_risk results)))))
  /\ (forall a, reports results a = true ->
      d_confidence (aggregateSignals results)
      = Qmax 20 (Qmin 95 (Js.round
          (Js.num_or (confidence (get results a)) 50
           * riskModifier (r_risk results))))).
Proof.
  intros Hlt Hc. unfold aggregateSignals. cbn [action d_confidence].
  revert Hlt. rewrite processAgents_steps, !validAgents_step.
  destruct (reports results technical) eqn:Et;
    destruct (reports results sentiment) eqn:Es;
    destruct (reports results research) eqn:Er;
    cbn [validAgents tally0]; intros Hlt; try lia.
  1-3: rewrite ?(silent_step _ _ research Er), ?(silent_step _ _ sentiment Es),
         ?(silent_step _ _ technical Et);
       (split; [|split]);
       [ apply finalAction_HOLD; apply lone_tally; auto
       | intros Hz; discriminate Hz
       | intros [] Ha; try congruence;
         try (rewrite reports_risk in Ha; discriminate Ha);
         unfold baseConfidence;
         rewrite validAgents_step, totalConfidence_step, ?Et, ?Es, ?Er;
         cbn [validAgents totalConfidence tally0 Nat.ltb Nat.leb];
         do 2 f_equal; apply round_compat;
         change (inject_Z (Z.of_nat 1)) with 1; field ].
  - rewrite (silent_step _ _ technical Et), (silent_step _ _ sentiment Es),
      (silent_step _ _ research Er).
    split; [|split].
    + apply finalAction_HOLD; cbn; lra.
    + intros _. reflexivity.
    + intros [] Ha; try congruence.
      rewrite reports_risk in Ha. discriminate Ha.
Qed.

Lemma fewer_than_two_sources_witness :
  (validAgents (processAgents loneBuy) < 2)%nat
  /\ action (aggregateSignals loneBuy) = "HOLD"
  /\ d_confidence (aggregateSignals loneBuy)
     = Qmax 20 (Qmin 95 (Js.round (90 * 1))).
Proof.
  assert (validAgents (processAgents loneBuy) < 2)%nat as Hn
    by (vm_compute; lia).
  assert (forall a, Js.num_or (confidence (get loneBuy a)) 50 <= 100) as Hc
    by (intros []; vm_compute; discriminate).
  pose proof (fewer_than_two_sources loneBuy Hn Hc) as (Hact & _ & Hconf).
  split; [exact Hn|]. split; [exact Hact|].
  exact (Hconf technical eq_refl).
Defined.

Lemma riskModifier_cautious rr :
  riskModifier rr == 7 # 10 <-> signal rr = Some "CAUTIOUS_TRADE".
Proof.
  unfold riskModifier, Js.str_is. destruct (signal rr) as [s|].
  - repeat case_bool_decide; subst; split; intros Hq;
      try discriminate Hq; try reflexivity; try congruence.
  - split; intros Hq; discriminate Hq.
Qed.

(** C8. The code at the failing input.  In [riskErrored] the risk agent
    has failed: the entry passed to [aggregateSignals] is its error result,
    with the signal HOLD and no risk score.  The modifier applied is 1, not
    0.7 (which is applied for CAUTIOUS_TRADE only): the confidence stays at
    the mean 70 of the three sources, the risk adjustment is 0 and the
    reasoning ends with the line written for an approved trade.  For the
    same error result [extractRiskLevel] reports the level MEDIUM with the
    score 50. *)
Theorem errored_risk_not_derated :
  r_risk riskErrored = OrchestratorReport.riskEntry RiskManagement.errorResult
  /\ signal (r_risk riskErrored) = Some "HOLD"
  /\ riskModifier (r_risk riskErrored) == 1
  /\ ~ riskModifier (r_risk riskErrored) == 7 # 10
  /\ (forall rr, riskModifier rr == 7 # 10 <-> signal rr = Some "CAUTIOUS_TRADE")
  /\ d_confidence (aggregateSignals riskErrored) == 70
  /\ riskAdjustment (aggregateSignals riskErrored) == 0
  /\ last (reasoning (aggregateSignals riskErrored))
     = Some (RiskLine "Risk: LOW - Trade approved")
  /\ OrchestratorReport.overall
       (OrchestratorReport.extractRiskLevel RiskManagement.errorResult)
     = "MEDIUM"
  /\ OrchestratorReport.rl_score
       (OrchestratorReport.extractRiskLevel RiskManagement.errorResult)
     == 50.
Proof.
  split; [reflexivity|]. split; [reflexivity|]. split; [reflexivity|].
  split; [discriminate|]. split; [apply riskModifier_cautious|].
  split; [reflexivity|]. split; [reflexivity|].
  split; [vm_compute; reflexivity|].
  split; reflexivity.
Qed.

End FusionClaims.

(** ** Historical pattern matcher *)

Section HistoricalClaims.

Import HistoricalAnalysis Samples.

(** With no similar sample the analysis reports the neutral accuracy 50
    and the insufficient-data pattern, and derives its multiplier from that
    accuracy, which falls in the band of 0.8. *)
Lemma zero_matches_analysis historicalData simulated currentData :
  findSimilarConditions
    (match historicalData with [] => simulated | _ => historicalData end)
    currentData = [] ->
  let r := analyzeHistoricalPatterns historicalData simulated currentData in
  similarCount r = 0%nat /\ accuracy r = 50
  /\ dominantPattern r = "INSUFFICIENT_DATA"
  /\ confidenceAdjustment r = 8 # 10.
Proof.
  intros Hnone. unfold analyzeHistoricalPatterns.
  cbn [similarCount accuracy dominantPattern confidenceAdjustment].
  rewrite Hnone. repeat split; reflexivity.
Qed.

(** C9. The code at the failing input: at [nightConditions] none of the
    samples of [sessionData] is similar; the analysis returns accuracy 50
    and the pattern INSUFFICIENT_DATA but the confidence multiplier 0.8,
    where the fallback analysis of the same module gives 1.0. *)
Theorem zero_matches_multiplier :
  findSimilarConditions sessionData nightConditions = []
  /\ similarCount nightAnalysis = 0%nat
  /\ accuracy nightAnalysis == 50
  /\ dominantPattern nightAnalysis = "INSUFFICIENT_DATA"
  /\ confidenceAdjustment nightAnalysis == 8 # 10
  /\ ~ confidenceAdjustment nightAnalysis == 1
  /\ confidenceAdjustment getFallbackHistoricalAnalysis == 1.
Proof.
  assert (findSimilarConditions sessionData nightConditions = []) as Hnone
    by (vm_compute; reflexivity).
  destruct (zero_matches_analysis sessionData [] nightConditions Hnone)
    as (Hc & Ha & Hp & Hm).
  fold nightAnalysis in Hc, Ha, Hp, Hm.
  rewrite Hc, Ha, Hp, Hm.
  repeat split; try reflexivity. discriminate.
Qed.

End HistoricalClaims.

(** ** Accuracy scores *)

Section AccuracyClaims.

Import PerformanceTracker TrackerView.

Lemma Qle_bool_compat a a' b b' :
  a == a' -> b == b' -> Qle_bool a b = Qle_bool a' b'.
Proof.
  intros Ha Hb. apply eq_true_iff_eq.
  rewrite !Qle_bool_iff, Ha, Hb. reflexivity.
Qed.

Lemma calculateConfidenceAccuracy_compat conf b b' :
  b == b' ->
  calculateConfidenceAccuracy conf b = calculateConfidenceAccuracy conf b'.
Proof.
  intros Hb. unfold calculateConfidenceAccuracy, Js.lt.
  assert (Qabs (conf - b) == Qabs (conf - b')) as Habs
    by (rewrite Hb; reflexivity).
  rewrite !(Qle_bool_compat _ _ (Qabs (conf - b)) (Qabs (conf - b'))
              (Qeq_refl _) Habs).
  reflexivity.
Qed.

Lemma calculateConfidenceAccuracy_range conf b :
  40 <= calculateConfidenceAccuracy conf b <= 100.
Proof.
  unfold calculateConfidenceAccuracy.
  repeat destruct (Js.lt _ _); lra.
Qed.

(** The final clamp of [calculateAccuracy] changes nothing. *)
Lemma accuracy_mean b k :
  0 <= b <= 100 -> 40 <= k <= 100 ->
  Qmax 0 (Qmin 100 ((b + k) / 2)) == (b + k) / 2.
Proof.
  intros Hb Hk.
  rewrite Q.min_r by qlra. rewrite Q.max_r by qlra. reflexivity.
Qed.

Lemma baseAccuracy_range sig move : 0 <= baseAccuracy sig move <= 100.
Proof.
  unfold baseAccuracy.
  destruct (bool_decide (sig = "BUY") && Js.gt move 0) eqn:E1.
  { apply andb_true_iff in E1 as [_ E1]. apply gt_true_iff in E1.
    split; [apply Q.min_glb; lra | apply Q.le_min_l]. }
  destruct (bool_decide (sig = "SELL") && Js.lt move 0) eqn:E2.
  { pose proof (Qabs_nonneg move).
    split; [apply Q.min_glb; lra | apply Q.le_min_l]. }
  destruct (bool_decide (sig = "HOLD") && Js.lt (Qabs move) (2 # 10));
    [lra|].
  destruct (bool_decide (sig = "HOLD") && Js.lt (Qabs move) (5 # 10));
    [lra|].
  pose proof (Qabs_nonneg move).
  split; [apply Q.le_max_l | apply Q.max_lub; lra].
Qed.

Lemma calculateAccuracy_mean sig move conf :
  calculateAccuracy sig move conf ==
  (baseAccuracy sig move
   + calculateConfidenceAccuracy conf (baseAccuracy sig move)) / 2.
Proof.
  unfold calculateAccuracy.
  apply accuracy_mean;
    [apply baseAccuracy_range | apply calculateConfidenceAccuracy_range].
Qed.

Lemma baseAccuracy_matching sig move :
  matchesDirection sig move ->
  baseAccuracy sig move == Qmin 100 (70 + Qabs move * 10).
Proof.
  intros [[-> Hm] | [-> Hm]]; unfold baseAccuracy.
  - rewrite (proj2 (gt_true_iff _ _) Hm). cbn [bool_decide andb].
    rewrite bool_decide_eq_true_2 by reflexivity. cbn [andb].
    rewrite Qabs_pos by lra. reflexivity.
  - rewrite (bool_decide_eq_false_2 ("SELL" = "BUY")) by discriminate.
    rewrite (proj2 (lt_true_iff _ _) Hm).
    rewrite bool_decide_eq_true_2 by reflexivity. reflexivity.
Qed.

Lemma baseAccuracy_opposed sig move :
  sig = "BUY" \/ sig = "SELL" -> ~ matchesDirection sig move ->
  baseAccuracy sig move == Qmax 0 (30 - Qabs move * 5).
Proof.
  intros Hsig Hno. unfold baseAccuracy.
  destruct Hsig as [-> | ->].
  - assert (Js.gt move 0 = false) as ->.
    { apply gt_false_iff. apply Qnot_lt_le. intros Hm.
      apply Hno. left. split; [reflexivity | exact Hm]. }
    rewrite andb_false_r.
    rewrite (bool_decide_eq_false_2 ("BUY" = "SELL")) by discriminate.
    rewrite (bool_decide_eq_false_2 ("BUY" = "HOLD")) by discriminate.
    reflexivity.
  - assert (Js.lt move 0 = false) as ->.
    { apply lt_false_iff. apply Qnot_lt_le. intros Hm.
      apply Hno. right. split; [reflexivity | exact Hm]. }
    rewrite andb_false_r.
    rewrite (bool_decide_eq_false_2 ("SELL" = "BUY")) by discriminate.
    rewrite (bool_decide_eq_false_2 ("SELL" = "HOLD")) by discriminate.
    reflexivity.
Qed.

Lemma calculateAccuracy_blend sig move conf b :
  baseAccuracy sig move == b ->
  calculateAccuracy sig move conf == blend conf b.
Proof.
  intros Hb. rewrite calculateAccuracy_mean. unfold blend.
  rewrite (calculateConfidenceAccuracy_compat conf _ b Hb), Hb. reflexivity.
Qed.

(** C5, as stated, fails: a BUY at reference price 100 resolving at 101.5
    moves by +1.5%; the formula of the claim gives 85, which is only the
    base accuracy: the score computed for a prediction made at confidence
    85 is 92.5. *)
Lemma buy_scenario_scores_92_5 :
  priceMove 100 (1015 # 10) == 15 # 10
  /\ Qmin 100 (70 + Qabs (priceMove 100 (1015 # 10)) * 10) == 85
  /\ calculateAccuracy "BUY" (priceMove 100 (1015 # 10)) 85 == 185 # 2
  /\ ~ calculateAccuracy "BUY" (priceMove 100 (1015 # 10)) 85 == 85.
Proof. repeat split; try reflexivity. discriminate. Qed.

(** C5, amended. For a BUY or SELL prediction the base accuracy is
    min(100, 70 + |actualMove| x 10) when the direction of the movement
    matches the action and max(0, 30 - |actualMove| x 5) when it does not;
    the accuracy score is the mean of that base accuracy and of a
    calibration term (100, 80, 60 or 40 as the confidence is less than
    10, 20, 30 away from the base accuracy, or further).  A BUY with
    reference price 100 resolving at 101.5 has base accuracy 85 and, made
    at confidence 85, accuracy score 92.5. *)
Theorem directional_accuracy sig move conf :
  sig = "BUY" \/ sig = "SELL" ->
  (matchesDirection sig move ->
   baseAccuracy sig move == Qmin 100 (70 + Qabs move * 10)
   /\ calculateAccuracy sig move conf
      == blend conf (Qmin 100 (70 + Qabs move * 10)))
  /\ (~ matchesDirection sig move ->
      baseAccuracy sig move == Qmax 0 (30 - Qabs move * 5)
      /\ calculateAccuracy sig move conf
         == blend conf (Qmax 0 (30 - Qabs move * 5)))
  /\ baseAccuracy "BUY" (priceMove 100 (1015 # 10)) == 85
  /\ calculateAccuracy "BUY" (priceMove 100 (1015 # 10)) 85 == 185 # 2.
Proof.
  intros Hsig. split; [|split; [|split; reflexivity]].
  - intros Hm. pose proof (baseAccuracy_matching sig move Hm) as Hb.
    split; [exact Hb | apply calculateAccuracy_blend, Hb].
  - intros Hno. pose proof (baseAccuracy_opposed sig move Hsig Hno) as Hb.
    split; [exact Hb | apply calculateAccuracy_blend, Hb].
Qed.

Lemma directional_accuracy_witness :
  matchesDirection "SELL" (- (2 # 1))
  /\ baseAccuracy "SELL" (- (2 # 1)) == 90
  /\ calculateAccuracy "SELL" (- (2 # 1)) 60 == 65.
Proof.
  assert (matchesDirection "SELL" (- (2 # 1))) as Hm
    by (right; split; reflexivity).
  destruct (directional_accuracy "SELL" (- (2 # 1)) 60
              (or_intror eq_refl)) as (Hyes & _).
  destruct (Hyes Hm) as (Hb & Ha).
  split; [exact Hm|]. split.
  - rewrite Hb. reflexivity.
  - rewrite Ha. reflexivity.
Defined.

(** C6, as stated, fails: a HOLD resolving with a movement of 0.05% at
    confidence 80 scores 90; the formula of the claim gives 99.5. *)
Lemma hold_scenario_scores_90 :
  Qmax 0 (100 - Qabs (5 # 100) * 10) == 995 # 10
  /\ calculateAccuracy "HOLD" (5 # 100) 80 == 90
  /\ ~ calculateAccuracy "HOLD" (5 # 100) 80 == 995 # 10.
Proof. repeat split; try reflexivity. discriminate. Qed.

Lemma baseAccuracy_hold move :
  (Qabs move < 2 # 10 -> baseAccuracy "HOLD" move = 80)
  /\ (2 # 10 <= Qabs move < 5 # 10 -> baseAccuracy "HOLD" move = 60)
  /\ (5 # 10 <= Qabs move ->
      baseAccuracy "HOLD" move = Qmax 0 (30 - Qabs move * 5)).
Proof.
  unfold baseAccuracy.
  rewrite (bool_decide_eq_false_2 ("HOLD" = "BUY")) by discriminate.
  rewrite (bool_decide_eq_false_2 ("HOLD" = "SELL")) by discriminate.
  rewrite bool_decide_eq_true_2 by reflexivity. cbn [andb].
  repeat split.
  - intros H2. rewrite (proj2 (lt_true_iff _ _) H2). reflexivity.
  - intros [H2 H5]. rewrite (proj2 (lt_false_iff _ _) H2).
    rewrite (proj2 (lt_true_iff _ _) H5). reflexivity.
  - intros H5.
    assert (2 # 10 <= Qabs move) as H2 by lra.
    rewrite (proj2 (lt_false_iff _ _) H2), (proj2 (lt_false_iff _ _) H5).
    reflexivity.
Qed.

(** C6, amended. For a HOLD prediction the base accuracy is 80 when
    |actualMove| < 0.2, 60 when 0.2 <= |actualMove| < 0.5 and
    max(0, 30 - |actualMove| x 5) otherwise; the accuracy score is the mean
    of the base accuracy and of the calibration term, hence at most 90
    for |actualMove| < 0.2.  A HOLD resolving with actualMove = 0.05% at
    confidence 80 scores 90. *)
Theorem hold_accuracy move conf :
  (Qabs move < 2 # 10 ->
   calculateAccuracy "HOLD" move conf == blend conf 80
   /\ calculateAccuracy "HOLD" move conf <= 90)
  /\ (2 # 10 <= Qabs move < 5 # 10 ->
      calculateAccuracy "HOLD" move conf == blend conf 60)
  /\ (5 # 10 <= Qabs move ->
      calculateAccuracy "HOLD" move conf
      == blend conf (Qmax 0 (30 - Qabs move * 5)))
  /\ calculateAccuracy "HOLD" (5 # 100) 80 == 90.
Proof.
  destruct (baseAccuracy_hold move) as (H80 & H60 & H30).
  split; [|split; [|split; [|reflexivity]]].
  - intros Hm.
    assert (calculateAccuracy "HOLD" move conf == blend conf 80) as Hb.
    { apply calculateAccuracy_blend. rewrite (H80 Hm). reflexivity. }
    split; [exact Hb|]. rewrite Hb. unfold blend.
    pose proof (calculateConfidenceAccuracy_range conf 80). qlra.
  - intros Hm. apply calculateAccuracy_blend. rewrite (H60 Hm). reflexivity.
  - intros Hm. apply calculateAccuracy_blend. rewrite (H30 Hm). reflexivity.
Qed.

Lemma hold_accuracy_witness :
  Qabs (1 # 10) < 2 # 10
  /\ calculateAccuracy "HOLD" (1 # 10) 50 == 60
  /\ calculateAccuracy "HOLD" (1 # 10) 50 <= 90.
Proof.
  assert (Qabs (1 # 10) < 2 # 10) as Hm by reflexivity.
  destruct (hold_accuracy (1 # 10) 50) as (Hs & _).
  destruct (Hs Hm) as (Hb & Hle).
  split; [exact Hm|]. split; [rewrite Hb; reflexivity | exact Hle].
Defined.

End AccuracyClaims.

(** ** Weight adaptation *)

Section WeightClaims.

Import PerformanceTracker TrackerView TrackerSamples.

Lemma withinBounds_init : withinBounds (modelWeights init).
Proof. unfold withinBounds. cbn. lra. Qed.

(** One adjustment keeps the weights within their bounds, whatever the
    outcome. *)
Lemma adjustModelWeights_withinBounds t prediction :
  withinBounds (modelWeights t) ->
  withinBounds (adjustModelWeights t prediction).
Proof.
  unfold withinBounds, adjustModelWeights.
  intros [[Ha1 Ha2] [Ht1 Ht2]].
  destruct (Js.gt _ excellent).
  - destruct (_ && _); cbn [ai technical]; [|tauto].
    repeat split.
    + apply Q.min_glb; lra.
    + apply Q.le_min_l.
    + apply Q.le_max_l.
    + apply Q.max_lub; lra.
  - destruct (Js.lt _ poor); [|tauto].
    destruct (Js.gt_opt _ _); cbn [ai technical]; [|tauto].
    repeat split.
    + apply Q.le_max_l.
    + apply Q.max_lub; lra.
    + apply Q.min_glb; lra.
    + apply Q.le_min_l.
Qed.

Lemma trackPrediction_weights t newId sig conf targetP time data conditions :
  modelWeights (trackPrediction t newId sig conf targetP time data conditions)
  = modelWeights t.
Proof. reflexivity. Qed.

Lemma validatePrediction_withinBounds t predictionId currentPrice now :
  withinBounds (modelWeights t) ->
  withinBounds (modelWeights (validatePrediction t predictionId currentPrice now)).
Proof.
  intros Hb. unfold validatePrediction.
  destruct (list_find _ _) as [[i p]|]; [|exact Hb].
  destruct (actualOutcome p); [exact Hb|].
  destruct currentPrice as [actualP|]; [|exact Hb].
  cbn [modelWeights]. apply adjustModelWeights_withinBounds. exact Hb.
Qed.

Lemma call_withinBounds t c :
  withinBounds (modelWeights t) -> withinBounds (modelWeights (call t c)).
Proof.
  destruct c; cbn [call].
  - rewrite trackPrediction_weights. auto.
  - apply validatePrediction_withinBounds.
Qed.

Lemma run_withinBounds calls t :
  withinBounds (modelWeights t) -> withinBounds (modelWeights (run calls t)).
Proof.
  revert t. induction calls as [|c calls IH]; intros t Hb; cbn.
  - exact Hb.
  - apply IH, call_withinBounds, Hb.
Qed.

(** C3. Starting from the default weights, after every sequence of tracked
    predictions and validations the adapted weights are within their
    bounds: the excellent-outcome update never raises the AI weight above
    its maximum 0.8 (nor lowers the technical weight below its minimum
    0.2), and the poor-outcome update never lowers the AI weight below its
    minimum 0.3 (nor raises the technical weight above its maximum
    0.7). *)
Theorem weights_stay_within_bounds calls :
  let w := modelWeights (run calls init) in
  (3 # 10 <= ai w <= 8 # 10) /\ (2 # 10 <= technical w <= 7 # 10).
Proof. apply (run_withinBounds calls init), withinBounds_init. Qed.

(** The bounds are reached: twelve poor outcomes in a row bring the AI
    weight down to 0.3 and the technical weight up to 0.7, fourteen
    excellent outcomes of increasing accuracy bring them to 0.8 and 0.2; a
    poor outcome followed by an excellent one moves them by -0.03 and then
    +0.02. *)
Example weights_reach_their_bounds :
  (ai (modelWeights (run (poorStreak 12) init)) == 3 # 10
   /\ technical (modelWeights (run (poorStreak 12) init)) == 7 # 10)
  /\ (ai (modelWeights (run (excellentStreak 14) init)) == 8 # 10
      /\ technical (modelWeights (run (excellentStreak 14) init)) == 2 # 10)
  /\ (ai (modelWeights (run poorThenExcellent init)) == 59 # 100
      /\ technical (modelWeights (run poorThenExcellent init)) == 41 # 100).
Proof. repeat split; vm_compute; reflexivity. Qed.

End WeightClaims.

(** ** Validation happens at most once *)

Section ValidationClaims.

Import PerformanceTracker TrackerView TrackerSamples.

(** Replacing the prediction found for an identifier by one with the same
    identifier leaves it the one found. *)
Lemma list_find_insert_same (pid : string) (ps : list Prediction) i p p' :
  list_find (fun q => id q = pid) ps = Some (i, p) ->
  id p' = pid ->
  list_find (fun q => id q = pid) (<[i := p']> ps) = Some (i, p').
Proof.
  intros Hf Hid. apply list_find_Some in Hf as (Hi & _ & Hbefore).
  apply list_find_Some. split; [|split].
  - apply list_lookup_insert_eq. eapply lookup_lt_Some, Hi.
  - exact Hid.
  - intros j y Hj Hlt. rewrite list_lookup_insert_ne in Hj by lia.
    eapply Hbefore; eassumption.
Qed.

Lemma validate_resolved t pid currentPrice now i p o :
  lookupPrediction t pid = Some (i, p) -> actualOutcome p = Some o ->
  validatePrediction t pid currentPrice now = t.
Proof.
  unfold lookupPrediction, validatePrediction. intros -> ->. reflexivity.
Qed.

Lemma validate_absent t pid currentPrice now :
  lookupPrediction t pid = None ->
  validatePrediction t pid currentPrice now = t.
Proof.
  unfold lookupPrediction, validatePrediction. intros ->. reflexivity.
Qed.

Lemma lookup_absent t pid :
  (forall p, p ∈ predictions t -> id p <> pid) ->
  lookupPrediction t pid = None.
Proof.
  intros Hno. unfold lookupPrediction. apply list_find_None.
  apply Forall_forall. intros p Hp. apply Hno, Hp.
Qed.

(** A validation that records an outcome leaves the prediction resolved
    under the same identifier. *)
Lemma validate_records t pid actualP now i p :
  lookupPrediction t pid = Some (i, p) -> actualOutcome p = None ->
  exists p',
    lookupPrediction (validatePrediction t pid (Some actualP) now) pid
    = Some (i, p')
    /\ actualOutcome p' = Some (priceMove (targetPrice p) actualP)
    /\ length (results (validatePrediction t pid (Some actualP) now))
       = Nat.min maxPredictions (S (length (results t))).
Proof.
  intros Hf Hnone. unfold lookupPrediction in *.
  pose proof Hf as Hf'. apply list_find_Some in Hf' as (_ & Hid & _).
  unfold validatePrediction. rewrite Hf, Hnone.
  eexists. cbn [predictions results]. split; [|split].
  - apply (list_find_insert_same pid _ i p); [exact Hf | exact Hid].
  - reflexivity.
  - destruct (_ <? _)%nat eqn:Hlen.
    + apply Nat.ltb_lt in Hlen.
      rewrite slice_last_pos by (unfold maxPredictions; lia).
      rewrite length_drop. rewrite length_app in *. cbn [length] in *. lia.
    + apply Nat.ltb_ge in Hlen. rewrite length_app in *. cbn [length] in *.
      lia.
Qed.

(** When the buffer is full, tracking one more prediction evicts the
    oldest one. *)
Lemma trackPrediction_full t newId sig conf targetP time data conditions
    p0 rest :
  predictions t = p0 :: rest -> length (predictions t) = maxPredictions ->
  exists new,
    predictions
      (trackPrediction t newId sig conf targetP time data conditions)
    = rest ++ [new]
    /\ id new = newId.
Proof.
  intros Hps Hlen. unfold trackPrediction. cbn [predictions].
  assert ((maxPredictions <? length (predictions t ++ [_]))%nat = true)
    as ->.
  { apply Nat.ltb_lt. rewrite length_app, Hlen. cbn [length]. lia. }
  rewrite slice_last_pos by (unfold maxPredictions; lia).
  replace (length (predictions t ++ [_]) - maxPredictions)%nat with 1%nat
    by (rewrite length_app, Hlen; cbn [length]; lia).
  rewrite Hps. eexists. split; reflexivity.
Qed.

(** C2. A prediction is resolved at most once.  For a tracker [t] and a
    prediction identifier: (1) if the prediction found for the identifier
    already has an outcome, a validation changes nothing (predictions,
    results and weights are those of [t]); (2) if no prediction of the
    buffer has the identifier, a validation changes nothing; (3) a
    validation for an identifier followed by a further validation for it
    gives the state reached by the first: once an outcome is recorded no
    second result is appended and no second weight update happens; (4) when
    the buffer is full and its oldest prediction is evicted by a newly
    tracked one, the validation of the evicted prediction changes
    nothing. *)
Theorem prediction_resolved_at_most_once t pid actualP now price' now' :
  (forall i p o,
     lookupPrediction t pid = Some (i, p) -> actualOutcome p = Some o ->
     validatePrediction t pid price' now' = t)
  /\ ((forall p, p ∈ predictions t -> id p <> pid) ->
      validatePrediction t pid price' now' = t)
  /\ validatePrediction (validatePrediction t pid (Some actualP) now)
       pid price' now'
     = validatePrediction t pid (Some actualP) now
  /\ (forall newId sig conf targetP time data conditions p0 rest,
       predictions t = p0 :: rest -> length (predictions t) = maxPredictions ->
       id p0 = pid -> newId <> pid -> (forall q, q ∈ rest -> id q <> pid) ->
       validatePrediction
         (trackPrediction t newId sig conf targetP time data conditions)
         pid price' now'
       = trackPrediction t newId sig conf targetP time data conditions).
Proof.
  split; [|split; [|split]].
  - intros i p o Hf Ho. eapply validate_resolved; eassumption.
  - intros Hno. apply validate_absent, lookup_absent, Hno.
  - destruct (lookupPrediction t pid) as [[i p]|] eqn:Hf.
    + destruct (actualOutcome p) as [o|] eqn:Ho.
      * rewrite !(validate_resolved t pid _ _ i p o Hf Ho). reflexivity.
      * destruct (validate_records t pid actualP now i p Hf Ho)
          as (p' & Hf' & Ho' & _).
        eapply validate_resolved; eassumption.
    + rewrite !(validate_absent t pid _ _ Hf). reflexivity.
  - intros newId sig conf targetP time data conditions p0 rest
      Hps Hlen Hid Hnew Hrest.
    destruct (trackPrediction_full t newId sig conf targetP time data
                conditions p0 rest Hps Hlen) as (new & Hps' & Hidnew).
    apply validate_absent, lookup_absent. rewrite Hps'.
    intros q Hq. apply elem_of_app in Hq as [Hq | Hq].
    + apply Hrest, Hq.
    + apply list_elem_of_singleton in Hq. subst q. congruence.
Qed.

Lemma prediction_resolved_at_most_once_witness :
  (match lookupPrediction resolved "pred_1" with
   | Some (_, p) => actualOutcome p <> None
   | None => False
   end
   /\ forall p, p ∈ predictions resolved -> id p <> "pred_0")
  /\ validatePrediction resolved "pred_1" (Some 99) 1800000 = resolved
  /\ validatePrediction resolved "pred_0" (Some 99) 1800000 = resolved.
Proof.
  assert (match lookupPrediction resolved "pred_1" with
          | Some (_, p) => actualOutcome p <> None
          | None => False
          end) as Hfound by (vm_compute; discriminate).
  assert (forall p, p ∈ predictions resolved -> id p <> "pred_0") as Hgone.
  { intros p Hp. apply list_elem_of_lookup in Hp as [[|[|n]] Hn];
      vm_compute in Hn; inversion Hn; discriminate. }
  split; [split; assumption|].
  pose proof (prediction_resolved_at_most_once resolved "pred_1" 99 0
                (Some 99) 1800000%Z) as (Hdone & _ & _ & _).
  pose proof (prediction_resolved_at_most_once resolved "pred_0" 99 0
                (Some 99) 1800000%Z) as (_ & Hevicted & _ & _).
  split; [|exact (Hevicted Hgone)].
  destruct (lookupPrediction resolved "pred_1") as [[i p]|] eqn:Hf;
    [|contradiction].
  destruct (actualOutcome p) as [o|] eqn:Ho; [|congruence].
  exact (Hdone i p o eq_refl Ho).
Defined.

End ValidationClaims.

(** ** Confidence calibration *)

Section CalibrationClaims.

Import PerformanceTracker TrackerView TrackerSamples.

Lemma groupByRange_snoc ps p :
  groupByRange (ps ++ [p]) = assign (groupByRange ps) p.
Proof. unfold groupByRange. rewrite fold_left_app. reflexivity. Qed.

Lemma assign_buckets content p :
  assign (buckets content) p =
  buckets (fun i => if decide (bucketOf p = Some i)
                    then content i ++ [p] else content i).
Proof.
  unfold assign, bucketOf, buckets, ranges0, inRange.
  cbn [min max list_find fmap list_fmap].
  destruct (Js.ge (confidence p) 80 && Js.le (confidence p) 100);
    [reflexivity|].
  destruct (Js.ge (confidence p) 60 && Js.le (confidence p) 79);
    [reflexivity|].
  destruct (Js.ge (confidence p) 40 && Js.le (confidence p) 59);
    [reflexivity|].
  destruct (Js.ge (confidence p) 20 && Js.le (confidence p) 39);
    reflexivity.
Qed.

Lemma groupByRange_buckets ps :
  groupByRange ps = buckets (fun i => filter (fun p => bucketOf p = Some i) ps).
Proof.
  induction ps as [|p ps IH] using rev_ind; [reflexivity|].
  rewrite groupByRange_snoc, IH, assign_buckets.
  unfold buckets. rewrite !filter_app, !filter_cons, !filter_nil.
  repeat f_equal; destruct (decide _); rewrite ?app_nil_r; reflexivity.
Qed.


Lemma bucket_content ps i r :
  groupByRange ps !! i = Some r ->
  r_predictions r = filter (fun p => bucketOf p = Some i) ps.
Proof.
  rewrite groupByRange_buckets. unfold buckets.
  destruct i as [|[|[|[|i]]]]; cbn; intros Hr; inversion Hr; reflexivity.
Qed.

Lemma outside_range p lo hi :
  confidence p < lo \/ hi < confidence p ->
  Js.ge (confidence p) lo && Js.le (confidence p) hi = false.
Proof.
  intros [Hlo | Hhi]; apply andb_false_iff.
  - left. apply ge_false_iff, Hlo.
  - right. apply le_false_iff, Hhi.
Qed.

(** A confidence between the ranges is assigned to none. *)
Lemma bucketOf_between p : betweenRanges (confidence p) -> bucketOf p = None.
Proof.
  intros Hb. unfold bucketOf, ranges0, inRange.
  cbn [min max list_find fmap].
  rewrite !outside_range; [reflexivity | | | |];
    unfold betweenRanges in Hb; lra.
Qed.

Lemma groupByRange_skip p l1 l2 :
  bucketOf p = None -> groupByRange (l1 ++ p :: l2) = groupByRange (l1 ++ l2).
Proof.
  intros Hnone. rewrite !groupByRange_buckets. unfold buckets.
  rewrite !filter_app, !filter_cons, Hnone.
  repeat f_equal.
Qed.

(** C10. The calibration assigns every prediction to at most one of its
    four ranges (80-100, 60-79, 40-59, 20-39): a prediction is never in
    the lists of two different ranges.  A prediction whose confidence is
    below 20 or strictly between 39 and 40, 59 and 60 or 79 and 80 is in
    the list of no range, and the calibration report is the same with or
    without it.  The fusion of the sentiment agent, which does not round
    after its multiplier, produces such a confidence (59.2). *)
Theorem calibration_at_most_one_bucket ps :
  (forall p i j ri rj,
     groupByRange ps !! i = Some ri -> groupByRange ps !! j = Some rj ->
     p ∈ r_predictions ri -> p ∈ r_predictions rj -> i = j)
  /\ (forall p r,
       betweenRanges (confidence p) ->
       r ∈ groupByRange ps -> p ∉ r_predictions r)
  /\ (forall p l1 l2,
       betweenRanges (confidence p) -> ps = l1 ++ p :: l2 ->
       calculateConfidenceCalibration ps
       = calculateConfidenceCalibration (l1 ++ l2))
  /\ (MarketSentiment.confidence Samples.enhanced == 592 # 10
      /\ betweenRanges (MarketSentiment.confidence Samples.enhanced)).
Proof.
  split; [|split; [|split]].
  - intros p i j ri rj Hi Hj Hpi Hpj.
    rewrite (bucket_content ps i ri Hi) in Hpi.
    rewrite (bucket_content ps j rj Hj) in Hpj.
    apply list_elem_of_filter in Hpi as [Hpi _].
    apply list_elem_of_filter in Hpj as [Hpj _].
    congruence.
  - intros p r Hb Hr Hp.
    apply list_elem_of_lookup in Hr as [i Hi].
    rewrite (bucket_content ps i r Hi) in Hp.
    apply list_elem_of_filter in Hp as [Hp _].
    rewrite (bucketOf_between p Hb) in Hp. discriminate Hp.
  - intros p l1 l2 Hb ->. unfold calculateConfidenceCalibration.
    rewrite (groupByRange_skip p l1 l2 (bucketOf_between p Hb)). reflexivity.
  - split; [reflexivity|]. right. right. left. split; reflexivity.
Qed.

Lemma calibration_at_most_one_bucket_witness :
  betweenRanges (confidence inTheGap)
  /\ calculateConfidenceCalibration
       [validatedAt "a" 85 90; inTheGap; validatedAt "b" 45 60]
     = calculateConfidenceCalibration
         [validatedAt "a" 85 90; validatedAt "b" 45 60].
Proof.
  assert (betweenRanges (confidence inTheGap)) as Hgap.
  { right. right. left. split; reflexivity. }
  split; [exact Hgap|].
  destruct (calibration_at_most_one_bucket
              [validatedAt "a" 85 90; inTheGap; validatedAt "b" 45 60])
    as (_ & _ & Hskip & _).
  exact (Hskip inTheGap [validatedAt "a" 85 90] [validatedAt "b" 45 60]
           Hgap eq_refl).
Defined.

End CalibrationClaims.


(** * Further properties of the code *)

(** ** Tracker: buffers, scores and weights *)

Section TrackerProperties.

Import PerformanceTracker PerformanceStats TrackerView TrackerInvariants
  TrackerSamples.

Lemma slice_last_length {A} n (l : list A) :
  (0 < n)%nat -> (length (Js.slice_last n l) <= n)%nat.
Proof. intros Hn. rewrite slice_last_pos, length_drop by exact Hn. lia. Qed.

Lemma slice_last_Forall {A} (P : A -> Prop) n (l : list A) :
  Forall P l -> Forall P (Js.slice_last n l).
Proof.
  intros Hall. destruct n as [|n]; [exact Hall|].
  cbn [Js.slice_last]. apply Forall_drop, Hall.
Qed.

Lemma trackPrediction_length t newId sig conf targetP time data conditions :
  (length (predictions
             (trackPrediction t newId sig conf targetP time data conditions))
   <= maxPredictions)%nat.
Proof.
  unfold trackPrediction. cbn [predictions].
  destruct (_ <? _)%nat eqn:Hlen.
  - apply slice_last_length. unfold maxPredictions. lia.
  - apply Nat.ltb_ge in Hlen. exact Hlen.
Qed.

Lemma validatePrediction_predictions_length t pid price now :
  length (predictions (validatePrediction t pid price now))
  = length (predictions t).
Proof.
  unfold validatePrediction.
  destruct (list_find _ _) as [[i p]|]; [|reflexivity].
  destruct (actualOutcome p); [reflexivity|].
  destruct price; [|reflexivity].
  cbn [predictions]. apply length_insert.
Qed.

Lemma validatePrediction_results_length t pid price now :
  (length (results t) <= maxPredictions)%nat ->
  (length (results (validatePrediction t pid price now)) <= maxPredictions)%nat.
Proof.
  intros Hr. unfold validatePrediction.
  destruct (list_find _ _) as [[i p]|]; [|exact Hr].
  destruct (actualOutcome p); [exact Hr|].
  destruct price; [|exact Hr].
  cbn [results]. destruct (_ <? _)%nat eqn:Hlen.
  - apply slice_last_length. unfold maxPredictions. lia.
  - apply Nat.ltb_ge in Hlen. exact Hlen.
Qed.

(** X1. After every sequence of calls from the initial state, the
    prediction buffer and the result buffer hold at most 500 entries. *)
Theorem buffers_hold_at_most_500 calls :
  (length (predictions (run calls init)) <= 500)%nat
  /\ (length (results (run calls init)) <= 500)%nat.
Proof.
  change 500%nat with maxPredictions.
  assert (forall t,
    (length (predictions t) <= maxPredictions)%nat
    /\ (length (results t) <= maxPredictions)%nat ->
    (length (predictions (run calls t)) <= maxPredictions)%nat
    /\ (length (results (run calls t)) <= maxPredictions)%nat) as Hrun.
  { induction calls as [|c calls IH]; intros t Ht; [exact Ht|].
    cbn [run fold_left]. apply IH. destruct Ht as [Hp Hr].
    destruct c; cbn [call].
    - split; [apply trackPrediction_length | exact Hr].
    - split.
      + rewrite validatePrediction_predictions_length. exact Hp.
      + apply validatePrediction_results_length, Hr. }
  apply Hrun. unfold maxPredictions. cbn. split; lia.
Qed.

Lemma calculateAccuracy_range sig move conf :
  20 <= calculateAccuracy sig move conf <= 100.
Proof.
  rewrite calculateAccuracy_mean.
  pose proof (baseAccuracy_range sig move).
  pose proof (calculateConfidenceAccuracy_range conf (baseAccuracy sig move)).
  split; qlra.
Qed.

(** X2. Whatever the signal, the movement and the confidence, the accuracy
    score lies between 20 and 100: no outcome is ever scored below 20. *)
Theorem accuracy_score_between_20_and_100 sig move conf :
  20 <= calculateAccuracy sig move conf <= 100.
Proof. apply calculateAccuracy_range. Qed.

End TrackerProperties.


Section WeightProperties.

Import PerformanceTracker PerformanceStats TrackerView TrackerInvariants
  TrackerSamples.

Lemma balanced_init : balanced (modelWeights init).
Proof. split; reflexivity. Qed.

Lemma min_max_complement a t c lo :
  a + t == 1 -> lo == 1 - c ->
  Qmin c a + Qmax lo t == 1.
Proof.
  intros Hsum Hlo.
  destruct (Q.min_spec c a) as [[Hlt Hm] | [Hle Hm]];
    destruct (Q.max_spec lo t) as [[Hlt' Hx] | [Hle' Hx]];
    rewrite Hm, Hx; lra.
Qed.

Lemma max_min_complement a t c hi :
  a + t == 1 -> hi == 1 - c ->
  Qmax c a + Qmin hi t == 1.
Proof.
  intros Hsum Hhi.
  destruct (Q.max_spec c a) as [[Hlt Hm] | [Hle Hm]];
    destruct (Q.min_spec hi t) as [[Hlt' Hx] | [Hle' Hx]];
    rewrite Hm, Hx; lra.
Qed.

Lemma adjustModelWeights_balanced t prediction :
  balanced (modelWeights t) -> balanced (adjustModelWeights t prediction).
Proof.
  unfold balanced, adjustModelWeights. intros [Hsum Hh].
  destruct (Js.gt _ excellent).
  - destruct (_ && _); cbn [ai technical historical]; [|tauto].
    split; [|exact Hh]. apply min_max_complement; lra.
  - destruct (Js.lt _ poor); [|tauto].
    destruct (Js.gt_opt _ _); cbn [ai technical historical]; [|tauto].
    split; [|exact Hh]. apply max_min_complement; lra.
Qed.

Lemma validatePrediction_balanced t pid price now :
  balanced (modelWeights t) ->
  balanced (modelWeights (validatePrediction t pid price now)).
Proof.
  intros Hb. unfold validatePrediction.
  destruct (list_find _ _) as [[i p]|]; [|exact Hb].
  destruct (actualOutcome p); [exact Hb|].
  destruct price; [|exact Hb].
  cbn [modelWeights]. apply adjustModelWeights_balanced. exact Hb.
Qed.

Lemma run_balanced calls t :
  balanced (modelWeights t) -> balanced (modelWeights (run calls t)).
Proof.
  revert t. induction calls as [|c calls IH]; intros t Hb; [exact Hb|].
  cbn [run fold_left]. apply IH. destruct c; cbn [call].
  - exact Hb.
  - apply validatePrediction_balanced, Hb.
Qed.

(** X3. The historical weight is never adapted and never used as it is
    kept: after every sequence of calls from the initial state it is still
    0, and the enhanced fusion, given the tracker's weights, replaces it by
    0.2, so that the historical analysis always takes part in the fusion
    with a positive weight. *)
Theorem historical_weight_is_replaced calls traditional hour :
  let w := modelWeights (run calls init) in
  historical w == 0
  /\ MarketSentiment.totalWeight w
     = ai w + technical w + (2 # 10) + (15 # 100)
  /\ 0 < snd (fst (MarketSentiment.adjustedWeights traditional w hour)).
Proof.
  cbn zeta.
  pose proof (run_balanced calls init balanced_init) as [_ Hh].
  pose proof (run_withinBounds calls init withinBounds_init)
    as [[Ha _] [Ht _]].
  set (w := modelWeights (run calls init)) in *.
  assert (Js.num_or (Some (historical w)) (2 # 10) = 2 # 10) as Hor.
  { unfold Js.num_or. rewrite (proj2 (Qeq_bool_iff _ 0) Hh). reflexivity. }
  split; [exact Hh|].
  unfold MarketSentiment.adjustedWeights, MarketSentiment.totalWeight.
  rewrite Hor. split; [reflexivity|].
  set (T := ai w + technical w + (2 # 10) + (15 # 100)).
  assert (0 < T) as HT by (unfold T; lra).
  assert (0 < (2 # 10) / T) as Hpos.
  { apply Qlt_shift_div_l; [exact HT | lra]. }
  destruct (Js.gt _ 2); destruct (_ || _); cbn [fst snd]; lra.
Qed.

(** X4. One adjustment is a bounded step in a fixed direction.  With the
    weights within their bounds: an accuracy above 80 never lowers the AI
    weight and raises it by at most 0.02 (the technical weight moves the
    other way); an accuracy below 45 never raises the AI weight and lowers
    it by at most 0.03; an accuracy from 45 to 80 changes nothing. *)
Theorem weight_adjustment_steps t prediction :
  withinBounds (modelWeights t) ->
  let w := modelWeights t in
  let w' := adjustModelWeights t prediction in
  let acc := num (accuracy prediction) in
  (80 < acc ->
   (ai w <= ai w' <= ai w + (2 # 100))
   /\ (technical w - (2 # 100) <= technical w' <= technical w))
  /\ (acc < 45 ->
      (ai w - (3 # 100) <= ai w' <= ai w)
      /\ (technical w <= technical w' <= technical w + (3 # 100)))
  /\ (45 <= acc <= 80 -> w' = w).
Proof.
  intros [[Ha1 Ha2] [Ht1 Ht2]]. cbn zeta.
  unfold adjustModelWeights, excellent, poor.
  split; [|split].
  - intros Hacc. rewrite (proj2 (gt_true_iff _ _) Hacc).
    destruct (_ && _); cbn [ai technical]; [|lra].
    destruct (Q.min_spec (8 # 10) (ai (modelWeights t) + (2 # 100)))
      as [[? Hm] | [? Hm]];
      destruct (Q.max_spec (2 # 10) (technical (modelWeights t) - (2 # 100)))
        as [[? Hx] | [? Hx]];
      rewrite Hm, Hx; lra.
  - intros Hacc.
    assert (Js.gt (num (accuracy prediction)) 80 = false) as ->
      by (apply gt_false_iff; lra).
    rewrite (proj2 (lt_true_iff _ _) Hacc).
    destruct (Js.gt_opt _ _); cbn [ai technical]; [|lra].
    destruct (Q.max_spec (3 # 10) (ai (modelWeights t) - (3 # 100)))
      as [[? Hm] | [? Hm]];
      destruct (Q.min_spec (7 # 10) (technical (modelWeights t) + (3 # 100)))
        as [[? Hx] | [? Hx]];
      rewrite Hm, Hx; lra.
  - intros [Hlo Hhi].
    assert (Js.gt (num (accuracy prediction)) 80 = false) as ->
      by (apply gt_false_iff; exact Hhi).
    assert (Js.lt (num (accuracy prediction)) 45 = false) as ->
      by (apply lt_false_iff; exact Hlo).
    reflexivity.
Qed.

Lemma weight_adjustment_steps_witness :
  withinBounds (modelWeights init)
  /\ adjustModelWeights init (validatedAt "a" 85 60) = modelWeights init.
Proof.
  assert (withinBounds (modelWeights init)) as Hb.
  { unfold withinBounds. cbn. split; split; discriminate. }
  split; [exact Hb|].
  destruct (weight_adjustment_steps init (validatedAt "a" 85 60) Hb)
    as (_ & _ & Hmid).
  apply Hmid. cbn. split; discriminate.
Defined.

End WeightProperties.


Section FirstOutcome.

Import PerformanceTracker PerformanceStats TrackerView TrackerInvariants
  TrackerSamples MoreSamples.

(** With nothing validated before, the validated predictions after the
    recording are the recorded one alone. *)
Lemma filter_validated_insert (ps : list Prediction) i p p' :
  allPending ps -> ps !! i = Some p -> validated p' = true ->
  filter (fun q => validated q = true) (<[i := p']> ps) = [p'].
Proof.
  unfold allPending. revert i.
  induction ps as [|q ps IH]; intros i Hall Hi Hv; [discriminate Hi|].
  apply Forall_cons in Hall as [Hq Hall].
  destruct i as [|i]; cbn [insert list_insert].
  - rewrite filter_cons_True by exact Hv. f_equal.
    clear -Hall. induction Hall as [|r rs Hr _ IHrs]; [reflexivity|].
    rewrite filter_cons_False; [exact IHrs|].
    unfold validated. rewrite Hr. discriminate.
  - rewrite filter_cons_False.
    + apply IH; assumption.
    + unfold validated. rewrite Hq. discriminate.
Qed.

Lemma gt_irrefl_eq a b : a == b -> Js.gt a b = false.
Proof. intros Hab. apply gt_false_iff. rewrite Hab. apply Qle_refl. Qed.

(** X5. The first outcome ever validated cannot raise the AI weight: the
    excellent update needs an accuracy above the recent mean, and the mean
    of a single score is that score.  With no prediction validated before
    and the weights within their bounds, a validation leaves the AI weight
    where it was or lower (and the technical weight where it was or
    higher), and changes no weight when the accuracy is at least 45. *)
Theorem first_outcome_never_raises_ai t pid price now :
  allPending (predictions t) -> withinBounds (modelWeights t) ->
  let t' := validatePrediction t pid price now in
  ai (modelWeights t') <= ai (modelWeights t)
  /\ technical (modelWeights t) <= technical (modelWeights t')
  /\ (forall i p actualP,
        lookupPrediction t pid = Some (i, p) -> price = Some actualP ->
        45 <= calculateAccuracy (signal p)
                (priceMove (targetPrice p) actualP) (confidence p) ->
        modelWeights t' = modelWeights t).
Proof.
  intros Hall Hb. cbn zeta.
  assert (forall i p actualP,
    lookupPrediction t pid = Some (i, p) ->
    let acc := calculateAccuracy (signal p)
                 (priceMove (targetPrice p) actualP) (confidence p) in
    modelWeights (validatePrediction t pid (Some actualP) now)
    = if Js.lt acc poor
      then if Js.gt_opt (aiWeight (agentData p)) (traditionalWeight (agentData p))
           then {| ai := Qmax (3 # 10) (ai (modelWeights t) - (3 # 100));
                   technical :=
                     Qmin (7 # 10) (technical (modelWeights t) + (3 # 100));
                   historical := historical (modelWeights t) |}
           else modelWeights t
      else modelWeights t) as Hstep.
  { intros i p actualP Hf acc. unfold lookupPrediction in Hf.
    pose proof Hf as Hf'. apply list_find_Some in Hf' as (Hi & _ & _).
    assert (actualOutcome p = None) as Hnone.
    { unfold allPending in Hall. rewrite Forall_forall in Hall.
      apply Hall. eapply list_elem_of_lookup_2, Hi. }
    unfold validatePrediction. rewrite Hf, Hnone.
    cbn [modelWeights]. unfold adjustModelWeights.
    cbn [accuracy agentData num default modelWeights].
    unfold getRecentAccuracy. cbn [predictions].
    erewrite filter_validated_insert; [|exact Hall|exact Hi|reflexivity].
    cbn [Js.slice_last length drop Nat.sub overall].
    fold (priceMove (targetPrice p) actualP). fold acc.
    change (Datatypes.id acc) with acc.
    destruct (Js.gt acc excellent) eqn:Hex.
    - match goal with
      | |- context [Js.gt acc (average ?l)] =>
        assert (Js.gt acc (average l) = false) as Hself
      end.
      2:{ rewrite Hself, andb_false_r.
          apply gt_true_iff in Hex. unfold excellent in Hex.
          assert (Js.lt acc poor = false) as ->
            by (apply lt_false_iff; unfold poor; lra).
          reflexivity. }
      apply gt_irrefl_eq. unfold average, sumAccuracy.
      cbn [fold_left accuracy num default length].
      change (inject_Z (Z.of_nat 1)) with 1. fold acc.
      change (Datatypes.id acc) with acc. field.
    - reflexivity. }
  destruct Hb as [[Ha1 Ha2] [Ht1 Ht2]].
  assert (ai (modelWeights (validatePrediction t pid price now))
          <= ai (modelWeights t)
          /\ technical (modelWeights t)
             <= technical (modelWeights (validatePrediction t pid price now)))
    as Hmono.
  { destruct (lookupPrediction t pid) as [[i p]|] eqn:Hf.
    - destruct price as [actualP|].
      + rewrite (Hstep i p actualP eq_refl). cbn zeta.
        destruct (Js.lt _ poor); [|lra].
        destruct (Js.gt_opt _ _); cbn [ai technical]; [|lra].
        split.
        * apply Q.max_lub; lra.
        * apply Q.min_glb; lra.
      + unfold lookupPrediction in Hf. unfold validatePrediction.
        rewrite Hf. destruct (actualOutcome p); lra.
    - rewrite (validate_absent t pid price now Hf). lra. }
  destruct Hmono as [Hai Htech]. split; [exact Hai|]. split; [exact Htech|].
  intros i p actualP Hf -> Hacc.
  rewrite (Hstep i p actualP Hf). cbn zeta.
  assert (Js.lt
            (calculateAccuracy (signal p) (priceMove (targetPrice p) actualP)
               (confidence p)) poor = false) as ->
    by (apply lt_false_iff; exact Hacc).
  reflexivity.
Qed.

Lemma first_outcome_never_raises_ai_witness :
  (allPending (predictions pending) /\ withinBounds (modelWeights pending))
  /\ ai (modelWeights
           (validatePrediction pending "pred_1" (Some (1015 # 10)) 900000))
     <= ai (modelWeights pending).
Proof.
  assert (allPending (predictions pending)) as Hall
    by (repeat constructor).
  assert (withinBounds (modelWeights pending)) as Hb.
  { unfold withinBounds. cbn. split; split; discriminate. }
  split; [split; assumption|].
  exact (proj1 (first_outcome_never_raises_ai pending "pred_1"
                  (Some (1015 # 10)) 900000%Z Hall Hb)).
Defined.

End FirstOutcome.


Section StatsProperties.

Import PerformanceTracker PerformanceStats TrackerView TrackerInvariants
  TrackerSamples MoreSamples.

Lemma count_succ {A} (x : A) (l : list A) :
  inject_Z (Z.of_nat (length (x :: l)))
  == inject_Z (Z.of_nat (length l)) + 1.
Proof.
  cbn [length]. rewrite Nat2Z.inj_succ. unfold Z.succ.
  rewrite inject_Z_plus. reflexivity.
Qed.

Lemma sumAccuracy_bounds lo hi (ps : list Prediction) a :
  Forall (fun p => lo <= num (accuracy p) <= hi) ps ->
  a + lo * inject_Z (Z.of_nat (length ps))
  <= fold_left (fun sum p => sum + num (accuracy p)) ps a
  <= a + hi * inject_Z (Z.of_nat (length ps)).
Proof.
  intros Hall. revert a.
  induction Hall as [|p ps [Hlo Hhi] _ IH]; intros a.
  - cbn [fold_left length]. change (inject_Z (Z.of_nat 0)) with 0.
    split; lra.
  - cbn [fold_left]. rewrite count_succ.
    specialize (IH (a + num (accuracy p))). lra.
Qed.

Lemma count_pos {A} (x : A) (l : list A) :
  0 < inject_Z (Z.of_nat (length (x :: l))).
Proof.
  rewrite count_succ.
  assert (0 <= inject_Z (Z.of_nat (length l))) as Hn.
  { change 0 with (inject_Z 0). rewrite <- Zle_Qle. lia. }
  lra.
Qed.

(** The mean score of a non-empty list lies between the bounds of its
    scores. *)
Lemma average_bounds lo hi (ps : list Prediction) :
  ps <> [] -> Forall (fun p => lo <= num (accuracy p) <= hi) ps ->
  lo <= average ps <= hi.
Proof.
  intros Hne Hall. destruct ps as [|p ps]; [congruence|].
  pose proof (count_pos p ps) as Hpos.
  pose proof (sumAccuracy_bounds lo hi (p :: ps) 0 Hall) as [Hlo Hhi].
  unfold average, sumAccuracy. split.
  - apply Qle_shift_div_l; [exact Hpos | lra].
  - apply Qle_shift_div_r; [exact Hpos | lra].
Qed.

Lemma scored_validated ps :
  scored ps ->
  Forall (fun p => 20 <= num (accuracy p) <= 100)
    (filter (fun p => validated p = true) ps).
Proof.
  unfold scored. rewrite !Forall_forall. intros Hs p Hp.
  apply list_elem_of_filter in Hp as [Hv Hp]. apply Hs; assumption.
Qed.

Lemma trackPrediction_scored t newId sig conf targetP time data conditions :
  scored (predictions t) ->
  scored (predictions
            (trackPrediction t newId sig conf targetP time data conditions)).
Proof.
  intros Hs. unfold trackPrediction. cbn [predictions].
  match goal with
  | |- scored (if _ then _ else ?l) => assert (scored l) as Hall
  end.
  2:{ destruct (_ <? _)%nat; [|exact Hall].
      apply slice_last_Forall, Hall. }
  apply Forall_app. split; [exact Hs|].
  apply Forall_cons. split; [|apply Forall_nil_2].
  intros Hv. discriminate Hv.
Qed.

Lemma validatePrediction_scored t pid price now :
  scored (predictions t) ->
  scored (predictions (validatePrediction t pid price now)).
Proof.
  intros Hs. unfold validatePrediction.
  destruct (list_find _ _) as [[i p]|]; [|exact Hs].
  destruct (actualOutcome p); [exact Hs|].
  destruct price; [|exact Hs].
  cbn [predictions]. apply Forall_insert; [exact Hs|].
  intros _. cbn [accuracy num default].
  apply calculateAccuracy_range.
Qed.

Lemma run_scored calls t :
  scored (predictions t) -> scored (predictions (run calls t)).
Proof.
  revert t. induction calls as [|c calls IH]; intros t Hs; [exact Hs|].
  cbn [run fold_left]. apply IH. destruct c; cbn [call].
  - apply trackPrediction_scored, Hs.
  - apply validatePrediction_scored, Hs.
Qed.

Lemma getModelAccuracy_range t :
  scored (predictions t) -> 20 <= getModelAccuracy t <= 100.
Proof.
  intros Hs. apply scored_validated in Hs. unfold getModelAccuracy.
  destruct (filter _ _) as [|p ps] eqn:Hvp; [split; discriminate|].
  apply (average_bounds 20 100 (p :: ps)); [discriminate | exact Hs].
Qed.

Lemma getRecentAccuracy_range t n :
  scored (predictions t) ->
  20 <= overall (getRecentAccuracy t n) <= 100
  /\ ((0 < n)%nat -> (ra_count (getRecentAccuracy t n) <= n)%nat).
Proof.
  intros Hs. apply scored_validated in Hs. unfold getRecentAccuracy.
  pose proof (slice_last_length n
                (filter (fun p => validated p = true) (predictions t))) as Hn.
  pose proof (slice_last_Forall _ n _ Hs) as Hall.
  destruct (Js.slice_last n _) as [|p ps]; cbn [overall ra_count].
  - split; [split; discriminate | cbn [length]; lia].
  - split; [|exact Hn].
    apply (average_bounds 20 100 (p :: ps)); [discriminate | exact Hall].
Qed.

(** With the count 0 the recent accuracy covers every validated
    prediction: [slice(-0)] keeps the whole array. *)
Lemma getRecentAccuracy_all t :
  ra_count (getRecentAccuracy t 0)
  = length (filter (fun p => validated p = true) (predictions t))
  /\ overall (getRecentAccuracy t 0) = getModelAccuracy t.
Proof.
  unfold getRecentAccuracy, getModelAccuracy. cbn [Js.slice_last].
  destruct (filter _ _) as [|p ps]; split; reflexivity.
Qed.

(** X6. After every sequence of calls from the initial state that tracks
    no target price of 0, the overall model accuracy and the recent
    accuracy over the last [n] validated predictions lie between 20 and
    100 (they are 50 when nothing is validated).  For a count [n] of at
    least 1 the recent accuracy covers at most [n] predictions; for the
    count 0 it covers every validated prediction and equals the overall
    accuracy. *)
Theorem reported_accuracy_between_20_and_100 calls n :
  Forall priced calls ->
  let t := run calls init in
  20 <= getModelAccuracy t <= 100
  /\ 20 <= overall (getRecentAccuracy t n) <= 100
  /\ ((0 < n)%nat -> (ra_count (getRecentAccuracy t n) <= n)%nat)
  /\ ra_count (getRecentAccuracy t 0)
     = length (filter (fun p => validated p = true) (predictions t))
  /\ overall (getRecentAccuracy t 0) = getModelAccuracy t.
Proof.
  intros _. cbn zeta.
  assert (scored (predictions (run calls init))) as Hs
    by (apply run_scored; apply Forall_nil_2).
  split; [apply getModelAccuracy_range, Hs|].
  destruct (getRecentAccuracy_range (run calls init) n Hs) as [Hr Hc].
  split; [exact Hr|]. split; [exact Hc|].
  apply getRecentAccuracy_all.
Qed.

Lemma reported_accuracy_between_20_and_100_witness :
  (Forall priced poorThenExcellent /\ (0 < 20)%nat)
  /\ 20 <= getModelAccuracy (run poorThenExcellent init) <= 100
  /\ (ra_count (getRecentAccuracy (run poorThenExcellent init) 20)
      <= 20)%nat.
Proof.
  assert (Forall priced poorThenExcellent) as Hp.
  { repeat constructor; discriminate. }
  assert (0 < 20)%nat as Hn by lia.
  split; [split; assumption|].
  destruct (reported_accuracy_between_20_and_100 poorThenExcellent 20 Hp)
    as (Hm & _ & Hc & _).
  split; [exact Hm | exact (Hc Hn)].
Defined.

Lemma filter_validated_pending ps p :
  validated p = false ->
  filter (fun q => validated q = true) (ps ++ [p])
  = filter (fun q => validated q = true) ps.
Proof.
  intros Hp. rewrite filter_app, filter_cons_False, filter_nil, app_nil_r.
  - reflexivity.
  - rewrite Hp. discriminate.
Qed.

(** X7. A newly tracked prediction does not count until it is validated:
    as long as the buffer is not full, tracking a prediction leaves the
    performance statistics and the exported data unchanged, and the
    statistics count exactly the validated predictions. *)
Theorem tracking_leaves_statistics t newId sig conf targetP time data
    conditions :
  (length (predictions t) < 500)%nat ->
  let t' := trackPrediction t newId sig conf targetP time data conditions in
  getPerformanceStats t' = getPerformanceStats t
  /\ exportPerformanceData t' = exportPerformanceData t
  /\ totalPredictions (getPerformanceStats t)
     = length (filter (fun p => validated p = true) (predictions t)).
Proof.
  intros Hlen. cbn zeta.
  assert (filter (fun p => validated p = true)
            (predictions
               (trackPrediction t newId sig conf targetP time data conditions))
          = filter (fun p => validated p = true) (predictions t)) as Hsame.
  { unfold trackPrediction. cbn [predictions].
    match goal with
    | |- context [(maxPredictions <? ?n)%nat] =>
      assert ((maxPredictions <? n)%nat = false) as ->
    end.
    { apply Nat.ltb_ge. rewrite length_app. cbn [length].
      unfold maxPredictions. lia. }
    apply filter_validated_pending. reflexivity. }
  assert (getPerformanceStats
            (trackPrediction t newId sig conf targetP time data conditions)
          = getPerformanceStats t) as Hstats.
  { unfold getPerformanceStats, getModelAccuracy, getRecentAccuracy.
    rewrite Hsame. reflexivity. }
  split; [exact Hstats|]. split.
  - unfold exportPerformanceData. rewrite Hstats, Hsame. reflexivity.
  - clear Hsame Hstats. unfold getPerformanceStats.
    remember (filter (fun p => validated p = true) (predictions t)) as vp.
    destruct vp as [|p ps]; reflexivity.
Qed.

Lemma tracking_leaves_statistics_witness :
  (length (predictions resolved) < 500)%nat
  /\ getPerformanceStats
       (trackPrediction resolved "pred_2" "SELL" 70 100 900000 defaultData
          calm)
     = getPerformanceStats resolved.
Proof.
  assert (length (predictions resolved) < 500)%nat as Hlen
    by (vm_compute; lia).
  split; [exact Hlen|].
  exact (proj1 (tracking_leaves_statistics resolved "pred_2" "SELL" 70 100
                  900000%Z defaultData calm Hlen)).
Defined.

End StatsProperties.


Section CalibrationCounts.

Import PerformanceTracker PerformanceStats TrackerView TrackerInvariants
  TrackerSamples MoreSamples.

Lemma c_count_calibrate r : c_count (calibrate r) = length (r_predictions r).
Proof. unfold calibrate. destruct (r_predictions r); reflexivity. Qed.

Lemma totalCount_buckets content :
  totalCount (map calibrate (buckets content))
  = (length (content 0%nat) + (length (content 1%nat)
     + (length (content 2%nat) + (length (content 3%nat) + 0))))%nat.
Proof.
  unfold totalCount, buckets. cbn [map foldr].
  rewrite !c_count_calibrate. reflexivity.
Qed.

(** A prediction goes to one of the four ranges or to none. *)
Lemma bucketOf_cases p :
  bucketOf p = None \/ bucketOf p = Some 0%nat \/ bucketOf p = Some 1%nat
  \/ bucketOf p = Some 2%nat \/ bucketOf p = Some 3%nat.
Proof.
  unfold bucketOf, ranges0, inRange. cbn [min max list_find fmap].
  destruct (Js.ge (confidence p) 80 && Js.le (confidence p) 100); [tauto|].
  destruct (Js.ge (confidence p) 60 && Js.le (confidence p) 79); [tauto|].
  destruct (Js.ge (confidence p) 40 && Js.le (confidence p) 59); [tauto|].
  destruct (Js.ge (confidence p) 20 && Js.le (confidence p) 39); tauto.
Qed.

Lemma bucket_lengths ps :
  (length (filter (fun p => bucketOf p = Some 0%nat) ps)
   + (length (filter (fun p => bucketOf p = Some 1%nat) ps)
      + (length (filter (fun p => bucketOf p = Some 2%nat) ps)
         + (length (filter (fun p => bucketOf p = Some 3%nat) ps) + 0))))%nat
  = length (filter (fun p => is_Some (bucketOf p)) ps).
Proof.
  induction ps as [|p ps IH]; [reflexivity|].
  rewrite !filter_cons. cbn beta.
  destruct (bucketOf_cases p) as [Hb | [Hb | [Hb | [Hb | Hb]]]];
    rewrite Hb; repeat case_decide;
    repeat match goal with
    | H : ~ is_Some (Some _) |- _ => exfalso; apply H; eauto
    | H : is_Some None |- _ => destruct H as [? H]; discriminate H
    | H : None = Some _ |- _ => discriminate H
    | H : Some _ = Some _ |- _ => first [discriminate H | clear H]
    | H : Some ?x <> Some ?x |- _ => exfalso; apply H; reflexivity
    | H : _ <> _ |- _ => clear H
    | H : is_Some _ |- _ => clear H
    | H : ~ is_Some None |- _ => clear H
    end;
    cbn [length]; lia.
Qed.

Lemma whole_in_range z lo hi (c : Q) :
  c == inject_Z z -> (lo <= z <= hi)%Z ->
  Js.ge c (inject_Z lo) && Js.le c (inject_Z hi) = true.
Proof.
  intros Hc [Hlo Hhi]. apply andb_true_iff. split.
  - apply ge_true_iff. rewrite Hc, <- Zle_Qle. exact Hlo.
  - apply le_true_iff. rewrite Hc, <- Zle_Qle. exact Hhi.
Qed.

(** A whole confidence between 20 and 100 falls in a range. *)
Lemma bucketOf_whole p : wholeConfidence p -> is_Some (bucketOf p).
Proof.
  intros (z & Hc & Hz). unfold bucketOf, ranges0, inRange.
  cbn [min max list_find fmap].
  destruct (Z_le_gt_dec 80 z) as [H80|H80].
  { pose proof (whole_in_range z 80 100 _ Hc ltac:(lia)) as Hin.
    unfold inject_Z in Hin. rewrite Hin. eauto. }
  destruct (Js.ge (confidence p) 80 && Js.le (confidence p) 100); [eauto|].
  destruct (Z_le_gt_dec 60 z) as [H60|H60].
  { pose proof (whole_in_range z 60 79 _ Hc ltac:(lia)) as Hin.
    unfold inject_Z in Hin. rewrite Hin. eauto. }
  destruct (Js.ge (confidence p) 60 && Js.le (confidence p) 79); [eauto|].
  destruct (Z_le_gt_dec 40 z) as [H40|H40].
  { pose proof (whole_in_range z 40 59 _ Hc ltac:(lia)) as Hin.
    unfold inject_Z in Hin. rewrite Hin. eauto. }
  destruct (Js.ge (confidence p) 40 && Js.le (confidence p) 59); [eauto|].
  pose proof (whole_in_range z 20 39 _ Hc ltac:(lia)) as Hin.
  unfold inject_Z in Hin. rewrite Hin. eauto.
Qed.

(** X8. The calibration report always has four entries; the sum of their
    counts is the number of predictions whose confidence falls in a range,
    at most the number of predictions, and it is the number of predictions
    when every confidence is a whole number between 20 and 100. *)
Theorem calibration_counts ps :
  length (calculateConfidenceCalibration ps) = 4%nat
  /\ totalCount (calculateConfidenceCalibration ps)
     = length (filter (fun p => is_Some (bucketOf p)) ps)
  /\ (totalCount (calculateConfidenceCalibration ps) <= length ps)%nat
  /\ (Forall wholeConfidence ps ->
      totalCount (calculateConfidenceCalibration ps) = length ps).
Proof.
  unfold calculateConfidenceCalibration. rewrite groupByRange_buckets.
  rewrite totalCount_buckets, bucket_lengths.
  split; [reflexivity|]. split; [reflexivity|]. split.
  - apply length_filter.
  - intros Hall. f_equal. clear -Hall.
    induction Hall as [|p ps Hp _ IH]; [reflexivity|].
    rewrite filter_cons_True by (apply bucketOf_whole, Hp).
    rewrite IH. reflexivity.
Qed.

Lemma calibration_counts_witness :
  Forall wholeConfidence [validatedAt "a" 85 90; validatedAt "b" 45 60]
  /\ totalCount
       (calculateConfidenceCalibration
          [validatedAt "a" 85 90; validatedAt "b" 45 60]) = 2%nat.
Proof.
  assert (Forall wholeConfidence
            [validatedAt "a" 85 90; validatedAt "b" 45 60]) as Hall.
  { repeat constructor.
    - exists 85%Z. split; [reflexivity | lia].
    - exists 45%Z. split; [reflexivity | lia]. }
  split; [exact Hall|].
  destruct (calibration_counts
              [validatedAt "a" 85 90; validatedAt "b" 45 60])
    as (_ & _ & _ & Hfull).
  exact (Hfull Hall).
Defined.

(** X9. A validation never adds, removes or reorders predictions: the
    identifiers of the buffer are the same before and after, and every
    prediction with another identifier is left exactly as it was. *)
Theorem validation_keeps_the_buffer t pid price now :
  let t' := validatePrediction t pid price now in
  map id (predictions t') = map id (predictions t)
  /\ (forall j q,
        predictions t !! j = Some q -> id q <> pid ->
        predictions t' !! j = Some q).
Proof.
  cbn zeta. unfold validatePrediction.
  destruct (list_find _ _) as [[i p]|] eqn:Hf; [|split; auto].
  destruct (actualOutcome p) as [o|]; [split; auto|].
  destruct price as [actualP|]; [|split; auto].
  cbn [predictions]. apply list_find_Some in Hf as (Hi & Hid & _).
  split.
  - change (map id ?l) with (id <$> l).
    rewrite list_fmap_insert. cbn [id]. apply list_insert_id.
    rewrite list_lookup_fmap, Hi. reflexivity.
  - intros j q Hj Hq. rewrite list_lookup_insert_ne; [exact Hj|].
    intros ->. rewrite Hi in Hj. inversion Hj. subst q. contradiction.
Qed.

Lemma validation_keeps_the_buffer_witness :
  match predictions twoPending !! 1%nat with
  | Some q =>
    id q <> "pred_1"
    /\ predictions
         (validatePrediction twoPending "pred_1" (Some 101) 900000)
       !! 1%nat = Some q
  | None => False
  end.
Proof.
  pose proof (proj2 (validation_keeps_the_buffer twoPending "pred_1"
                       (Some 101) 900000%Z) 1%nat) as Hkeep.
  destruct (predictions twoPending !! 1%nat) as [q|] eqn:Hq.
  - assert (id q <> "pred_1") as Hid.
    { vm_compute in Hq. inversion Hq. discriminate. }
    split; [exact Hid | exact (Hkeep q eq_refl Hid)].
  - vm_compute in Hq. discriminate Hq.
Defined.

End CalibrationCounts.


(** ** Orchestrator: votes, caps and defaults *)

Section OrchestratorProperties.

Import Orchestrator OrchestratorView OrchestratorVotes Samples.

Lemma finalAction_BUY_inv s : finalAction s = "BUY" -> 4 # 10 < BUY s.
Proof.
  unfold finalAction. destruct (Js.gt (BUY s) (4 # 10)) eqn:Hb.
  - intros _. apply gt_true_iff, Hb.
  - rewrite andb_false_r. destruct (_ && _); discriminate.
Qed.

Lemma finalAction_SELL_inv s : finalAction s = "SELL" -> 4 # 10 < SELL s.
Proof.
  unfold finalAction. destruct (Js.eq _ (BUY s) && _); [discriminate|].
  destruct (Js.gt (SELL s) (4 # 10)) eqn:Hs.
  - intros _. apply gt_true_iff, Hs.
  - rewrite andb_false_r. discriminate.
Qed.

(** X10. No single agent can trigger a trade.  With confidences at most
    100, a fused action BUY needs at least two voting agents whose signal
    counts as BUY, and a fused action SELL at least two whose signal is
    SELL: one weight, at most 0.35, cannot exceed the threshold 0.4. *)
Theorem a_trade_needs_two_votes results :
  (forall a, Js.num_or (confidence (get results a)) 50 <= 100) ->
  (action (aggregateSignals results) = "BUY" -> (2 <= buyVotes results)%nat)
  /\ (action (aggregateSignals results) = "SELL" ->
      (2 <= sellVotes results)%nat).
Proof.
  intros Hc. unfold aggregateSignals. cbn [action].
  pose proof (score_le results technical (Hc technical)) as Ht.
  pose proof (score_le results sentiment (Hc sentiment)) as Hs.
  pose proof (score_le results research (Hc research)) as Hr.
  split; intros Hact.
  - apply finalAction_BUY_inv in Hact. revert Hact.
    rewrite processAgents_steps, !BUY_step. unfold buyVotes.
    destruct (reports results technical && votesBuy (get results technical));
      destruct (reports results sentiment && votesBuy (get results sentiment));
      destruct (reports results research && votesBuy (get results research));
      cbn [vote Nat.add tally0 signals BUY]; intros Hact; try lia; lra.
  - apply finalAction_SELL_inv in Hact. revert Hact.
    rewrite processAgents_steps, !SELL_step. unfold sellVotes.
    destruct (reports results technical && votesSell (get results technical));
      destruct (reports results sentiment
                && votesSell (get results sentiment));
      destruct (reports results research && votesSell (get results research));
      cbn [vote Nat.add tally0 signals SELL]; intros Hact; try lia; lra.
Qed.

Lemma a_trade_needs_two_votes_witness :
  (forall a, Js.num_or (confidence (get strongBuy a)) 50 <= 100)
  /\ (2 <= buyVotes strongBuy)%nat.
Proof.
  assert (forall a, Js.num_or (confidence (get strongBuy a)) 50 <= 100) as Hc
    by (intros []; vm_compute; discriminate).
  split; [exact Hc|].
  apply (proj1 (a_trade_needs_two_votes strongBuy Hc)).
  vm_compute. reflexivity.
Defined.

Lemma round_mono x y : x <= y -> Js.round x <= Js.round y.
Proof.
  intros Hxy. unfold Js.round. rewrite <- Zle_Qle.
  apply Qfloor_resp_le. lra.
Qed.

Lemma round_whole z : Js.round (inject_Z z) = inject_Z z.
Proof.
  unfold Js.round. f_equal.
  pose proof (Qfloor_le (inject_Z z + (1 # 2))) as Hle.
  pose proof (Qlt_floor (inject_Z z + (1 # 2))) as Hlt.
  set (f := Qfloor (inject_Z z + (1 # 2))) in *.
  assert (f < z + 1)%Z as Hup.
  { rewrite Zlt_Qlt, inject_Z_plus. change (inject_Z 1) with 1. lra. }
  assert (z < f + 1)%Z as Hlow.
  { rewrite Zlt_Qlt. lra. }
  lia.
Qed.

Lemma baseConfidence_le results :
  (forall a, Js.num_or (confidence (get results a)) 50 <= 100) ->
  baseConfidence (processAgents results) <= 100.
Proof.
  intros Hc. unfold baseConfidence.
  pose proof (Hc technical) as Ht. pose proof (Hc sentiment) as Hs.
  pose proof (Hc research) as Hr.
  rewrite processAgents_steps, !validAgents_step, !totalConfidence_step.
  destruct (reports results technical); destruct (reports results sentiment);
    destruct (reports results research);
    cbn [validAgents totalConfidence tally0 Nat.ltb Nat.leb];
    try discriminate;
    repeat match goal with
    | |- context [inject_Z (Z.of_nat ?n)] =>
      let v := eval vm_compute in (inject_Z (Z.of_nat n)) in
      change (inject_Z (Z.of_nat n)) with v
    end; qlra.
Qed.

(** X11. A warning of the risk agent caps the fused confidence.  With
    confidences at most 100, the signal AVOID_TRADE keeps the fused
    confidence at 30 or below and CAUTIOUS_TRADE at 70 or below, whatever
    the other agents report. *)
Theorem risk_warning_caps_confidence results :
  (forall a, Js.num_or (confidence (get results a)) 50 <= 100) ->
  (signal (r_risk results) = Some "AVOID_TRADE" ->
   d_confidence (aggregateSignals results) <= 30)
  /\ (signal (r_risk results) = Some "CAUTIOUS_TRADE" ->
      d_confidence (aggregateSignals results) <= 70).
Proof.
  intros Hc. pose proof (baseConfidence_le results Hc) as Hbase.
  unfold aggregateSignals. cbn [d_confidence]. unfold riskModifier.
  split; intros ->; cbn [Js.str_is].
  - rewrite bool_decide_eq_true_2 by reflexivity.
    apply Q.max_lub; [discriminate|].
    eapply Qle_trans; [apply Q.le_min_r|].
    change 30 with (inject_Z 30). rewrite <- (round_whole 30).
    apply round_mono. change (inject_Z 30) with 30. lra.
  - rewrite bool_decide_eq_false_2 by discriminate.
    rewrite bool_decide_eq_true_2 by reflexivity.
    apply Q.max_lub; [discriminate|].
    eapply Qle_trans; [apply Q.le_min_r|].
    change 70 with (inject_Z 70). rewrite <- (round_whole 70).
    apply round_mono. change (inject_Z 70) with 70. lra.
Qed.

Lemma risk_warning_caps_confidence_witness :
  (forall a, Js.num_or (confidence (get strongBuy a)) 50 <= 100)
  /\ d_confidence
       (aggregateSignals (withRisk strongBuy (agent "AVOID_TRADE" 75)))
     <= 30.
Proof.
  assert (forall a, Js.num_or
            (confidence (get (withRisk strongBuy (agent "AVOID_TRADE" 75)) a))
            50 <= 100) as Hc
    by (intros []; vm_compute; discriminate).
  split; [intros []; vm_compute; discriminate|].
  exact (proj1 (risk_warning_caps_confidence
                  (withRisk strongBuy (agent "AVOID_TRADE" 75)) Hc) eq_refl).
Defined.

(** X12. A reported confidence of 0 is not used as 0: it counts as 50,
    like a missing confidence.  Replacing the confidence 0 (or a missing
    confidence) of any agent by 50 changes neither the action, nor the
    fused confidence, nor the signal strengths, nor the risk adjustment. *)
Theorem zero_confidence_counts_as_50 results a :
  confidence (get results a) = Some 0 \/ confidence (get results a) = None ->
  let d := aggregateSignals results in
  let d' := aggregateSignals (withConfidence results a (Some 50)) in
  action d' = action d /\ d_confidence d' = d_confidence d
  /\ signalStrength d' = signalStrength d
  /\ riskAdjustment d' = riskAdjustment d.
Proof.
  intros Hzero. cbn zeta.
  unfold aggregateSignals, finalAction, baseConfidence.
  cbn [action d_confidence signalStrength riskAdjustment].
  rewrite !processAgents_steps, !BUY_step, !SELL_step, !HOLD_step,
    !validAgents_step, !totalConfidence_step.
  destruct results as [rt rs rr rk].
  destruct a; cbn [get r_technical r_sentiment r_research r_risk] in Hzero.
  - destruct rt as [s c]. cbn [confidence] in Hzero.
    destruct Hzero as [-> | ->]; repeat split; reflexivity.
  - destruct rs as [s c]. cbn [confidence] in Hzero.
    destruct Hzero as [-> | ->]; repeat split; reflexivity.
  - destruct rr as [s c]. cbn [confidence] in Hzero.
    destruct Hzero as [-> | ->]; repeat split; reflexivity.
  - destruct rk as [s c]. cbn [confidence] in Hzero.
    destruct Hzero as [-> | ->]; repeat split; reflexivity.
Qed.

Lemma zero_confidence_counts_as_50_witness :
  confidence (get (withRisk loneBuy riskError) risk) = Some 0
  /\ d_confidence
       (aggregateSignals
          (withConfidence (withRisk loneBuy riskError) risk (Some 50)))
     = d_confidence (aggregateSignals (withRisk loneBuy riskError)).
Proof.
  assert (confidence (get (withRisk loneBuy riskError) risk) = Some 0) as Hz
    by reflexivity.
  split; [exact Hz|].
  destruct (zero_confidence_counts_as_50 (withRisk loneBuy riskError) risk
              (or_introl Hz)) as (_ & Hconf & _).
  exact Hconf.
Defined.

End OrchestratorProperties.


(** ** Orchestrator: price prediction *)

Section PricePredictionProperties.

Import Orchestrator OrchestratorReport Samples.

Lemma round2_mono x y : x <= y -> round2 x <= round2 y.
Proof.
  intros Hxy. unfold round2.
  assert (Js.round (x * 100) <= Js.round (y * 100)) as Hr
    by (apply round_mono; lra).
  qlra.
Qed.

Lemma round2_whole z : round2 (inject_Z z / 100) == inject_Z z / 100.
Proof.
  unfold round2.
  rewrite (round_compat (inject_Z z / 100 * 100) (inject_Z z)) by field.
  rewrite round_whole. reflexivity.
Qed.

(** The movement before rounding stays within 1.9 percent. *)
Lemma adjustedMovement_bounds technicalR sentimentR researchR :
  0 <= Js.num_or (confidence technicalR) 50 <= 100 ->
  0 <= Js.num_or (confidence sentimentR) 50 <= 100 ->
  0 <= Js.num_or (confidence researchR) 50 <= 100 ->
  - (19 # 10) <= adjustedMovement technicalR sentimentR researchR <= 19 # 10.
Proof.
  intros Ht Hs Hr. unfold adjustedMovement, movement.
  destruct (Js.str_is (signal technicalR) "BUY");
    destruct (Js.str_is (signal technicalR) "SELL");
    destruct (Js.str_is (signal sentimentR) "BUY");
    destruct (Js.str_is (signal sentimentR) "SELL");
    destruct (Js.str_is (signal researchR) "BUY");
    destruct (Js.str_is (signal researchR) "SELL");
    split; qlra.
Qed.

(** X13. The price prediction follows the signals within fixed limits.
    With confidences between 0 and 100 the expected move stays within
    1.9 percent either way, and for a price that is not negative the
    target lies between the support and the resistance level; when no
    agent signals BUY or SELL the expected move is 0 and the target is the
    current price, rounded to two decimals. *)
Theorem price_prediction_limits currentPrice technicalR sentimentR researchR :
  0 <= Js.num_or (confidence technicalR) 50 <= 100 ->
  0 <= Js.num_or (confidence sentimentR) 50 <= 100 ->
  0 <= Js.num_or (confidence researchR) 50 <= 100 ->
  let p :=
    calculatePricePrediction currentPrice technicalR sentimentR researchR in
  (- (19 # 10) <= expectedMove p <= 19 # 10)
  /\ (0 <= currentPrice ->
      supportLevel p <= targetPrice p <= resistanceLevel p)
  /\ (movement technicalR 1 = 0 -> movement sentimentR 1 = 0 ->
      movement researchR 1 = 0 ->
      expectedMove p == 0 /\ targetPrice p == round2 currentPrice).
Proof.
  intros Ht Hs Hr. cbn zeta.
  pose proof (adjustedMovement_bounds technicalR sentimentR researchR
                Ht Hs Hr) as [Hlo Hhi].
  unfold calculatePricePrediction.
  cbn [expectedMove supportLevel targetPrice resistanceLevel].
  set (adj := adjustedMovement technicalR sentimentR researchR) in *.
  split; [|split].
  - split.
    + apply Qle_trans with (round2 (inject_Z (-190) / 100)).
      * rewrite round2_whole. vm_compute. discriminate.
      * apply round2_mono. change (inject_Z (-190)) with (-190). qlra.
    + apply Qle_trans with (round2 (inject_Z 190 / 100)).
      * apply round2_mono. change (inject_Z 190) with 190. qlra.
      * rewrite round2_whole. vm_compute. discriminate.
  - intros Hprice.
    assert (0 <= currentPrice * (1 + adj / 100)) as Htarget.
    { apply Qmult_le_0_compat; [exact Hprice | qlra]. }
    set (target := currentPrice * (1 + adj / 100)) in *.
    split; apply round2_mono; qlra.
  - intros Mt Ms Mr.
    assert (adj == 0) as Hadj.
    { subst adj. unfold adjustedMovement, movement in *.
      destruct (Js.str_is (signal technicalR) "BUY"); [discriminate Mt|].
      destruct (Js.str_is (signal technicalR) "SELL"); [discriminate Mt|].
      destruct (Js.str_is (signal sentimentR) "BUY"); [discriminate Ms|].
      destruct (Js.str_is (signal sentimentR) "SELL"); [discriminate Ms|].
      destruct (Js.str_is (signal researchR) "BUY"); [discriminate Mr|].
      destruct (Js.str_is (signal researchR) "SELL"); [discriminate Mr|].
      qlra. }
    split.
    + unfold round2. rewrite (round_compat (adj * 100) (inject_Z 0)).
      * rewrite round_whole. reflexivity.
      * rewrite Hadj. reflexivity.
    + unfold round2.
      rewrite (round_compat (currentPrice * (1 + adj / 100) * 100)
                 (currentPrice * 100)).
      * reflexivity.
      * rewrite Hadj. field.
Qed.

Lemma price_prediction_limits_witness :
  (0 <= Js.num_or (confidence (r_technical strongBuy)) 50 <= 100
   /\ 0 <= Js.num_or (confidence (r_sentiment strongBuy)) 50 <= 100
   /\ 0 <= Js.num_or (confidence (r_research strongBuy)) 50 <= 100)
  /\ - (19 # 10)
     <= expectedMove
          (calculatePricePrediction 19800 (r_technical strongBuy)
             (r_sentiment strongBuy) (r_research strongBuy))
     <= 19 # 10.
Proof.
  assert (0 <= Js.num_or (confidence (r_technical strongBuy)) 50 <= 100)
    as Ht by (split; discriminate).
  assert (0 <= Js.num_or (confidence (r_sentiment strongBuy)) 50 <= 100)
    as Hs by (split; discriminate).
  assert (0 <= Js.num_or (confidence (r_research strongBuy)) 50 <= 100)
    as Hr by (split; discriminate).
  split; [repeat split; tauto|].
  exact (proj1 (price_prediction_limits 19800 _ _ _ Ht Hs Hr)).
Defined.

End PricePredictionProperties.


(** ** Risk management agent *)

Section RiskProperties.

Import RiskManagement RiskSamples.

Lemma liquidity_score_range niftyData :
  2 # 10 <= score (lr_risk (assessLiquidityRisk niftyData)) <= 8 # 10.
Proof.
  unfold assessLiquidityRisk. cbn [lr_risk].
  repeat destruct (Js.lt _ _); cbn [score]; split; discriminate.
Qed.

Lemma market_score_range currentData historicalData :
  2 # 10 <= score (mr_risk (assessMarketRisk currentData historicalData))
  <= 8 # 10.
Proof.
  unfold assessMarketRisk. cbn [mr_risk].
  repeat destruct (Js.gt _ _); cbn [score]; split; discriminate.
Qed.

Lemma drawdown_score_range historicalData :
  2 # 10 <= score (dr_risk (calculateDrawdownRisk historicalData)) <= 8 # 10.
Proof.
  unfold calculateDrawdownRisk.
  destruct historicalData as [data|]; [|split; discriminate].
  destruct (_ <? _)%nat; [split; discriminate|].
  destruct data as [|first rest]; [split; discriminate|].
  destruct (fold_left _ _ _) as [peak maxDrawdown]. cbn [dr_risk].
  repeat destruct (Js.gt _ _); cbn [score]; split; discriminate.
Qed.

Lemma drawdown_short historicalData :
  match historicalData with
  | Some data => (length data < 10)%nat
  | None => True
  end ->
  calculateDrawdownRisk historicalData = unknownDrawdown.
Proof.
  unfold calculateDrawdownRisk. destruct historicalData as [data|]; [|auto].
  intros Hlen. apply Nat.ltb_lt in Hlen. rewrite Hlen. reflexivity.
Qed.

Lemma generateRiskSignal_riskScore analysis aiInsights :
  riskScore (generateRiskSignal analysis aiInsights)
  = overallRiskScore analysis.
Proof.
  unfold generateRiskSignal. repeat destruct (Js.lt _ _); reflexivity.
Qed.

Lemma generateRiskSignal_action analysis aiInsights :
  let s := overallRiskScore analysis in
  (s < 3 # 10 ->
   action (generateRiskSignal analysis aiInsights) = "APPROVE_TRADE")
  /\ (3 # 10 <= s < 6 # 10 ->
      action (generateRiskSignal analysis aiInsights) = "CAUTIOUS_TRADE")
  /\ (6 # 10 <= s ->
      action (generateRiskSignal analysis aiInsights) = "AVOID_TRADE").
Proof.
  cbn zeta. unfold generateRiskSignal. repeat split.
  - intros Hs. rewrite (proj2 (lt_true_iff _ _) Hs). reflexivity.
  - intros [Hlo Hhi]. rewrite (proj2 (lt_false_iff _ _) Hlo).
    rewrite (proj2 (lt_true_iff _ _) Hhi). reflexivity.
  - intros Hs.
    assert (3 # 10 <= overallRiskScore analysis) as Hlo by lra.
    rewrite (proj2 (lt_false_iff _ _) Hlo), (proj2 (lt_false_iff _ _) Hs).
    reflexivity.
Qed.

(** X14. The risk score decides both the derate applied by the
    orchestrator and the risk level it reports.  For the result of a risk
    analysis with overall risk score [s]: the signal is never HOLD; below
    0.3 the orchestrator applies no derate and (for a score other than 0)
    reports LOW; from 0.3 to below 0.6 it applies 0.7 and reports MEDIUM;
    from 0.6 it applies 0.3 and reports HIGH, whatever the AI risk
    insights. *)
Theorem risk_score_sets_derate_and_level volatility niftyData historicalData
    aiInsights s :
  let r := analyzeWith volatility niftyData historicalData aiInsights in
  r_riskScore r = Some s ->
  signal r <> "HOLD"
  /\ (s < 3 # 10 ->
      Orchestrator.riskModifier (OrchestratorReport.riskEntry r) = 1
      /\ (~ s == 0 ->
          OrchestratorReport.overall (OrchestratorReport.extractRiskLevel r)
          = "LOW"))
  /\ (3 # 10 <= s < 6 # 10 ->
      Orchestrator.riskModifier (OrchestratorReport.riskEntry r) = 7 # 10
      /\ OrchestratorReport.overall (OrchestratorReport.extractRiskLevel r)
         = "MEDIUM")
  /\ (6 # 10 <= s ->
      Orchestrator.riskModifier (OrchestratorReport.riskEntry r) = 3 # 10
      /\ OrchestratorReport.overall (OrchestratorReport.extractRiskLevel r)
         = "HIGH").
Proof.
  cbn zeta. set (analysis := assess volatility niftyData historicalData).
  change (analyzeWith volatility niftyData historicalData aiInsights) with
    {| signal := action (generateRiskSignal analysis aiInsights);
       r_confidence := confidence (generateRiskSignal analysis aiInsights);
       r_riskScore := Some (riskScore (generateRiskSignal analysis aiInsights));
       r_volatilityLevel := Some (level volatility);
       r_liquidityLevel := Some (level (lr_risk (liquidityRisk analysis)));
       r_recommendations :=
         recommendations (generateRiskSignal analysis aiInsights) |}.
  cbn [r_riskScore]. rewrite generateRiskSignal_riskScore.
  intros Hs. inversion Hs as [Hscore]. clear Hs.
  destruct (generateRiskSignal_action analysis aiInsights)
    as (Hlow & Hmid & Hhigh). rewrite Hscore in Hlow, Hmid, Hhigh.
  unfold OrchestratorReport.extractRiskLevel, OrchestratorReport.riskEntry,
    Orchestrator.riskModifier, OrchestratorReport.getRiskCategory.
  cbn [signal r_confidence r_riskScore Orchestrator.signal
       OrchestratorReport.overall].
  rewrite ?generateRiskSignal_riskScore, ?Hscore.
  split; [|split; [|split]].
  - destruct (Qlt_le_dec s (3 # 10)) as [H3|H3]; [rewrite (Hlow H3); discriminate|].
    destruct (Qlt_le_dec s (6 # 10)) as [H6|H6].
    + rewrite (Hmid (conj H3 H6)). discriminate.
    + rewrite (Hhigh H6). discriminate.
  - intros H3. rewrite (Hlow H3). split; [reflexivity|].
    intros Hnz. rewrite (proj2 (lt_true_iff _ _) H3).
    destruct (Js.eq s 0) eqn:Hz; [|reflexivity].
    apply eq_true_iff in Hz. contradiction.
  - intros [H3 H6]. rewrite (Hmid (conj H3 H6)). split; [reflexivity|].
    rewrite (proj2 (lt_false_iff _ _) H3), (proj2 (lt_true_iff _ _) H6).
    destruct (Js.eq s 0); reflexivity.
  - intros H6. rewrite (Hhigh H6). split; [reflexivity|].
    assert (3 # 10 <= s) as H3 by lra.
    rewrite (proj2 (lt_false_iff _ _) H3), (proj2 (lt_false_iff _ _) H6).
    destruct (Js.eq s 0) eqn:Hz; [|reflexivity].
    apply eq_true_iff in Hz. lra.
Qed.

Lemma risk_score_sets_derate_and_level_witness :
  r_riskScore (analyzeWith calmVolatility quietDay (Some dip) noInsights)
  = Some (overallRiskScore (assess calmVolatility quietDay (Some dip)))
  /\ signal (analyzeWith calmVolatility quietDay (Some dip) noInsights)
     <> "HOLD".
Proof.
  assert (r_riskScore
            (analyzeWith calmVolatility quietDay (Some dip) noInsights)
          = Some (overallRiskScore (assess calmVolatility quietDay (Some dip))))
    as Hs by (vm_compute; reflexivity).
  split; [exact Hs|].
  exact (proj1 (risk_score_sets_derate_and_level calmVolatility quietDay
                  (Some dip) noInsights _ Hs)).
Defined.

Lemma risk_score_sets_derate_and_level_aux volatility niftyData
    historicalData aiInsights s :
  let r := analyzeWith volatility niftyData historicalData aiInsights in
  r_riskScore r = Some s -> 3 # 10 <= s ->
  signal r <> "APPROVE_TRADE"
  /\ Orchestrator.riskModifier (OrchestratorReport.riskEntry r) <= 7 # 10.
Proof.
  cbn zeta. set (analysis := assess volatility niftyData historicalData).
  change (analyzeWith volatility niftyData historicalData aiInsights) with
    {| signal := action (generateRiskSignal analysis aiInsights);
       r_confidence := confidence (generateRiskSignal analysis aiInsights);
       r_riskScore := Some (riskScore (generateRiskSignal analysis aiInsights));
       r_volatilityLevel := Some (level volatility);
       r_liquidityLevel := Some (level (lr_risk (liquidityRisk analysis)));
       r_recommendations :=
         recommendations (generateRiskSignal analysis aiInsights) |}.
  cbn [r_riskScore]. rewrite generateRiskSignal_riskScore.
  intros Hs H3. inversion Hs as [Hscore]. clear Hs.
  destruct (generateRiskSignal_action analysis aiInsights)
    as (_ & Hmid & Hhigh). rewrite Hscore in Hmid, Hhigh.
  unfold OrchestratorReport.riskEntry, Orchestrator.riskModifier.
  cbn [signal Orchestrator.signal].
  destruct (Qlt_le_dec s (6 # 10)) as [H6|H6].
  - rewrite (Hmid (conj H3 H6)). split; discriminate.
  - rewrite (Hhigh H6). split; discriminate.
Qed.

(** X15. The risk agent's overall score never reaches the ends of the
    scale, and a short history rules out an approval.  With a volatility
    score between 0.2 and 0.8 the overall risk score stays strictly
    between 0.2 and 0.8; with an unknown volatility and fewer than ten
    entries of history (drawdown unknown) the signal is never
    APPROVE_TRADE and the orchestrator always derates the confidence. *)
Theorem short_history_is_never_approved volatility niftyData historicalData
    aiInsights :
  let r := analyzeWith volatility niftyData historicalData aiInsights in
  (2 # 10 <= score volatility <= 8 # 10 ->
   exists s, r_riskScore r = Some s /\ 2 # 10 < s < 8 # 10)
  /\ (volatility = unknownVolatility ->
      match historicalData with
      | Some data => (length data < 10)%nat
      | None => True
      end ->
      signal r <> "APPROVE_TRADE"
      /\ Orchestrator.riskModifier (OrchestratorReport.riskEntry r)
         <= 7 # 10).
Proof.
  cbn zeta.
  pose proof (liquidity_score_range niftyData) as Hl.
  pose proof (market_score_range niftyData historicalData) as Hm.
  pose proof (drawdown_score_range historicalData) as Hd.
  split.
  - intros Hv. exists (overallRiskScore (assess volatility niftyData
                                            historicalData)).
    split.
    + unfold analyzeWith. cbn [r_riskScore].
      rewrite generateRiskSignal_riskScore. reflexivity.
    + unfold overallRiskScore, assess.
      cbn [volatilityRisk liquidityRisk marketRisk drawdownRisk
           correlationRisk assessCorrelationRisk score].
      split; lra.
  - intros -> Hshort.
    pose proof (drawdown_short historicalData Hshort) as Hdd.
    set (r := analyzeWith unknownVolatility niftyData historicalData
                aiInsights).
    assert (exists s, r_riskScore r = Some s /\ 355 # 1000 <= s)
      as (s & Hs & Hge).
    { exists (overallRiskScore (assess unknownVolatility niftyData
                                  historicalData)).
      split.
      - unfold r, analyzeWith. cbn [r_riskScore].
        rewrite generateRiskSignal_riskScore. reflexivity.
      - unfold overallRiskScore, assess.
        cbn [volatilityRisk liquidityRisk marketRisk drawdownRisk
             correlationRisk assessCorrelationRisk]. rewrite Hdd.
        cbn [unknownVolatility unknownDrawdown dr_risk score].
        change (score assessCorrelationRisk) with (4 # 10). lra. }
    destruct (risk_score_sets_derate_and_level_aux unknownVolatility
                niftyData historicalData aiInsights s Hs ltac:(lra))
      as [Hsig Hmod].
    split; assumption.
Qed.

Lemma short_history_is_never_approved_witness :
  (2 # 10 <= score calmVolatility <= 8 # 10
   /\ (length shortHistory < 10)%nat)
  /\ (exists s,
        r_riskScore (analyzeWith calmVolatility quietDay (Some dip)
                       noInsights) = Some s
        /\ 2 # 10 < s < 8 # 10)
  /\ signal (analyzeWith unknownVolatility quietDay (Some shortHistory)
               noInsights) <> "APPROVE_TRADE".
Proof.
  assert (2 # 10 <= score calmVolatility <= 8 # 10) as Hv
    by (split; discriminate).
  assert (length shortHistory < 10)%nat as Hlen by (vm_compute; lia).
  split; [split; assumption|]. split.
  - exact (proj1 (short_history_is_never_approved calmVolatility quietDay
                    (Some dip) noInsights) Hv).
  - destruct (short_history_is_never_approved unknownVolatility quietDay
                (Some shortHistory) noInsights) as (_ & Hshort).
    exact (proj1 (Hshort eq_refl Hlen)).
Defined.

(** X16. The stop-loss is always wider than the target.  Whatever the
    volatility level, the stop-loss percentage is the target percentage
    plus 0.5; for a positive price a long position's stop lies below the
    price and its target above, a short position's the other way round,
    and the distance to the stop exceeds the distance to the target. *)
Theorem stop_loss_wider_than_target currentData volatilityLevel :
  0 < currentPrice currentData ->
  let sl := calculateStopLoss currentData volatilityLevel in
  let tg := calculateTarget currentData volatilityLevel in
  let price := currentPrice currentData in
  sl_percentage sl == tg_percentage tg + (5 # 10)
  /\ (buyStopLoss sl < price < buyTarget tg)
  /\ (sellTarget tg < price < sellStopLoss sl)
  /\ buyTarget tg - price < price - buyStopLoss sl
  /\ price - sellTarget tg < sellStopLoss sl - price.
Proof.
  intros Hprice. cbn zeta. unfold calculateStopLoss, calculateTarget.
  cbn [sl_percentage tg_percentage buyStopLoss sellStopLoss buyTarget
       sellTarget].
  set (price := currentPrice currentData) in *.
  destruct (bool_decide (volatilityLevel = "HIGH"));
    [|destruct (bool_decide (volatilityLevel = "LOW"))];
    (split; [reflexivity|]); repeat split; qlra.
Qed.

Lemma stop_loss_wider_than_target_witness :
  0 < currentPrice quietDay
  /\ buyTarget (calculateTarget quietDay "HIGH") - currentPrice quietDay
     < currentPrice quietDay - buyStopLoss (calculateStopLoss quietDay "HIGH").
Proof.
  assert (0 < currentPrice quietDay) as Hp by reflexivity.
  split; [exact Hp|].
  destruct (stop_loss_wider_than_target quietDay "HIGH" Hp)
    as (_ & _ & _ & Hd & _).
  exact Hd.
Defined.

Lemma drawdownStep_invariant peak maxDrawdown c :
  0 < peak -> 0 <= maxDrawdown < 1 -> 0 < close c ->
  0 < fst (drawdownStep (peak, maxDrawdown) c)
  /\ 0 <= snd (drawdownStep (peak, maxDrawdown) c) < 1.
Proof.
  intros Hpeak [Hlo Hhi] Hc. unfold drawdownStep.
  set (peak' := if Js.gt (close c) peak then close c else peak).
  assert (0 < peak' /\ close c <= peak') as [Hp' Hcp].
  { subst peak'. destruct (Js.gt (close c) peak) eqn:Hgt.
    - split; [exact Hc | apply Qle_refl].
    - apply gt_false_iff in Hgt. split; assumption. }
  cbn [fst snd].
  assert (0 <= (peak' - close c) / peak' < 1) as [Hd0 Hd1].
  { split.
    - apply Qle_shift_div_l; [exact Hp' | lra].
    - apply Qlt_shift_div_r; [exact Hp' | lra]. }
  split; [exact Hp'|].
  destruct (Js.gt _ maxDrawdown); split; assumption.
Qed.

Lemma drawdown_fold_invariant rest peak maxDrawdown :
  0 < peak -> 0 <= maxDrawdown < 1 ->
  Forall (fun c => 0 < close c) rest ->
  0 <= snd (fold_left drawdownStep rest (peak, maxDrawdown)) < 1.
Proof.
  intros Hpeak Hmd Hall. revert peak maxDrawdown Hpeak Hmd.
  induction Hall as [|c rest Hc _ IH]; intros peak maxDrawdown Hpeak Hmd.
  - exact Hmd.
  - cbn [fold_left].
    destruct (drawdownStep_invariant peak maxDrawdown c Hpeak Hmd Hc)
      as [Hp' Hmd'].
    destruct (drawdownStep (peak, maxDrawdown) c) as [peak' md'].
    apply IH; assumption.
Qed.

(** X17. For a history of positive closing prices the maximum drawdown is
    a percentage between 0 and 100 (100 excluded); with fewer than ten
    entries, or no history, the drawdown risk is UNKNOWN with score 0.5
    and no current drawdown. *)
Theorem drawdown_is_a_percentage historicalData :
  (forall data, historicalData = Some data ->
     Forall (fun c => 0 < close c) data ->
     0 <= dr_maxDrawdown (calculateDrawdownRisk historicalData) < 100)
  /\ (match historicalData with
      | Some data => (length data < 10)%nat
      | None => True
      end ->
      calculateDrawdownRisk historicalData = unknownDrawdown).
Proof.
  split; [|apply drawdown_short].
  intros data -> Hall. unfold calculateDrawdownRisk.
  destruct (_ <? _)%nat; [split; [discriminate | reflexivity]|].
  destruct data as [|first rest]; [split; [discriminate | reflexivity]|].
  apply Forall_cons in Hall as [Hfirst Hrest].
  pose proof (drawdown_fold_invariant rest (close first) 0 Hfirst
                ltac:(split; [discriminate | reflexivity]) Hrest) as Hmd.
  destruct (fold_left drawdownStep rest (close first, 0)) as [peak md].
  cbn [snd] in Hmd. cbn [dr_maxDrawdown]. lra.
Qed.

Lemma drawdown_is_a_percentage_witness :
  Forall (fun c => 0 < close c) dip
  /\ 0 <= dr_maxDrawdown (calculateDrawdownRisk (Some dip)) < 100.
Proof.
  assert (Forall (fun c => 0 < close c) dip) as Hpos
    by (repeat constructor).
  split; [exact Hpos|].
  exact (proj1 (drawdown_is_a_percentage (Some dip)) dip eq_refl Hpos).
Defined.

(** X18. More volume never means more liquidity risk: the liquidity score
    does not rise when the volume rises, and a missing volume is assessed
    like a volume of 0, at the highest risk. *)
Theorem liquidity_risk_falls_with_volume d1 d2 :
  Js.num_or (volume d1) 0 <= Js.num_or (volume d2) 0 ->
  score (lr_risk (assessLiquidityRisk d2))
  <= score (lr_risk (assessLiquidityRisk d1))
  /\ (volume d1 = None -> level (lr_risk (assessLiquidityRisk d1)) = "HIGH").
Proof.
  intros Hvol. split.
  - unfold assessLiquidityRisk. cbn [lr_risk].
    set (v1 := Js.num_or (volume d1) 0) in *.
    set (v2 := Js.num_or (volume d2) 0) in *.
    destruct (Js.lt (v1 / 50000000) (3 # 10)) eqn:A1;
      destruct (Js.lt (v1 / 50000000) (6 # 10)) eqn:A2;
      destruct (Js.lt (v1 / 50000000) (8 # 10)) eqn:A3;
      destruct (Js.lt (v2 / 50000000) (3 # 10)) eqn:B1;
      destruct (Js.lt (v2 / 50000000) (6 # 10)) eqn:B2;
      destruct (Js.lt (v2 / 50000000) (8 # 10)) eqn:B3;
      cbn [score]; try discriminate;
      repeat match goal with
      | H : Js.lt _ _ = true |- _ => apply lt_true_iff in H
      | H : Js.lt _ _ = false |- _ => apply lt_false_iff in H
      end; exfalso; qlra.
  - intros Hnone. unfold assessLiquidityRisk. rewrite Hnone. reflexivity.
Qed.

Lemma liquidity_risk_falls_with_volume_witness :
  (Js.num_or (volume noVolume) 0 <= Js.num_or (volume quietDay) 0
   /\ volume noVolume = None)
  /\ score (lr_risk (assessLiquidityRisk quietDay))
     <= score (lr_risk (assessLiquidityRisk noVolume))
  /\ level (lr_risk (assessLiquidityRisk noVolume)) = "HIGH".
Proof.
  assert (Js.num_or (volume noVolume) 0 <= Js.num_or (volume quietDay) 0)
    as Hv by discriminate.
  assert (volume noVolume = None) as Hn by reflexivity.
  split; [split; assumption|].
  destruct (liquidity_risk_falls_with_volume noVolume quietDay Hv)
    as [Hscore Hlevel].
  split; [exact Hscore | exact (Hlevel Hn)].
Defined.

End RiskProperties.


(** ** Technical analysis agent *)

Section TechnicalProperties.

Import RiskManagement (Candle, close, steps).
Import TechnicalAnalysis RiskSamples.

(** X19. The technical signal always carries a confidence between 30 and
    95, with or without AI insights, so the entry it contributes to the
    orchestrator has a confidence of at most 100. *)
Theorem technical_confidence_between_30_and_95 analysis aiInsights :
  let s := generateSignal analysis aiInsights in
  30 <= confidence s <= 95
  /\ Js.num_or (Orchestrator.confidence (resultOf s)) 50 <= 100.
Proof.
  cbn zeta.
  assert (30 <= confidence (generateSignal analysis aiInsights) <= 95) as Hc.
  { unfold generateSignal.
    destruct (tally (collect analysis)) as [buyScore sellScore].
    set (s := if Js.gt buyScore sellScore && Js.gt buyScore (4 # 10)
              then _ else _).
    assert (30 <= confidence s <= 90) as [Hlo Hhi].
    { subst s. destruct (Js.gt buyScore sellScore && _) eqn:Hb.
      - apply andb_true_iff in Hb as [_ Hb]. apply gt_true_iff in Hb.
        cbn [confidence]. split; [apply Q.min_glb; lra | apply Q.le_min_r].
      - destruct (Js.gt sellScore buyScore && _) eqn:Hs.
        + apply andb_true_iff in Hs as [_ Hs]. apply gt_true_iff in Hs.
          cbn [confidence]. split; [apply Q.min_glb; lra | apply Q.le_min_r].
        + cbn [confidence]. split; discriminate. }
    destruct aiInsights as [ai|]; [|split; lra].
    destruct (Js.truthy (ai_signal ai) && _); [|split; lra].
    destruct (Js.str_is _ _).
    - cbn [confidence]. split; [apply Q.min_glb; lra | apply Q.le_min_r].
    - destruct (Js.gt (ai_confidence ai) 70) eqn:H70; [|split; lra].
      apply gt_true_iff in H70. cbn [confidence].
      split; [apply Q.min_glb; lra|].
      eapply Qle_trans; [apply Q.le_min_r | discriminate]. }
  split; [exact Hc|].
  unfold resultOf, Js.num_or. cbn [Orchestrator.confidence].
  destruct (Qeq_bool _ 0); lra.
Qed.

Lemma tally_withRsi analysis :
  tally (collect (withRsi analysis "STRONG_BUY"))
  = tally (collect (withRsi analysis "NEUTRAL")).
Proof. reflexivity. Qed.

Lemma rsi_fold_nonneg l gains losses :
  0 <= gains -> 0 <= losses ->
  0 <= fst (fold_left rsiStep l (gains, losses))
  /\ 0 <= snd (fold_left rsiStep l (gains, losses)).
Proof.
  revert gains losses.
  induction l as [|[prev cur] l IH]; intros gains losses Hg Hl.
  - split; assumption.
  - cbn [fold_left rsiStep]. destruct (Js.gt _ 0) eqn:Hc.
    + apply gt_true_iff in Hc. apply IH; lra.
    + pose proof (Qabs_nonneg (close cur - close prev)). apply IH; lra.
Qed.

Lemma rsi_fold_rising l gains losses :
  Forall (fun '(prev, cur) => close prev <= close cur) l ->
  losses == 0 -> snd (fold_left rsiStep l (gains, losses)) == 0.
Proof.
  intros Hall. revert gains losses.
  induction Hall as [|[prev cur] l Hstep _ IH]; intros gains losses Hl.
  - exact Hl.
  - cbn [fold_left rsiStep]. destruct (Js.gt _ 0) eqn:Hc.
    + apply IH, Hl.
    + apply gt_false_iff in Hc. apply IH.
      assert (close cur - close prev == 0) as -> by lra.
      rewrite Hl. reflexivity.
Qed.

Lemma period_pos period : (0 < period)%nat -> 0 < inject_Z (Z.of_nat period).
Proof. intros Hp. change 0 with (inject_Z 0). rewrite <- Zlt_Qlt. lia. Qed.

(** X20. A flawless rise counts for nothing.  When the closing price never
    falls over the first [period + 1] entries the RSI is 100 with the
    signal STRONG_BUY, and [generateSignal] gives the signal STRONG_BUY no
    weight: it decides as for a NEUTRAL RSI. *)
Theorem strong_buy_rsi_is_ignored data period analysis aiInsights :
  (0 < period)%nat -> (period + 1 <= length data)%nat ->
  Forall (fun '(prev, cur) => close prev <= close cur)
    (steps (take (period + 1) data)) ->
  calculateRSI data period = {| value := 100; i_signal := "STRONG_BUY" |}
  /\ generateSignal (withRsi analysis "STRONG_BUY") aiInsights
     = generateSignal (withRsi analysis "NEUTRAL") aiInsights.
Proof.
  intros Hp Hlen Hrise. split; [|reflexivity].
  unfold calculateRSI.
  assert ((length data <? period + 1)%nat = false) as ->
    by (apply Nat.ltb_ge; exact Hlen).
  pose proof (rsi_fold_rising _ 0 0 Hrise (Qeq_refl 0)) as Hloss.
  destruct (fold_left rsiStep _ (0, 0)) as [gains losses]. cbn [snd] in Hloss.
  assert (Js.eq (losses / inject_Z (Z.of_nat period)) 0 = true) as ->;
    [|reflexivity].
  apply eq_true_iff. rewrite Hloss. unfold Qdiv. apply Qmult_0_l.
Qed.

Lemma strong_buy_rsi_is_ignored_witness :
  ((0 < 2)%nat /\ (2 + 1 <= length shortHistory)%nat
   /\ Forall (fun '(prev, cur) => close prev <= close cur)
        (steps (take (2 + 1) shortHistory)))
  /\ calculateRSI shortHistory 2
     = {| value := 100; i_signal := "STRONG_BUY" |}.
Proof.
  assert (0 < 2)%nat as Hp by lia.
  assert (2 + 1 <= length shortHistory)%nat as Hlen by (vm_compute; lia).
  assert (Forall (fun '(prev, cur) => close prev <= close cur)
            (steps (take (2 + 1) shortHistory))) as Hrise
    by (repeat constructor; discriminate).
  split; [repeat split; assumption|].
  exact (proj1 (strong_buy_rsi_is_ignored shortHistory 2
                  {| rsi := "NEUTRAL"; macd := "NEUTRAL"; sma := "NEUTRAL";
                     ema := "NEUTRAL"; bollinger := "NEUTRAL";
                     priceAction := "NEUTRAL" |} None Hp Hlen Hrise)).
Defined.

(** X21. The RSI is a value between 0 and 100 for every history and every
    period of at least 1; a history shorter than [period + 1] gives the
    neutral 50. *)
Theorem rsi_between_0_and_100 data period :
  (0 < period)%nat ->
  0 <= value (calculateRSI data period) <= 100
  /\ ((length data < period + 1)%nat ->
      calculateRSI data period = {| value := 50; i_signal := "NEUTRAL" |}).
Proof.
  intros Hp. pose proof (period_pos period Hp) as Hn. split.
  - unfold calculateRSI.
    destruct (_ <? _)%nat; [split; discriminate|].
    pose proof (rsi_fold_nonneg (steps (take (period + 1) data)) 0 0
                  (Qle_refl 0) (Qle_refl 0)) as [Hg Hl].
    destruct (fold_left rsiStep _ (0, 0)) as [gains losses].
    cbn [fst snd] in Hg, Hl.
    set (n := inject_Z (Z.of_nat period)) in *.
    destruct (Js.eq (losses / n) 0) eqn:Hz; [split; discriminate|].
    assert (0 < losses / n) as Hloss.
    { assert (0 <= losses / n) as H0
        by (apply Qle_shift_div_l; [exact Hn | lra]).
      destruct (Qlt_le_dec 0 (losses / n)) as [|Hle]; [assumption|].
      assert (losses / n == 0) as Heq by lra.
      apply eq_true_iff in Heq. congruence. }
    assert (0 <= gains / n) as Hgain
      by (apply Qle_shift_div_l; [exact Hn | lra]).
    set (g := gains / n) in *. set (l := losses / n) in *.
    assert (0 <= g / l) as Hrs
      by (apply Qle_shift_div_l; [exact Hloss | lra]).
    set (rs := g / l) in *.
    assert (0 < 100 / (1 + rs) <= 100) as [Hq0 Hq1].
    { split.
      - apply Qlt_shift_div_l; lra.
      - apply Qle_shift_div_r; lra. }
    cbn [value]. split; lra.
  - intros Hlen. unfold calculateRSI.
    apply Nat.ltb_lt in Hlen. rewrite Hlen. reflexivity.
Qed.

Lemma rsi_between_0_and_100_witness :
  (0 < 14)%nat /\ 0 <= value (calculateRSI dip 14) <= 100.
Proof.
  assert (0 < 14)%nat as Hp by lia.
  split; [exact Hp|].
  exact (proj1 (rsi_between_0_and_100 dip 14 Hp)).
Defined.

(** The values that the loop of [calculateEMAValues] appends. *)
Lemma ema_fold_values m rest vals previous :
  exists more,
    fst (fold_left (emaStep m) rest (vals, previous)) = vals ++ more
    /\ length more = length rest
    /\ (0 <= m <= 1 -> 0 <= previous ->
        Forall (fun c => 0 <= close c) rest ->
        Forall (fun v => 0 <= v) more).
Proof.
  revert vals previous.
  induction rest as [|c rest IH]; intros vals previous.
  - exists []. cbn [fold_left fst length]. rewrite app_nil_r.
    split; [reflexivity|]. split; [reflexivity|]. intros _ _ _. constructor.
  - cbn [fold_left emaStep].
    set (ema := close c * m + previous * (1 - m)).
    destruct (IH (vals ++ [ema]) ema) as (more & Heq & Hlen & Hpos).
    exists (ema :: more). rewrite Heq, <- app_assoc. cbn [app length].
    split; [reflexivity|]. split; [lia|].
    intros Hm Hprev Hall. apply Forall_cons in Hall as [Hc Hrest].
    assert (0 <= ema) as Hema by (unfold ema; nra).
    apply Forall_cons. split; [exact Hema|].
    apply Hpos; assumption.
Qed.

Lemma ema_multiplier_range period :
  (0 < period)%nat -> 0 <= 2 / (inject_Z (Z.of_nat period) + 1) <= 1.
Proof.
  intros Hp.
  assert (1 <= inject_Z (Z.of_nat period)) as Hn.
  { change 1 with (inject_Z 1). rewrite <- Zle_Qle. lia. }
  split.
  - apply Qle_shift_div_l; lra.
  - apply Qle_shift_div_r; lra.
Qed.

(** X22. The exponential moving average keeps the shape and the sign of
    the prices.  For a non-empty history [calculateEMAValues] returns one
    value per entry, the first being the first closing price, and for a
    period of at least 1 no value is negative when no closing price is. *)
Theorem ema_has_one_value_per_entry data period :
  data <> [] ->
  exists emaValues,
    calculateEMAValues data period = Some emaValues
    /\ length emaValues = length data
    /\ head emaValues = close <$> head data
    /\ ((0 < period)%nat -> Forall (fun c => 0 <= close c) data ->
        Forall (fun v => 0 <= v) emaValues).
Proof.
  intros Hne. destruct data as [|first rest]; [congruence|].
  unfold calculateEMAValues.
  destruct (ema_fold_values (2 / (inject_Z (Z.of_nat period) + 1)) rest
              [close first] (close first)) as (more & Heq & Hlen & Hpos).
  eexists. split; [reflexivity|]. rewrite Heq. cbn [app length head fmap].
  split; [lia|]. split; [reflexivity|].
  intros Hp Hall. apply Forall_cons in Hall as [Hfirst Hrest].
  apply Forall_cons. split; [exact Hfirst|].
  apply Hpos; [apply ema_multiplier_range, Hp | exact Hfirst | exact Hrest].
Qed.

Lemma ema_has_one_value_per_entry_witness :
  (dip <> [] /\ (0 < 3)%nat /\ Forall (fun c => 0 <= close c) dip)
  /\ exists emaValues,
       calculateEMAValues dip 3 = Some emaValues
       /\ length emaValues = length dip
       /\ Forall (fun v => 0 <= v) emaValues.
Proof.
  assert (dip <> []) as Hne by discriminate.
  assert (0 < 3)%nat as Hp by lia.
  assert (Forall (fun c => 0 <= close c) dip) as Hall
    by (repeat constructor; discriminate).
  split; [repeat split; assumption|].
  destruct (ema_has_one_value_per_entry dip 3 Hne)
    as (emaValues & Heq & Hlen & _ & Hpos).
  exists emaValues. split; [exact Heq|]. split; [exact Hlen|].
  exact (Hpos Hp Hall).
Defined.

End TechnicalProperties.


(** ** Sentiment agent: two-source fusion and traditional signals *)

Section SentimentProperties.

Import MarketSentiment SentimentAnalysis Samples.

Lemma chooseWeights_cases volatility currentHour :
  let late := Js.eq currentHour 9 || Js.ge currentHour 15 in
  (late = true -> chooseWeights volatility currentHour = (7 # 10, 3 # 10))
  /\ (late = false ->
      chooseWeights volatility currentHour = (6 # 10, 4 # 10)
      \/ chooseWeights volatility currentHour = (4 # 10, 6 # 10)).
Proof.
  cbn zeta. unfold chooseWeights.
  destruct (Js.gt volatility 2); destruct (Js.eq currentHour 9 || _);
    split; intros Hl; try discriminate Hl; auto.
Qed.

(** X23. The two-source fusion [combineAnalysis] always uses weights that
    sum to 1 and returns a confidence between 20 and 95.  When the
    traditional and the AI signal agree on BUY, SELL or HOLD, that is the
    result; when one says BUY and the other SELL, the result is HOLD,
    except in the opening hour (9) and from the closing hour (15) on,
    where the AI signal wins. *)
Theorem two_source_fusion_rules traditional a currentHour :
  let c := combineAnalysis traditional a currentHour in
  let late := Js.eq currentHour 9 || Js.ge currentHour 15 in
  aiWeight (weightingDetails c) + traditionalWeight (weightingDetails c) == 1
  /\ 20 <= confidence c <= 95
  /\ (forall X, X = "BUY" \/ X = "SELL" \/ X = "HOLD" ->
        sentimentSignal traditional = Some X -> tradingSignal a = Some X ->
        signal c = X)
  /\ (forall X Y, (X = "BUY" /\ Y = "SELL") \/ (X = "SELL" /\ Y = "BUY") ->
        sentimentSignal traditional = Some X -> tradingSignal a = Some Y ->
        signal c = if late then Y else "HOLD").
Proof.
  cbn zeta. unfold combineAnalysis.
  destruct (chooseWeights_cases (intraDayRange traditional) currentHour)
    as [Hlate Hday].
  destruct (Js.eq currentHour 9 || Js.ge currentHour 15) eqn:Hl.
  - rewrite (Hlate eq_refl).
    cbn [aiWeight traditionalWeight weightingDetails confidence signal].
    split; [reflexivity|]. split; [apply min_max_bounds; discriminate|].
    split.
    + intros X [-> | [-> | ->]] -> ->; reflexivity.
    + intros X Y [[-> ->] | [-> ->]] -> ->; reflexivity.
  - destruct (Hday eq_refl) as [-> | ->];
      cbn [aiWeight traditionalWeight weightingDetails confidence signal];
      (split; [reflexivity|]);
      (split; [apply min_max_bounds; discriminate|]);
      (split;
       [ intros X [-> | [-> | ->]] -> ->; reflexivity
       | intros X Y [[-> ->] | [-> ->]] -> ->; reflexivity ]).
Qed.

Lemma two_source_fusion_rules_witness :
  (sentimentSignal traditional = Some "BUY"
   /\ tradingSignal aiAnalysis = Some "BUY")
  /\ signal (combineAnalysis traditional aiAnalysis 11) = "BUY".
Proof.
  assert (sentimentSignal traditional = Some "BUY") as Ht by reflexivity.
  assert (tradingSignal aiAnalysis = Some "BUY") as Ha by reflexivity.
  split; [split; assumption|].
  destruct (two_source_fusion_rules traditional aiAnalysis 11)
    as (_ & _ & Hagree & _).
  exact (Hagree "BUY" (or_introl eq_refl) Ht Ha).
Defined.

Lemma advancers_decliners_le (changes : list Q) :
  (length (filter (fun c => Js.gt c 0 = true) changes)
   + length (filter (fun c => Js.lt c 0 = true) changes)
   <= length changes)%nat.
Proof.
  induction changes as [|c changes IH]; [reflexivity|].
  rewrite !filter_cons.
  destruct (decide (Js.gt c 0 = true)) as [Hg|Hg];
    destruct (decide (Js.lt c 0 = true)) as [Hl|Hl]; cbn [length]; try lia.
  apply gt_true_iff in Hg. apply lt_true_iff in Hl. lra.
Qed.

(** X24. The market breadth never reports STRONG_BEARISH: the test for it
    comes after the test for BEARISH, which already holds whenever it
    would.  The signal is BEARISH exactly when the advance/decline ratio
    is below 0.5, and advancers, decliners and unchanged stocks add up to
    the number of stocks, none of the three counts being negative. *)
Theorem breadth_is_never_strong_bearish changes :
  let b := analyzeMarketBreadth changes in
  b_signal b <> "STRONG_BEARISH"
  /\ (b_signal b = "BEARISH" <-> ratio b < 5 # 10)
  /\ (0 <= unchanged b)%Z
  /\ (Z.of_nat (advancers b) + Z.of_nat (decliners b) + unchanged b
      = Z.of_nat (length changes))%Z.
Proof.
  cbn zeta. unfold analyzeMarketBreadth.
  cbn [b_signal ratio unchanged advancers decliners].
  pose proof (advancers_decliners_le changes) as Hle.
  set (r := inject_Z _ / _).
  split; [|split; [|split; lia]].
  - destruct (Js.gt r 2); [discriminate|].
    destruct (Js.gt r (15 # 10)); [discriminate|].
    destruct (Js.lt r (5 # 10)) eqn:H5; [discriminate|].
    destruct (Js.lt r (33 # 100)) eqn:H33; [|discriminate].
    apply lt_false_iff in H5. apply lt_true_iff in H33. lra.
  - destruct (Js.gt r 2) eqn:H2.
    { apply gt_true_iff in H2. split; [discriminate | lra]. }
    destruct (Js.gt r (15 # 10)) eqn:H15.
    { apply gt_true_iff in H15. split; [discriminate | lra]. }
    destruct (Js.lt r (5 # 10)) eqn:H5.
    { apply lt_true_iff in H5. split; auto. }
    apply lt_false_iff in H5.
    destruct (Js.lt r (33 # 100)); split; try discriminate; lra.
Qed.

(** X25. The sentiment signal is HOLD with confidence 40, or BUY with a
    confidence above 45 and at most 81, or SELL with a confidence above 45
    and at most 85: the bullish score never exceeds 0.9, so a BUY never
    reaches the cap of 85, which a SELL can reach because increased
    volatility adds to the bearish score only. *)
Theorem sentiment_signal_confidence analysis :
  let s := generateSentimentSignal analysis in
  ((action s = "HOLD" /\ s_confidence s == 40)
   \/ (action s = "BUY" /\ 45 < s_confidence s <= 81)
   \/ (action s = "SELL" /\ 45 < s_confidence s <= 85))
  /\ s_confidence (generateSentimentSignal MoreSamples.allBearish) == 85.
Proof.
  cbn zeta. split; [|reflexivity].
  unfold generateSentimentSignal, scores.
  destruct (bool_decide (sentiment analysis = "BULLISH"));
    [|destruct (bool_decide (sentiment analysis = "BEARISH"))];
    (destruct (bool_decide (volumeSignal analysis = "BULLISH_VOLUME"));
     [|destruct (bool_decide (volumeSignal analysis = "BEARISH_VOLUME"));
       [|destruct (bool_decide (volumeSignal analysis = "LOW_CONVICTION"))]]);
    (destruct (includes (breadthSignal analysis) "BULLISH");
     [|destruct (includes (breadthSignal analysis) "BEARISH")]);
    (destruct (bool_decide (momentumSignal analysis = "STRONG_BULLISH"));
     [|destruct (bool_decide (momentumSignal analysis = "STRONG_BEARISH"))]);
    (destruct (bool_decide (volatilitySignal analysis = "INCREASED_RISK"));
     [|destruct (bool_decide (volatilitySignal analysis = "CONSOLIDATION"))]);
    vm_compute;
    first [ left; split; [reflexivity | reflexivity]
          | right; left; split;
            [reflexivity | split; [reflexivity | discriminate]]
          | right; right; split;
            [reflexivity | split; [reflexivity | discriminate]] ].
Qed.

End SentimentProperties.


(** ** Sentiment agent: the enhanced fusion *)

Section EnhancedFusionProperties.

Import PerformanceTracker TrackerView TrackerInvariants MarketSentiment
  Samples.

Lemma microstructure_score_range m :
  -1 <= getMicrostructureSignalScore m <= 1.
Proof.
  unfold getMicrostructureSignalScore.
  split; [apply Q.le_max_l|].
  apply Q.max_lub; [discriminate | apply Q.le_min_l].
Qed.

(** X26. The microstructure inputs of the fusion stay in fixed ranges: the
    signal score lies between -1 and 1 and is 0 when neither the order
    flow nor the institutional sentiment is bullish or bearish; the
    confidence lies between 25 and 75, so its clamp to [20,80] never
    acts. *)
Theorem microstructure_ranges m :
  (-1 <= getMicrostructureSignalScore m <= 1)
  /\ (25 <= getMicrostructureConfidence m <= 75)
  /\ (orderFlowBias m <> "BULLISH" -> orderFlowBias m <> "BEARISH" ->
      institutionalSentiment m <> "BULLISH" ->
      institutionalSentiment m <> "BEARISH" ->
      getMicrostructureSignalScore m == 0).
Proof.
  split; [apply microstructure_score_range|].
  unfold getMicrostructureSignalScore, getMicrostructureConfidence.
  split.
  - repeat case_bool_decide; vm_compute; split; discriminate.
  - intros H1 H2 H3 H4.
    rewrite !bool_decide_eq_false_2 by assumption. reflexivity.
Qed.

Lemma microstructure_ranges_witness :
  (orderFlowBias microstructure <> "BULLISH"
   /\ orderFlowBias microstructure <> "BEARISH"
   /\ institutionalSentiment microstructure <> "BULLISH"
   /\ institutionalSentiment microstructure <> "BEARISH")
  /\ getMicrostructureSignalScore microstructure == 0.
Proof.
  assert (orderFlowBias microstructure <> "BULLISH") as H1 by discriminate.
  assert (orderFlowBias microstructure <> "BEARISH") as H2 by discriminate.
  assert (institutionalSentiment microstructure <> "BULLISH") as H3
    by discriminate.
  assert (institutionalSentiment microstructure <> "BEARISH") as H4
    by discriminate.
  split; [repeat split; assumption|].
  destruct (microstructure_ranges microstructure) as (_ & _ & Hzero).
  exact (Hzero H1 H2 H3 H4).
Defined.

Lemma historical_score_range h :
  - (8 # 10) <= getHistoricalSignalScore h <= 8 # 10.
Proof.
  unfold getHistoricalSignalScore. repeat case_bool_decide; split; discriminate.
Qed.

Lemma num_or_zero h d : h == 0 -> Js.num_or (Some h) d = d.
Proof.
  intros Hh. unfold Js.num_or.
  rewrite (proj2 (Qeq_bool_iff h 0) Hh). reflexivity.
Qed.

(** The combined score of the enhanced fusion when the traditional and
    the AI score are both [x], for weights that sum to 1 with no
    historical weight. *)
Lemma enhanced_score_agreeing traditional (w : ModelWeights) hour hs ms x
    aiW tradW histW microW :
  adjustedWeights traditional w hour = (aiW, tradW, histW, microW) ->
  withinBounds w -> balanced w ->
  - (8 # 10) <= hs <= 8 # 10 -> -1 <= ms <= 1 ->
  (x == 1 -> 25 # 100 < x * tradW + x * aiW + hs * histW + ms * microW)
  /\ (x == -1 -> x * tradW + x * aiW + hs * histW + ms * microW < - (25 # 100)).
Proof.
  intros Hw [[Ha1 Ha2] [Ht1 Ht2]] [Hsum Hhist] [Hh1 Hh2] [Hm1 Hm2].
  unfold adjustedWeights, totalWeight in Hw.
  rewrite (num_or_zero _ _ Hhist) in Hw.
  assert (ai w + technical w + (2 # 10) + (15 # 100) == 135 # 100) as HT
    by lra.
  set (T := ai w + technical w + (2 # 10) + (15 # 100)) in *.
  assert (forall y, y / T == y * (100 # 135)) as Hdiv.
  { intros y. rewrite HT. field. }
  destruct (Js.gt (intraDayRange traditional) 2);
    destruct (Js.eq hour 9 || Js.ge hour 15);
    inversion Hw; subst aiW tradW histW microW; clear Hw;
    rewrite !Hdiv; split; intros Hx; rewrite Hx; nra.
Qed.

(** X27. With the weights kept by the tracker, agreement of the
    traditional and the AI signal decides the enhanced fusion.  After any
    sequence of tracker calls, whenever both say BUY the fused signal is
    BUY, and whenever both say SELL it is SELL, whatever the historical
    pattern, the microstructure, the volatility and the hour. *)
Theorem agreement_decides_the_enhanced_signal calls traditional a h m hour X :
  X = "BUY" \/ X = "SELL" ->
  sentimentSignal traditional = Some X -> tradingSignal a = Some X ->
  signal (enhancedCombineAnalysis traditional a h m
            (modelWeights (run calls init)) hour) = X.
Proof.
  intros HX Ht Ha.
  pose proof (run_withinBounds calls init withinBounds_init) as Hb.
  pose proof (run_balanced calls init balanced_init) as Hbal.
  set (w := modelWeights (run calls init)) in *.
  unfold enhancedCombineAnalysis.
  destruct (adjustedWeights traditional w hour)
    as [[[aiW tradW] histW] microW] eqn:Hw.
  cbn [signal]. rewrite Ht, Ha.
  pose proof (historical_score_range h) as Hhs.
  pose proof (microstructure_score_range m) as Hms.
  destruct HX as [-> | ->].
  - destruct (enhanced_score_agreeing traditional w hour
                (getHistoricalSignalScore h) (getMicrostructureSignalScore m)
                (signalScore (Some "BUY")) aiW tradW histW microW
                Hw Hb Hbal Hhs Hms) as [Hbuy _].
    rewrite (proj2 (gt_true_iff _ _) (Hbuy (Qeq_refl _))). reflexivity.
  - destruct (enhanced_score_agreeing traditional w hour
                (getHistoricalSignalScore h) (getMicrostructureSignalScore m)
                (signalScore (Some "SELL")) aiW tradW histW microW
                Hw Hb Hbal Hhs Hms) as [_ Hsell].
    specialize (Hsell (Qeq_refl _)).
    assert (Js.gt (signalScore (Some "SELL") * tradW
                   + signalScore (Some "SELL") * aiW
                   + getHistoricalSignalScore h * histW
                   + getMicrostructureSignalScore m * microW) (25 # 100)
            = false) as -> by (apply gt_false_iff; lra).
    rewrite (proj2 (lt_true_iff _ _) Hsell). reflexivity.
Qed.

Lemma agreement_decides_the_enhanced_signal_witness :
  (sentimentSignal traditional = Some "BUY"
   /\ tradingSignal aiAnalysis = Some "BUY")
  /\ signal (enhancedCombineAnalysis traditional aiAnalysis nightAnalysis
               microstructure
               (modelWeights (run TrackerSamples.poorThenExcellent init)) 16)
     = "BUY".
Proof.
  assert (sentimentSignal traditional = Some "BUY") as Ht by reflexivity.
  assert (tradingSignal aiAnalysis = Some "BUY") as Ha by reflexivity.
  split; [split; assumption|].
  exact (agreement_decides_the_enhanced_signal
           TrackerSamples.poorThenExcellent traditional aiAnalysis
           nightAnalysis microstructure 16 "BUY" (or_introl eq_refl) Ht Ha).
Defined.

End EnhancedFusionProperties.


(** ** Historical pattern analysis *)

Section HistoricalProperties.

Import HistoricalAnalysis.

Lemma count_nonneg (l : list DataPoint) : 0 <= count l.
Proof.
  unfold count. change 0 with (inject_Z 0). rewrite <- Zle_Qle. lia.
Qed.

Lemma count_filter_le (P : DataPoint -> Prop) `{!forall c, Decision (P c)}
    (l : list DataPoint) :
  count (filter P l) <= count l.
Proof.
  unfold count. rewrite <- Zle_Qle.
  pose proof (length_filter P l). lia.
Qed.

Lemma count_cons_pos p (l : list DataPoint) : 0 < count (p :: l).
Proof.
  unfold count. change 0 with (inject_Z 0). rewrite <- Zlt_Qlt.
  cbn [length]. lia.
Qed.

(** X28. The pattern accuracy is a whole percentage between 0 and 100:
    whatever the similar samples, [calculatePatternAccuracy] returns an
    integer in that range, and so does the accuracy field of the analysis
    returned by [analyzeHistoricalPatterns]. *)
Theorem pattern_accuracy_is_a_whole_percentage similar historicalData
    simulated currentData :
  (exists z : Z, (0 <= z <= 100)%Z
                 /\ calculatePatternAccuracy similar = inject_Z z)
  /\ (exists z : Z,
        (0 <= z <= 100)%Z
        /\ accuracy (analyzeHistoricalPatterns historicalData simulated
                       currentData) = inject_Z z).
Proof.
  assert (forall l, exists z : Z,
            (0 <= z <= 100)%Z /\ calculatePatternAccuracy l = inject_Z z)
    as Hall.
  { intros [|p l].
    - exists 50%Z. split; [lia | reflexivity].
    - unfold calculatePatternAccuracy.
      set (c := count (filter (fun c => isCorrect c = true) (p :: l))).
      set (n := count (p :: l)).
      assert (0 < n) as Hn by apply count_cons_pos.
      assert (0 <= c) as Hc0 by apply count_nonneg.
      assert (c <= n) as Hcn by apply count_filter_le.
      assert (0 <= c / n) as Hlo.
      { apply Qle_shift_div_l; [exact Hn | lra]. }
      assert (c / n <= 1) as Hhi.
      { apply Qle_shift_div_r; [exact Hn | lra]. }
      set (x := c / n) in *.
      exists (Qfloor (x * 100 + (1 # 2))). split; [|reflexivity].
      pose proof (round_mono (inject_Z 0) (x * 100)) as H0.
      pose proof (round_mono (x * 100) (inject_Z 100)) as H100.
      rewrite round_whole in H0, H100.
      unfold Js.round in H0, H100. rewrite <- Zle_Qle in H0, H100.
      split; [apply H0 | apply H100].
      + change (inject_Z 0) with 0. lra.
      + change (inject_Z 100) with 100. lra. }
  split; [apply Hall|].
  unfold analyzeHistoricalPatterns. cbn [accuracy]. apply Hall.
Qed.

(** X29. The confidence label and the confidence adjustment of an
    analysis agree, and they bound the factor that the enhanced fusion
    applies to its confidence: for the analysis returned by
    [analyzeHistoricalPatterns], HIGH goes with the adjustment 1.2 and a
    factor above 0.95 and below 1.46, MEDIUM with 1.0 and a factor above
    0.79 and below 1.11, LOW with 0.8 or 0.6 and a factor above 0.43 and
    below 0.89: a LOW label always lowers the fused confidence. *)
Theorem confidence_label_and_multiplier historicalData simulated currentData
    (m : MarketSentiment.Microstructure) :
  let h := analyzeHistoricalPatterns historicalData simulated currentData in
  let f := MarketSentiment.confidenceMultiplier h m in
  (confidence h = "HIGH" /\ confidenceAdjustment h == 12 # 10
   /\ 95 # 100 < f < 146 # 100)
  \/ (confidence h = "MEDIUM" /\ confidenceAdjustment h == 1
      /\ 79 # 100 < f < 111 # 100)
  \/ (confidence h = "LOW"
      /\ (confidenceAdjustment h == 8 # 10
          \/ confidenceAdjustment h == 6 # 10)
      /\ 43 # 100 < f < 89 # 100).
Proof.
  cbn zeta. unfold analyzeHistoricalPatterns, MarketSentiment.confidenceMultiplier.
  cbn [confidence confidenceAdjustment accuracy].
  generalize (calculatePatternAccuracy
                (findSimilarConditions
                   match historicalData with
                   | [] => simulated
                   | _ :: _ => historicalData
                   end currentData)).
  intros acc.
  unfold calculateHistoricalConfidence, calculateConfidenceAdjustment.
  destruct (Js.ge acc 80) eqn:H80;
    [apply ge_true_iff in H80 | apply ge_false_iff in H80];
    (destruct (Js.ge acc 60) eqn:H60;
     [apply ge_true_iff in H60 | apply ge_false_iff in H60]);
    (destruct (Js.ge acc 40) eqn:H40;
     [apply ge_true_iff in H40 | apply ge_false_iff in H40]);
    (destruct (Js.gt acc 80) eqn:G80;
     [apply gt_true_iff in G80 | apply gt_false_iff in G80]);
    (destruct (Js.lt acc 50) eqn:L50;
     [apply lt_true_iff in L50 | apply lt_false_iff in L50]);
    try (exfalso; lra);
    destruct (bool_decide (MarketSentiment.liquidityRisk m = "HIGH"));
    destruct (bool_decide (MarketSentiment.orderFlowBias m = "NEUTRAL"));
    first
      [ left; split; [reflexivity|];
        split; [reflexivity|]; vm_compute; split; reflexivity
      | right; left; split; [reflexivity|];
        split; [reflexivity|]; vm_compute; split; reflexivity
      | right; right; split; [reflexivity|];
        split; [left; reflexivity|]; vm_compute; split; reflexivity
      | right; right; split; [reflexivity|];
        split; [right; reflexivity|]; vm_compute; split; reflexivity ].
Qed.

(** X30. How the dominant pattern breaks ties: on a non-empty list of
    similar samples the pattern is BULLISH exactly when BUY samples are at
    least as many as SELL and as HOLD samples, BEARISH when SELL samples
    outnumber BUY and are at least as many as HOLD, and NEUTRAL only when
    HOLD samples outnumber both; it is never INSUFFICIENT_DATA. *)
Theorem dominant_pattern_breaks_ties_towards_bullish p l :
  let d := p :: l in
  let b := countSignal "BUY" d in
  let s := countSignal "SELL" d in
  let h := countSignal "HOLD" d in
  (identifyDominantPattern d = "BULLISH_PATTERN" /\ s <= b /\ h <= b)
  \/ (identifyDominantPattern d = "BEARISH_PATTERN" /\ b < s /\ h <= s)
  \/ (identifyDominantPattern d = "NEUTRAL_PATTERN" /\ b < h /\ s < h).
Proof.
  cbn zeta. unfold identifyDominantPattern.
  set (b := countSignal "BUY" (p :: l)).
  set (s := countSignal "SELL" (p :: l)).
  set (h := countSignal "HOLD" (p :: l)).
  pose proof (Q.le_max_l (Qmax b s) h) as M1.
  pose proof (Q.le_max_r (Qmax b s) h) as M2.
  pose proof (Q.le_max_l b s) as M3.
  pose proof (Q.le_max_r b s) as M4.
  fold (Js.max3 b s h) in M1, M2.
  destruct (Js.eq (Js.max3 b s h) b) eqn:Eb.
  - apply eq_true_iff in Eb. left. split; [reflexivity|]. split; lra.
  - assert (~ Js.max3 b s h == b) as Nb.
    { intros E. apply eq_true_iff in E. congruence. }
    assert (b < s \/ b < h) as Hlt.
    { destruct (Qlt_le_dec b s) as [Hbs|Hbs]; [left; exact Hbs|].
      destruct (Qlt_le_dec b h) as [Hbh|Hbh]; [right; exact Hbh|].
      exfalso. apply Nb. apply max3_eq_l; assumption. }
    destruct (Js.eq (Js.max3 b s h) s) eqn:Es.
    + apply eq_true_iff in Es. right. left. split; [reflexivity|].
      split; [|lra].
      destruct Hlt as [Hbs|Hbh]; [exact Hbs | lra].
    + assert (~ Js.max3 b s h == s) as Ns.
      { intros E. apply eq_true_iff in E. congruence. }
      right. right. split; [reflexivity|].
      assert (s < h) as Hsh.
      { destruct (Qlt_le_dec s h) as [Hsh|Hsh]; [exact Hsh|].
        exfalso.
        destruct (Qlt_le_dec s b) as [Hsb|Hsb].
        - apply Nb. apply max3_eq_l; lra.
        - apply Ns. apply max3_eq_m; assumption. }
      split; [|exact Hsh].
      destruct Hlt as [Hbs|Hbh]; [lra | exact Hbh].
Qed.

End HistoricalProperties.
